(** * OctWa Intents API: the intent settlement engine

    A shallow embedding of the settlement core of the repository:
    the price oracle ([src/oracle.ts]), the envelope verifier
    ([src/crypto.ts], [src/octra.ts]), the intent store ([src/store.ts],
    [src/db.ts]), the solver ([src/solver.ts]) and the HTTP handlers of the
    swap, history and explorer endpoints ([src/routes.ts]).

    Numbers.  Every TypeScript [number] is read as a real number: amounts,
    reserves, prices, fees and clock readings are of type [R], [Math.max],
    [Math.min], [Math.abs] and [Math.sqrt] are [Rmax], [Rmin], [Rabs] and
    [sqrt].  Rounding, overflow, infinities and NaN of IEEE doubles are not
    modelled; statements about the value of a quotient carry hypotheses under
    which the divisor is not zero, which is where the two readings part.

    Time and the outside world.  A function of the code is a function of the
    state of the process and of the answers it gets from outside: the
    readings of [Date.now()], the results of the RPC calls, the id of
    [uuidv4()].  An [async] function is cut where it awaits a payout: what
    runs before is one step, what runs on the result another.  The
    submissions are given twice: as one step each, for the runs in which
    they are taken one at a time, and cut at their other [await]s as well,
    for the runs in which they overlap. *)

From Stdlib Require Import Reals Lra Psatz.
From Stdlib Require Import List String Ascii Bool.
From Stdlib Require Import Sorted Permutation.
Import ListNotations.

Set Warnings "-register-all".

Open Scope R_scope.

(** [SwapDirection] of [src/types.ts]. *)
Inductive SwapDirection : Type := OCT_TO_ETH | ETH_TO_OCT.

(** Comparisons of numbers as the booleans the code branches on. *)
Definition Rltb (x y : R) : bool := if Rlt_dec x y then true else false.
Definition Rleb (x y : R) : bool := if Rle_dec x y then true else false.
Definition Rgtb (x y : R) : bool := Rltb y x.
Definition Rgeb (x y : R) : bool := Rleb y x.
Definition Reqb (x y : R) : bool := if Req_dec_T x y then true else false.

(** * The price oracle ([src/oracle.ts]) *)

Module Oracle.

(** The module-level constants read from the process environment. *)
Record Settings : Type := {
  INITIAL_RATE : R;
  VIRTUAL_OCT_RESERVE : R;
  VIRTUAL_ETH_RESERVE : R;
  EMA_ALPHA : R;
  TWAP_WINDOW_MS : R;
  MAX_PRICE_CHANGE_PERCENT : R;
  MIN_RATE_PERCENT : R;
  MAX_RATE_PERCENT : R;
  FEE_BPS : R
}.

(** The defaults of the source: rate 0.001, reserves 1,000,000 OCT and
    1,000 ETH, alpha 0.1, a 15 minute window, a 10% breaker, bounds at 50%
    and 200% of the initial rate, a fee of 50 basis points. *)
Definition defaults : Settings := {|
  INITIAL_RATE := 1 / 1000;
  VIRTUAL_OCT_RESERVE := 1000000;
  VIRTUAL_ETH_RESERVE := 1000;
  EMA_ALPHA := 1 / 10;
  TWAP_WINDOW_MS := 15 * 60 * 1000;
  MAX_PRICE_CHANGE_PERCENT := 10;
  MIN_RATE_PERCENT := 50;
  MAX_RATE_PERCENT := 200;
  FEE_BPS := 50
|}.

(** [CONFIG]. *)
Record Config : Type := {
  initialRate : R;
  minRate : R;
  maxRate : R;
  emaAlpha : R;
  twapWindowMs : R;
  maxPriceChangePercent : R;
  feeBps : R
}.

Definition CONFIG (s : Settings) : Config := {|
  initialRate := INITIAL_RATE s;
  minRate := INITIAL_RATE s * (MIN_RATE_PERCENT s / 100);
  maxRate := INITIAL_RATE s * (MAX_RATE_PERCENT s / 100);
  emaAlpha := EMA_ALPHA s;
  twapWindowMs := TWAP_WINDOW_MS s;
  maxPriceChangePercent := MAX_PRICE_CHANGE_PERCENT s;
  feeBps := FEE_BPS s
|}.

Inductive Reason : Type := swap | initial | ema_update | circuit_breaker.

Record PriceRecord : Type := {
  rate : R;
  pr_timestamp : R;
  reason : Reason;
  volume : option R;
  pr_direction : option SwapDirection
}.

Record TWAPDataPoint : Type := {
  price : R;
  timestamp : R;
  weight : R
}.

Record VirtualReserves : Type := {
  octReserve : R;
  ethReserve : R;
  k : R
}.

Record VolumeEntry : Type := {
  vol_timestamp : R;
  octAmount : R;
  vol_direction : SwapDirection
}.

(** The fields of [class PriceOracle].  Two fields stand for what the class
    keeps outside itself: [resetTimers] holds the due time of every pending
    [setTimeout] callback of [triggerCircuitBreaker], and [oracle_history]
    the rows written by [db.addOracleRate]. *)
Record PriceOracle : Type := {
  reserves : VirtualReserves;
  spotPrice : R;
  emaPrice : R;
  twapDataPoints : list TWAPDataPoint;
  priceHistory : list PriceRecord;
  volumeHistory : list VolumeEntry;
  circuitBreakerActive : bool;
  lastCircuitBreakerReset : R;
  resetTimers : list R;
  oracle_history : list (R * R)
}.

Definition set_reserves (o : PriceOracle) (r : VirtualReserves) : PriceOracle :=
  {| reserves := r; spotPrice := spotPrice o; emaPrice := emaPrice o;
     twapDataPoints := twapDataPoints o; priceHistory := priceHistory o;
     volumeHistory := volumeHistory o;
     circuitBreakerActive := circuitBreakerActive o;
     lastCircuitBreakerReset := lastCircuitBreakerReset o;
     resetTimers := resetTimers o; oracle_history := oracle_history o |}.

Definition set_spotPrice (o : PriceOracle) (p : R) : PriceOracle :=
  {| reserves := reserves o; spotPrice := p; emaPrice := emaPrice o;
     twapDataPoints := twapDataPoints o; priceHistory := priceHistory o;
     volumeHistory := volumeHistory o;
     circuitBreakerActive := circuitBreakerActive o;
     lastCircuitBreakerReset := lastCircuitBreakerReset o;
     resetTimers := resetTimers o; oracle_history := oracle_history o |}.

Definition set_emaPrice (o : PriceOracle) (p : R) : PriceOracle :=
  {| reserves := reserves o; spotPrice := spotPrice o; emaPrice := p;
     twapDataPoints := twapDataPoints o; priceHistory := priceHistory o;
     volumeHistory := volumeHistory o;
     circuitBreakerActive := circuitBreakerActive o;
     lastCircuitBreakerReset := lastCircuitBreakerReset o;
     resetTimers := resetTimers o; oracle_history := oracle_history o |}.

Definition set_twapDataPoints (o : PriceOracle) (l : list TWAPDataPoint) : PriceOracle :=
  {| reserves := reserves o; spotPrice := spotPrice o; emaPrice := emaPrice o;
     twapDataPoints := l; priceHistory := priceHistory o;
     volumeHistory := volumeHistory o;
     circuitBreakerActive := circuitBreakerActive o;
     lastCircuitBreakerReset := lastCircuitBreakerReset o;
     resetTimers := resetTimers o; oracle_history := oracle_history o |}.

Definition set_volumeHistory (o : PriceOracle) (l : list VolumeEntry) : PriceOracle :=
  {| reserves := reserves o; spotPrice := spotPrice o; emaPrice := emaPrice o;
     twapDataPoints := twapDataPoints o; priceHistory := priceHistory o;
     volumeHistory := l;
     circuitBreakerActive := circuitBreakerActive o;
     lastCircuitBreakerReset := lastCircuitBreakerReset o;
     resetTimers := resetTimers o; oracle_history := oracle_history o |}.

(** ** Swap calculations *)

(** [calculateEthOut]: ETH output for an OCT input, by
    [(x + dx)(y - dy) = k]. *)
Definition calculateEthOut (o : PriceOracle) (octAmount feeBps : R) : R :=
  let newOctReserve := octReserve (reserves o) + octAmount in
  let newEthReserve := k (reserves o) / newOctReserve in
  let grossEthOut := ethReserve (reserves o) - newEthReserve in
  let fee := grossEthOut * (feeBps / 10000) in
  let netEthOut := grossEthOut - fee in
  Rmax 0 netEthOut.

(** [calculateOctOut]: OCT output for an ETH input. *)
Definition calculateOctOut (o : PriceOracle) (ethAmount feeBps : R) : R :=
  let newEthReserve := ethReserve (reserves o) + ethAmount in
  let newOctReserve := k (reserves o) / newEthReserve in
  let grossOctOut := octReserve (reserves o) - newOctReserve in
  let fee := grossOctOut * (feeBps / 10000) in
  let netOctOut := grossOctOut - fee in
  Rmax 0 netOctOut.

(** [calculateSpotPrice]: ETH per OCT. *)
Definition calculateSpotPrice (o : PriceOracle) : R :=
  ethReserve (reserves o) / octReserve (reserves o).

(** The quote of a direction, with the reserve that takes the input and the
    reserve that pays the output. *)
Definition quote (d : SwapDirection) (o : PriceOracle) (amountIn feeBps : R) : R :=
  match d with
  | OCT_TO_ETH => calculateEthOut o amountIn feeBps
  | ETH_TO_OCT => calculateOctOut o amountIn feeBps
  end.

Definition reserveIn (d : SwapDirection) (o : PriceOracle) : R :=
  match d with
  | OCT_TO_ETH => octReserve (reserves o)
  | ETH_TO_OCT => ethReserve (reserves o)
  end.

Definition reserveOut (d : SwapDirection) (o : PriceOracle) : R :=
  match d with
  | OCT_TO_ETH => ethReserve (reserves o)
  | ETH_TO_OCT => octReserve (reserves o)
  end.

(** The steady state of the virtual pool: positive reserves whose product
    is [k]. *)
Definition steady (o : PriceOracle) : Prop :=
  0 < octReserve (reserves o) /\ 0 < ethReserve (reserves o) /\
  octReserve (reserves o) * ethReserve (reserves o) = k (reserves o).

(** ** State changes *)

Section WithSettings.

Variable s : Settings.

(** [updateEMA]: [ema = alpha * spot + (1 - alpha) * ema]. *)
Definition updateEMA (o : PriceOracle) : PriceOracle :=
  set_emaPrice o
    (emaAlpha (CONFIG s) * spotPrice o + (1 - emaAlpha (CONFIG s)) * emaPrice o).

(** The assignment [last.weight = now - last.timestamp] on the last element
    of the array. *)
Fixpoint close_last (now : R) (l : list TWAPDataPoint) : list TWAPDataPoint :=
  match l with
  | [] => []
  | [last] =>
      [{| price := price last; timestamp := timestamp last;
          weight := now - timestamp last |}]
  | dp :: rest => dp :: close_last now rest
  end.

(** The array [updateTWAP] leaves, from the reading [now] of [Date.now()],
    the spot price and the array it finds: the last sample is closed, a new
    one is pushed, the samples before the window are dropped. *)
Definition updateTWAP_points (now spot : R) (points : list TWAPDataPoint)
  : list TWAPDataPoint :=
  let windowStart := now - twapWindowMs (CONFIG s) in
  let closed := close_last now points in
  let pushed :=
    closed ++ [{| price := spot; timestamp := now; weight := 0 |}] in
  let kept := filter (fun dp => Rgeb (timestamp dp) windowStart) pushed in
  match kept with
  | [] => [{| price := spot; timestamp := now; weight := 0 |}]
  | _ => kept
  end.

(** [updateTWAP]. *)
Definition updateTWAP (now : R) (o : PriceOracle) : PriceOracle :=
  set_twapDataPoints o (updateTWAP_points now (spotPrice o) (twapDataPoints o)).

(** The loop of [calculateTWAP]: the pair (weightedSum, totalWeight). *)
Definition twap_sums (l : list TWAPDataPoint) : R * R :=
  fold_left
    (fun acc dp =>
       if Rgtb (weight dp) 0
       then (fst acc + price dp * weight dp, snd acc + weight dp)
       else acc)
    l (0, 0).

(** The value of [calculateTWAP], from the spot price and the samples. *)
Definition twap_of (spot : R) (points : list TWAPDataPoint) : R :=
  match points with
  | [] => spot
  | _ =>
      let (weightedSum, totalWeight) := twap_sums points in
      if Reqb totalWeight 0 then spot else weightedSum / totalWeight
  end.

(** [calculateTWAP]. *)
Definition calculateTWAP (o : PriceOracle) : R :=
  twap_of (spotPrice o) (twapDataPoints o).

(** [getEffectivePrice]: the TWAP alone while the breaker is active, else
    70% EMA and 30% TWAP. *)
Definition getEffectivePrice (o : PriceOracle) : R :=
  let twap := calculateTWAP o in
  if circuitBreakerActive o then twap
  else emaPrice o * (7 / 10) + twap * (3 / 10).

(** [getRate]: the rate handed to quoting callers, and the oracle after the
    [updateTWAP] the getter performs. *)
Definition getRate (now : R) (o : PriceOracle) : R * PriceOracle :=
  let o1 := updateTWAP now o in
  (getEffectivePrice o1, o1).

(** The cooldown of the breaker: [5 * 60 * 1000] milliseconds. *)
Definition COOLDOWN_MS : R := 5 * 60 * 1000.

(** [triggerCircuitBreaker]: raise the flag, fall back to the EMA as spot
    price and schedule the reset. *)
Definition triggerCircuitBreaker (now : R) (previousPrice : R) (o : PriceOracle)
  : PriceOracle :=
  {| reserves := reserves o;
     spotPrice := emaPrice o;
     emaPrice := emaPrice o;
     twapDataPoints := twapDataPoints o;
     priceHistory := priceHistory o;
     volumeHistory := volumeHistory o;
     circuitBreakerActive := true;
     lastCircuitBreakerReset := now;
     resetTimers := resetTimers o ++ [now + COOLDOWN_MS];
     oracle_history := oracle_history o |}.

(** The callback of one [setTimeout] of [triggerCircuitBreaker]. *)
Definition resetCallback (o : PriceOracle) : PriceOracle :=
  {| reserves := reserves o;
     spotPrice := spotPrice o;
     emaPrice := emaPrice o;
     twapDataPoints := twapDataPoints o;
     priceHistory := priceHistory o;
     volumeHistory := volumeHistory o;
     circuitBreakerActive := false;
     lastCircuitBreakerReset := lastCircuitBreakerReset o;
     resetTimers := resetTimers o;
     oracle_history := oracle_history o |}.

(** The event loop at clock reading [now]: every timer that is due has run
    its callback and is gone from the pending ones. *)
Definition fireDueTimers (now : R) (o : PriceOracle) : PriceOracle :=
  let due := filter (fun t => Rleb t now) (resetTimers o) in
  let pending := filter (fun t => negb (Rleb t now)) (resetTimers o) in
  let o1 := match due with [] => o | _ => resetCallback o end in
  {| reserves := reserves o1;
     spotPrice := spotPrice o1;
     emaPrice := emaPrice o1;
     twapDataPoints := twapDataPoints o1;
     priceHistory := priceHistory o1;
     volumeHistory := volumeHistory o1;
     circuitBreakerActive := circuitBreakerActive o1;
     lastCircuitBreakerReset := lastCircuitBreakerReset o1;
     resetTimers := pending;
     oracle_history := oracle_history o1 |}.

(** [applyPriceBounds]: clamp spot and EMA into [minRate, maxRate]; when the
    spot price was clamped, rebuild the reserves at that price, keeping [k]. *)
Definition applyPriceBounds (o : PriceOracle) : PriceOracle :=
  let oldPrice := spotPrice o in
  let spot :=
    if Rltb (spotPrice o) (minRate (CONFIG s)) then minRate (CONFIG s)
    else if Rgtb (spotPrice o) (maxRate (CONFIG s)) then maxRate (CONFIG s)
    else spotPrice o in
  let ema := Rmax (minRate (CONFIG s)) (Rmin (maxRate (CONFIG s)) (emaPrice o)) in
  let res :=
    if negb (Reqb spot oldPrice)
    then {| octReserve := sqrt (k (reserves o) / spot);
            ethReserve := sqrt (k (reserves o) * spot);
            k := k (reserves o) |}
    else reserves o in
  set_reserves (set_emaPrice (set_spotPrice o spot) ema) res.

(** [slice(-n)]: the last [n] elements. *)
Definition lastn {A : Type} (n : nat) (l : list A) : list A :=
  skipn (List.length l - n) l.

(** [recordPrice]: append to the in-memory history (capped at 1000 records)
    and, except for the initial record, to the persisted table. *)
Definition recordPrice (now : R) (r : R) (why : Reason) (vol : option R)
    (dir : option SwapDirection) (o : PriceOracle) : PriceOracle :=
  let pushed :=
    priceHistory o ++
    [{| rate := r; pr_timestamp := now; reason := why; volume := vol;
        pr_direction := dir |}] in
  let persisted :=
    match why with
    | initial => oracle_history o
    | _ => oracle_history o ++ [(r, now)]
    end in
  {| reserves := reserves o;
     spotPrice := spotPrice o;
     emaPrice := emaPrice o;
     twapDataPoints := twapDataPoints o;
     priceHistory :=
       if Nat.ltb 1000 (List.length pushed) then lastn 1000 pushed else pushed;
     volumeHistory := volumeHistory o;
     circuitBreakerActive := circuitBreakerActive o;
     lastCircuitBreakerReset := lastCircuitBreakerReset o;
     resetTimers := resetTimers o;
     oracle_history := persisted |}.

(** [cleanupVolumeHistory]: keep the last 24 hours. *)
Definition cleanupVolumeHistory (now : R) (o : PriceOracle) : PriceOracle :=
  let oneDayAgo := now - 24 * 60 * 60 * 1000 in
  set_volumeHistory o
    (filter (fun v => Rgeb (vol_timestamp v) oneDayAgo) (volumeHistory o)).

(** [new PriceOracle()] at clock reading [now]. *)
Definition constructor (now : R) : PriceOracle :=
  let res := {| octReserve := VIRTUAL_OCT_RESERVE s;
                ethReserve := VIRTUAL_ETH_RESERVE s;
                k := VIRTUAL_OCT_RESERVE s * VIRTUAL_ETH_RESERVE s |} in
  let spot := ethReserve res / octReserve res in
  recordPrice now spot initial None None
    {| reserves := res;
       spotPrice := spot;
       emaPrice := spot;
       twapDataPoints := [{| price := spot; timestamp := now; weight := 0 |}];
       priceHistory := [];
       volumeHistory := [];
       circuitBreakerActive := false;
       lastCircuitBreakerReset := 0;
       resetTimers := [];
       oracle_history := [] |}.

(** The first part of [recordSwap]: the update of the virtual reserves and
    of the volume log. *)
Definition updateReserves (now : R) (direction : SwapDirection) (amount : R)
    (o : PriceOracle) : PriceOracle :=
  match direction with
  | OCT_TO_ETH =>
      let ethOut := calculateEthOut o amount 0 in
      let res := {| octReserve := octReserve (reserves o) + amount;
                    ethReserve := ethReserve (reserves o) - ethOut;
                    k := k (reserves o) |} in
      set_volumeHistory (set_reserves o res)
        (volumeHistory o ++
         [{| vol_timestamp := now; octAmount := amount;
             vol_direction := direction |}])
  | ETH_TO_OCT =>
      let octOut := calculateOctOut o amount 0 in
      let res := {| octReserve := octReserve (reserves o) - octOut;
                    ethReserve := ethReserve (reserves o) + amount;
                    k := k (reserves o) |} in
      set_volumeHistory (set_reserves o res)
        (volumeHistory o ++
         [{| vol_timestamp := now; octAmount := octOut;
             vol_direction := direction |}])
  end.

(** The relative move of the spot price, in percent. *)
Definition priceChange (oldSpot newSpot : R) : R :=
  Rabs ((newSpot - oldSpot) / oldSpot) * 100.

(** The breaker test of [recordSwap], after the spot price was recomputed. *)
Definition checkCircuitBreaker (now oldSpot : R) (o : PriceOracle) : PriceOracle :=
  if Rgtb (priceChange oldSpot (spotPrice o)) (maxPriceChangePercent (CONFIG s))
  then triggerCircuitBreaker now oldSpot o
  else o.

(** [recordSwap(direction, amount)] at clock reading [now]. *)
Definition recordSwap (now : R) (direction : SwapDirection) (amount : R)
    (o : PriceOracle) : PriceOracle :=
  let oldSpot := spotPrice o in
  let o1 := updateReserves now direction amount o in
  let o2 := set_spotPrice o1 (calculateSpotPrice o1) in
  let o3 := checkCircuitBreaker now oldSpot o2 in
  let o4 := updateEMA o3 in
  let o5 := updateTWAP now o4 in
  let o6 := applyPriceBounds o5 in
  let o7 := recordPrice now (spotPrice o6) swap (Some amount) (Some direction) o6 in
  cleanupVolumeHistory now o7.

(** The clamp [applyPriceBounds] applies to the spot price. *)
Definition clamp (x : R) : R :=
  if Rltb x (minRate (CONFIG s)) then minRate (CONFIG s)
  else if Rgtb x (maxRate (CONFIG s)) then maxRate (CONFIG s)
  else x.

(** The test of [recordSwap] for the breaker: the swap moved the spot price
    by more than the threshold. *)
Definition trips (now : R) (d : SwapDirection) (a : R) (o : PriceOracle) : Prop :=
  priceChange (spotPrice o) (calculateSpotPrice (updateReserves now d a o))
  > maxPriceChangePercent (CONFIG s).

(** The oracle inside [recordSwap] when [applyPriceBounds] is reached. *)
Definition beforeBounds (now : R) (direction : SwapDirection) (amount : R)
    (o : PriceOracle) : PriceOracle :=
  let o1 := updateReserves now direction amount o in
  updateTWAP now
    (updateEMA
       (checkCircuitBreaker now (spotPrice o)
          (set_spotPrice o1 (calculateSpotPrice o1)))).

(** ** Getters *)

(** [getInverseRate]: the reciprocal of the effective price, on the samples
    as they are (this getter does not call [updateTWAP]). *)
Definition getInverseRate (o : PriceOracle) : R := 1 / getEffectivePrice o.

(** The result of [getPrices]. *)
Record Prices : Type := {
  spot : R;
  ema : R;
  twap : R;
  effective : R
}.

(** [getPrices], with the oracle after its [updateTWAP]. *)
Definition getPrices (now : R) (o : PriceOracle) : Prices * PriceOracle :=
  let o1 := updateTWAP now o in
  ({| spot := spotPrice o1;
      ema := emaPrice o1;
      twap := calculateTWAP o1;
      effective := getEffectivePrice o1 |}, o1).

(** The result of [calculatePriceImpact]. *)
Record PriceImpact : Type := {
  priceImpactPercent : R;
  effectivePrice : R;
  impact_spotPrice : R
}.

(** [calculatePriceImpact]: the price a trade gets without fee, in ETH per
    OCT, against the spot price. *)
Definition calculatePriceImpact (direction : SwapDirection) (amount : R)
    (o : PriceOracle) : PriceImpact :=
  let spotPrice := spotPrice o in
  match direction with
  | OCT_TO_ETH =>
      let ethOut := calculateEthOut o amount 0 in
      let effectivePrice := ethOut / amount in
      let priceImpactPercent := ((spotPrice - effectivePrice) / spotPrice) * 100 in
      {| priceImpactPercent := priceImpactPercent;
         effectivePrice := effectivePrice;
         impact_spotPrice := spotPrice |}
  | ETH_TO_OCT =>
      let octOut := calculateOctOut o amount 0 in
      let effectivePrice := amount / octOut in
      let priceImpactPercent := ((effectivePrice - spotPrice) / spotPrice) * 100 in
      {| priceImpactPercent := priceImpactPercent;
         effectivePrice := effectivePrice;
         impact_spotPrice := spotPrice |}
  end.

(** [Array.prototype.slice(start)] for an integer [start]: a negative start
    counts from the end, and both ends are clamped to the array. *)
Definition slice_from {A : Type} (start : Z) (l : list A) : list A :=
  let len := Z.of_nat (List.length l) in
  let from :=
    if (start <? 0)%Z then Z.max (len + start) 0 else Z.min start len in
  skipn (Z.to_nat from) l.

(** [getHistory(limit)], for an integer [limit]: [priceHistory.slice(-limit)]. *)
Definition getHistory (limit : Z) (o : PriceOracle) : list PriceRecord :=
  slice_from (- limit) (priceHistory o).

(** The result of [getVolume24h]. *)
Record Volume24h : Type := {
  octToEth : R;
  ethToOct : R;
  totalOct : R
}.

(** The loop of [getVolume24h]: the pair (octToEth, ethToOct). *)
Definition volume_sums (oneDayAgo : R) (l : list VolumeEntry) : R * R :=
  fold_left
    (fun acc v =>
       if Rgeb (vol_timestamp v) oneDayAgo
       then match vol_direction v with
            | OCT_TO_ETH => (fst acc + octAmount v, snd acc)
            | ETH_TO_OCT => (fst acc, snd acc + octAmount v)
            end
       else acc)
    l (0, 0).

(** [getVolume24h] at clock reading [now]. *)
Definition getVolume24h (now : R) (o : PriceOracle) : Volume24h :=
  let oneDayAgo := now - 24 * 60 * 60 * 1000 in
  let (octToEth, ethToOct) := volume_sums oneDayAgo (volumeHistory o) in
  {| octToEth := octToEth;
     ethToOct := ethToOct;
     totalOct := octToEth + ethToOct |}.

(** [OracleStats]. *)
Record OracleStats : Type := {
  stats_spotPrice : R;
  stats_emaPrice : R;
  twapPrice : R;
  ethUsd : R;
  octUsd : R;
  virtualReserves : VirtualReserves;
  stats_minRate : R;
  stats_maxRate : R;
  volume24h : Volume24h;
  priceDeviation : R;
  stats_circuitBreakerActive : bool;
  lastUpdate : R
}.

(** [getStats] at clock reading [now]; [cached] is [ethUsdCache.price]. *)
Definition getStats (now : R) (cached : R) (o : PriceOracle)
  : OracleStats * PriceOracle :=
  let o1 := updateTWAP now o in
  let twap := calculateTWAP o1 in
  let volume24h := getVolume24h now o1 in
  let ethUsd := cached in
  let octUsd := if Rgtb ethUsd 0 then spotPrice o1 * ethUsd else 0 in
  ({| stats_spotPrice := spotPrice o1;
      stats_emaPrice := emaPrice o1;
      twapPrice := twap;
      ethUsd := ethUsd;
      octUsd := octUsd;
      virtualReserves := reserves o1;
      stats_minRate := minRate (CONFIG s);
      stats_maxRate := maxRate (CONFIG s);
      volume24h := volume24h;
      priceDeviation := Rabs ((spotPrice o1 - twap) / twap) * 100;
      stats_circuitBreakerActive := circuitBreakerActive o1;
      lastUpdate := now |}, o1).

End WithSettings.

End Oracle.

(** ** The ETH/USD price ([src/oracle.ts]) *)

Module EthUsd.

Inductive Source : Type := none | chainlink | coingecko | coinbase.

(** [EthUsdPrice]. *)
Record EthUsdPrice : Type := {
  price : R;
  updatedAt : R;
  source : Source
}.

(** The cache when the module is loaded. *)
Definition ethUsdCache : EthUsdPrice :=
  {| price := 0; updatedAt := 0; source := none |}.

(** [!price] for a [number | null]. *)
Definition not_price (p : option R) : bool :=
  match p with
  | None => true
  | Some x => Reqb x 0
  end.

(** [fetchEthUsdPrice] at clock reading [now], from the answers of the three
    fetchers ([None] is their [null]); a fetcher further down the chain is
    asked only when the ones before it gave nothing. *)
Definition fetchEthUsdPrice (now : R)
    (fetchEthUsdFromChainlink fetchEthUsdFromCoinGecko fetchEthUsdFromCoinbase
       : option R)
    (cache : EthUsdPrice) : EthUsdPrice :=
  let price := fetchEthUsdFromChainlink in
  let source := chainlink in
  let (price, source) :=
    if not_price price then (fetchEthUsdFromCoinGecko, coingecko)
    else (price, source) in
  let (price, source) :=
    if not_price price then (fetchEthUsdFromCoinbase, coinbase)
    else (price, source) in
  match price with
  | Some x =>
      if (negb (Reqb x 0) && Rgtb x 0)%bool
      then {| price := x; updatedAt := now; source := source |}
      else cache
  | None => cache
  end.

(** [getEthUsdPrice]: a copy of the cache. *)
Definition getEthUsdPrice (cache : EthUsdPrice) : EthUsdPrice :=
  {| price := price cache; updatedAt := updatedAt cache; source := source cache |}.

End EthUsd.

(** * Strings *)

Module Str.

Open Scope string_scope.

(** [toLowerCase], on the ASCII letters. *)
Definition lower_ascii (c : ascii) : ascii :=
  let n := nat_of_ascii c in
  if (Nat.leb 65 n && Nat.leb n 90)%bool then ascii_of_nat (n + 32) else c.

Fixpoint toLowerCase (s : string) : string :=
  match s with
  | EmptyString => EmptyString
  | String c rest => String (lower_ascii c) (toLowerCase rest)
  end.

(** [startsWith]. *)
Definition startsWith (s pre : string) : bool := String.prefix pre s.

Definition is_digit (n : nat) : bool := (Nat.leb 48 n && Nat.leb n 57)%bool.
Definition is_upper (n : nat) : bool := (Nat.leb 65 n && Nat.leb n 90)%bool.
Definition is_lower (n : nat) : bool := (Nat.leb 97 n && Nat.leb n 122)%bool.

Definition is_hex_char (c : ascii) : bool :=
  let n := nat_of_ascii c in
  (is_digit n || (Nat.leb 65 n && Nat.leb n 70) || (Nat.leb 97 n && Nat.leb n 102))%bool.

(** The character class [[A-Za-z0-9+/=]]. *)
Definition is_base64_char (c : ascii) : bool :=
  let n := nat_of_ascii c in
  (is_upper n || is_lower n || is_digit n
   || Nat.eqb n 43 || Nat.eqb n 47 || Nat.eqb n 61)%bool.

Fixpoint all_chars (f : ascii -> bool) (s : string) : bool :=
  match s with
  | EmptyString => true
  | String c rest => (f c && all_chars f rest)%bool
  end.

(** [/^[A-Za-z0-9+/=]+$/.test(s)]. *)
Definition matches_base64 (s : string) : bool :=
  match s with
  | EmptyString => false
  | _ => all_chars is_base64_char s
  end.

(** [/^0x[a-fA-F0-9]{40}$/.test(s)]. *)
Definition matches_evm_address (s : string) : bool :=
  (startsWith s "0x" && Nat.eqb (String.length s) 42
   && all_chars is_hex_char (substring 2 40 s))%bool.

(** [trim], on the ASCII white space. *)
Definition is_space (c : ascii) : bool :=
  let n := nat_of_ascii c in
  (Nat.eqb n 32 || (Nat.leb 9 n && Nat.leb n 13))%bool.

Fixpoint trimStart (s : string) : string :=
  match s with
  | EmptyString => EmptyString
  | String c rest => if is_space c then trimStart rest else s
  end.

Fixpoint rev_string (acc s : string) : string :=
  match s with
  | EmptyString => acc
  | String c rest => rev_string (String c acc) rest
  end.

Definition trim (s : string) : string :=
  rev_string EmptyString (trimStart (rev_string EmptyString (trimStart s))).

(** [toUpperCase], on the ASCII letters. *)
Definition upper_ascii (c : ascii) : ascii :=
  let n := nat_of_ascii c in
  if (Nat.leb 97 n && Nat.leb n 122)%bool then ascii_of_nat (n - 32) else c.

Fixpoint toUpperCase (s : string) : string :=
  match s with
  | EmptyString => EmptyString
  | String c rest => String (upper_ascii c) (toUpperCase rest)
  end.

(** [/^[a-fA-F0-9]{64}$/.test(s)]. *)
Definition matches_hex64 (s : string) : bool :=
  (Nat.eqb (String.length s) 64 && all_chars is_hex_char s)%bool.

(** [/^0x[a-fA-F0-9]{64}$/.test(s)]. *)
Definition matches_0x_hex64 (s : string) : bool :=
  (startsWith s "0x" && Nat.eqb (String.length s) 66
   && all_chars is_hex_char (substring 2 64 s))%bool.

(** The characters of a text from position [pos] on: a dash at the
    positions 8, 13, 18 and 23, a hex digit elsewhere. *)
Fixpoint uuid_chars (pos : nat) (s : string) : bool :=
  match s with
  | EmptyString => true
  | String c rest =>
      ((if (Nat.eqb pos 8 || Nat.eqb pos 13 || Nat.eqb pos 18 || Nat.eqb pos 23)%bool
        then Nat.eqb (nat_of_ascii c) 45
        else is_hex_char c)
       && uuid_chars (S pos) rest)%bool
  end.

(** [/^[a-f0-9]{8}-[a-f0-9]{4}-[a-f0-9]{4}-[a-f0-9]{4}-[a-f0-9]{12}$/i.test(s)]. *)
Definition matches_uuid (s : string) : bool :=
  (Nat.eqb (String.length s) 36 && uuid_chars 0 s)%bool.

End Str.

(** * JavaScript values read from JSON *)

Module Json.

Inductive JSON : Type :=
| JNull
| JBool (b : bool)
| JNumber (x : R)
| JString (s : string)
| JArray (items : list JSON)
| JObject (fields : list (string * JSON)).

(** A value that may be [undefined]. *)
Definition JS : Type := option JSON.
Definition undefined : JS := None.

Fixpoint assoc (key : string) (fields : list (string * JSON)) : JS :=
  match fields with
  | [] => None
  | (name, v) :: rest => if String.eqb name key then Some v else assoc key rest
  end.

(** [v.key], for the keys the code reads (none of them is a property of a
    string, a number, a boolean or an array).  [None] is the [TypeError] of
    a property read on [null]. *)
Definition get (v : JSON) (key : string) : option JS :=
  match v with
  | JNull => None
  | JObject fields => Some (assoc key fields)
  | _ => Some undefined
  end.

(** Truthiness. *)
Definition truthy (v : JS) : bool :=
  match v with
  | None => false
  | Some JNull => false
  | Some (JBool b) => b
  | Some (JNumber x) => negb (Reqb x 0)
  | Some (JString s) => negb (String.eqb s EmptyString)
  | Some (JArray _) => true
  | Some (JObject _) => true
  end.

(** [a || b]. *)
Definition or_else (a b : JS) : JS := if truthy a then a else b.

(** [typeof v === 'number'], [typeof v === 'string']. *)
Definition is_number (v : JS) : bool :=
  match v with Some (JNumber _) => true | _ => false end.
Definition is_string (v : JS) : bool :=
  match v with Some (JString _) => true | _ => false end.

(** [v === x] for a number [x], [v === s] for a string [s]. *)
Definition eq_number (v : JS) (x : R) : bool :=
  match v with Some (JNumber y) => Reqb y x | _ => false end.
Definition eq_string (v : JS) (s : string) : bool :=
  match v with Some (JString t) => String.eqb t s | _ => false end.

(** The properties of an object literal; [JSON.stringify] leaves out the
    ones whose value is [undefined]. *)
Fixpoint literal (fields : list (string * JS)) : list (string * JSON) :=
  match fields with
  | [] => []
  | (name, Some v) :: rest => (name, v) :: literal rest
  | (name, None) :: rest => literal rest
  end.

End Json.

(** The functions of the platform the code calls: [JSON.parse] ([None] is
    its [SyntaxError]), [JSON.stringify], the SHA-256 hex digest of
    [crypto.createHash], [Buffer.from(s, enc).toString('utf8')] for the
    encodings [hex] and [base64], and the text SQLite makes of a number that
    is bound where a [TEXT] column is compared or written. *)
Record Platform : Type := {
  JSON_parse : string -> option Json.JSON;
  JSON_stringify : Json.JSON -> string;
  sha256_hex : string -> string;
  hex_to_utf8 : string -> string;
  base64_to_utf8 : string -> string;
  sqlite_text : R -> string
}.

(** [SwapIntentPayload] of [src/types.ts]. *)
Record SwapIntentPayload : Type := {
  version : R;
  intentType : string;
  fromAsset : string;
  toAsset : string;
  amountIn : R;
  minAmountOut : R;
  targetChain : string;
  targetAddress : string;
  expiry : R;
  nonce : string
}.

(** * The envelope verifier ([src/crypto.ts], [src/octra.ts]) *)

Module Envelope.

Import Json.
Open Scope string_scope.

(** The result [{ valid, payload?, error? }]. *)
Inductive Verified (A : Type) : Type :=
| Valid (payload : A)
| Invalid (error : string).
Arguments Valid {A} payload.
Arguments Invalid {A} error.

Definition TAMPERED : string :=
  "Payload hash mismatch - data may have been tampered".

Section WithPlatform.

Variable P : Platform.

(** [hashPayload]: SHA-256 of [JSON.stringify(payload)], in hex. *)
Definition hashPayload (payload : JSON) : string :=
  sha256_hex P (JSON_stringify P payload).

(** [verifyPayloadHash]: [actualHash === expectedHash]. *)
Definition verifyPayloadHash (payload : JSON) (expectedHash : JS) : bool :=
  eq_string expectedHash (hashPayload payload).

(** The detection of the encoding: not starting with an opening brace and
    made of base64 characters only. *)
Definition isBase64 (message : string) : bool :=
  (negb (Str.startsWith (Str.trim message) "{")
   && Str.matches_base64 (Str.trim message))%bool.

(** The decoding step shared by the two verifiers; [None] is an exception
    of [JSON.parse]. *)
Definition decodeEnvelope (message : string) : option JSON :=
  if isBase64 message
  then JSON_parse P (base64_to_utf8 P message)
  else JSON_parse P message.

(** [parseAndVerifyOctraEnvelope]; the payload it returns is the parsed
    value itself. *)
Definition parseAndVerifyOctraEnvelope (message : string) : Verified JSON :=
  match decodeEnvelope message with
  | None => Invalid "Failed to parse envelope"
  | Some envelope =>
      match get envelope "payload", get envelope "hash" with
      | Some p, Some hash =>
          match or_else p (Some envelope) with
          | Some payload =>
              if truthy hash
              then if verifyPayloadHash payload hash
                   then Valid payload
                   else Invalid TAMPERED
              else Valid payload
          | None => Invalid "Failed to parse envelope"
          end
      | _, _ => Invalid "Failed to parse envelope"
      end
  end.

(** The payload of a verified EVM envelope.  [targetAddress] and [nonce]
    are only known to be truthy. *)
Record EvmPayload : Type := {
  evm_targetAddress : JSON;
  evm_minAmountOut : R;
  evm_expiry : R;
  evm_nonce : JSON
}.

(** The [fullPayload] rebuilt for the hash of an EVM envelope. *)
Definition fullPayload (payload : JSON) : option JSON :=
  match get payload "fromAsset", get payload "toAsset", get payload "amountIn",
        get payload "minAmountOut", get payload "targetChain",
        get payload "targetAddress", get payload "expiry", get payload "nonce"
  with
  | Some fromA, Some toA, Some amt, Some minOut, Some chain, Some addr,
    Some exp, Some non =>
      Some (JObject (literal
        [ ("version", Some (JNumber 1));
          ("intentType", Some (JString "swap"));
          ("fromAsset", or_else fromA (Some (JString "ETH")));
          ("toAsset", or_else toA (Some (JString "OCT")));
          ("amountIn", amt);
          ("minAmountOut", minOut);
          ("targetChain", or_else chain (Some (JString "octra_mainnet")));
          ("targetAddress", addr);
          ("expiry", exp);
          ("nonce", non) ]))
  | _, _, _, _, _, _, _, _ => None
  end.

(** The check of the required fields of an EVM payload. *)
Definition evmFields (payload : JSON) : Verified EvmPayload :=
  match get payload "targetAddress", get payload "minAmountOut",
        get payload "expiry", get payload "nonce" with
  | Some (Some addr), Some (Some (JNumber minOut)), Some (Some (JNumber exp)),
    Some (Some non) =>
      if (truthy (Some addr) && truthy (Some non))%bool
      then Valid {| evm_targetAddress := addr; evm_minAmountOut := minOut;
                    evm_expiry := exp; evm_nonce := non |}
      else Invalid "Invalid payload structure"
  | Some _, Some _, Some _, Some _ => Invalid "Invalid payload structure"
  | _, _, _, _ => Invalid "Failed to parse EVM envelope"
  end.

(** The part of [parseAndVerifyEvmEnvelope] that works on the parsed
    envelope. *)
Definition verifyEvmEnvelope (envelope : JSON) : Verified EvmPayload :=
  match get envelope "payload", get envelope "hash" with
  | Some p, Some hash =>
      match or_else p (Some envelope) with
      | Some payload =>
          if truthy hash
          then match fullPayload payload with
               | Some full =>
                   if verifyPayloadHash full hash
                   then evmFields payload
                   else Invalid TAMPERED
               | None => Invalid "Failed to parse EVM envelope"
               end
          else evmFields payload
      | None => Invalid "Failed to parse EVM envelope"
      end
  | _, _ => Invalid "Failed to parse EVM envelope"
  end.

(** [parseAndVerifyEvmEnvelope]. *)
Definition parseAndVerifyEvmEnvelope (txInput : string) : Verified EvmPayload :=
  if ((txInput =? EmptyString) || (txInput =? "0x")
      || Nat.ltb (String.length txInput) 4)%bool
  then Invalid "No payload in tx.input"
  else
    let hexData :=
      if Str.startsWith txInput "0x"
      then substring 2 (String.length txInput - 2) txInput
      else txInput in
    let decodedHex := hex_to_utf8 P hexData in
    match decodeEnvelope decodedHex with
    | None => Invalid "Failed to parse EVM envelope"
    | Some envelope => verifyEvmEnvelope envelope
    end.

(** The check of the required fields in [parseIntentPayload]. *)
Definition octFields (payload : JSON) : option SwapIntentPayload :=
  match get payload "version", get payload "intentType",
        get payload "fromAsset", get payload "toAsset",
        get payload "amountIn", get payload "minAmountOut",
        get payload "targetChain", get payload "targetAddress",
        get payload "expiry", get payload "nonce" with
  | Some (Some (JNumber ver)), Some (Some (JString ty)),
    Some (Some (JString fromA)), Some (Some (JString toA)),
    Some (Some (JNumber amt)), Some (Some (JNumber minOut)),
    Some (Some (JString chain)), Some (Some (JString addr)),
    Some (Some (JNumber exp)), Some (Some (JString non)) =>
      if (Reqb ver 1 && (ty =? "swap") && (fromA =? "OCT") && (toA =? "ETH")
          && (chain =? "ethereum_sepolia"))%bool
      then Some {| version := ver; intentType := ty; fromAsset := fromA;
                   toAsset := toA; amountIn := amt; minAmountOut := minOut;
                   targetChain := chain; targetAddress := addr; expiry := exp;
                   nonce := non |}
      else None
  | _, _, _, _, _, _, _, _, _, _ => None
  end.

(** [parseIntentPayload] of [src/octra.ts]: the parser the solver applies
    to the memo of an Octra deposit.  [None] is its [null]. *)
Definition parseIntentPayload (message : option string) : option SwapIntentPayload :=
  match message with
  | None => None
  | Some m =>
      if m =? EmptyString then None
      else
        match JSON_parse P m with
        | None => None
        | Some parsed =>
            match get parsed "payload" with
            | None => None
            | Some p =>
                match or_else p (Some parsed) with
                | Some payload => octFields payload
                | None => None
                end
            end
        end
  end.

End WithPlatform.

End Envelope.

(** * The intent store ([src/store.ts] over [src/db.ts]) *)

Inductive IntentStatus : Type :=
  OPEN | PENDING | FULFILLED | EXPIRED | REJECTED | FAILED.

Definition IntentStatus_eqb (a b : IntentStatus) : bool :=
  match a, b with
  | OPEN, OPEN | PENDING, PENDING | FULFILLED, FULFILLED
  | EXPIRED, EXPIRED | REJECTED, REJECTED | FAILED, FAILED => true
  | _, _ => false
  end.

(** [Intent] of [src/types.ts]. *)
Record Intent : Type := {
  intentId : string;
  direction : SwapDirection;
  sourceAddress : string;
  sourceTxHash : string;
  i_amountIn : R;
  i_targetAddress : string;
  targetTxHash : option string;
  amountOut : option R;
  i_minAmountOut : R;
  status : IntentStatus;
  i_expiry : R;
  createdAt : R;
  fulfilledAt : option R;
  error : option string;
  payload : SwapIntentPayload
}.

Module Store.

Open Scope string_scope.

(** The tables [intents] (in row order) and [nonces]. *)
Record Db : Type := {
  intents : list Intent;
  nonces : list string
}.

Definition empty : Db := {| intents := []; nonces := [] |}.

(** [text || null] and [number || null] of the statements' arguments. *)
Definition text_or_null (v : option string) : option string :=
  match v with
  | Some t => if t =? EmptyString then None else Some t
  | None => None
  end.

Definition number_or_null (v : option R) : option R :=
  match v with
  | Some x => if Reqb x 0 then None else Some x
  | None => None
  end.

(** The row [addIntent] writes, as [rowToIntent] reads it back. *)
Definition row (i : Intent) : Intent :=
  {| intentId := intentId i;
     direction := direction i;
     sourceAddress := Str.toLowerCase (sourceAddress i);
     sourceTxHash := sourceTxHash i;
     i_amountIn := i_amountIn i;
     i_targetAddress := Str.toLowerCase (i_targetAddress i);
     targetTxHash := text_or_null (targetTxHash i);
     amountOut := number_or_null (amountOut i);
     i_minAmountOut := i_minAmountOut i;
     status := status i;
     i_expiry := i_expiry i;
     createdAt := createdAt i;
     fulfilledAt := number_or_null (fulfilledAt i);
     error := text_or_null (error i);
     payload := payload i |}.

(** [getIntent]. *)
Definition get (db : Db) (id : string) : option Intent :=
  find (fun i => intentId i =? id) (intents db).

(** [getIntentByTxHash]. *)
Definition getByTxHash (db : Db) (txHash : string) : option Intent :=
  find (fun i => sourceTxHash i =? txHash) (intents db).

(** [isNonceUsed]. *)
Definition isNonceUsed (db : Db) (n : string) : bool :=
  existsb (fun m => m =? n) (nonces db).

(** [addIntent]: the [INSERT]; [None] is the exception of the primary key
    when the id is taken. *)
Definition addIntent (db : Db) (i : Intent) : option Db :=
  match get db (intentId i) with
  | Some _ => None
  | None => Some {| intents := intents db ++ [row i]; nonces := nonces db |}
  end.

(** [addNonce]: [INSERT OR IGNORE]. *)
Definition addNonce (db : Db) (n : string) : Db :=
  if isNonceUsed db n then db
  else {| intents := intents db; nonces := nonces db ++ [n] |}.

(** [IntentStore.add]. *)
Definition add (db : Db) (i : Intent) : option Db :=
  match addIntent db i with
  | Some db1 => Some (addNonce db1 (nonce (payload i)))
  | None => None
  end.

(** The fields of a [Partial<Intent>] that [updateIntent] writes. *)
Record Updates : Type := {
  u_status : option IntentStatus;
  u_targetTxHash : option string;
  u_amountOut : option R;
  u_fulfilledAt : option R;
  u_error : option string
}.

Definition just_status (st : IntentStatus) : Updates :=
  {| u_status := Some st; u_targetTxHash := None; u_amountOut := None;
     u_fulfilledAt := None; u_error := None |}.

Definition override {A : Type} (old new : option A) : option A :=
  match new with Some _ => new | None => old end.

Definition merge (i : Intent) (u : Updates) : Intent :=
  {| intentId := intentId i;
     direction := direction i;
     sourceAddress := sourceAddress i;
     sourceTxHash := sourceTxHash i;
     i_amountIn := i_amountIn i;
     i_targetAddress := i_targetAddress i;
     targetTxHash := text_or_null (override (targetTxHash i) (u_targetTxHash u));
     amountOut := number_or_null (override (amountOut i) (u_amountOut u));
     i_minAmountOut := i_minAmountOut i;
     status := match u_status u with Some st => st | None => status i end;
     i_expiry := i_expiry i;
     createdAt := createdAt i;
     fulfilledAt := number_or_null (override (fulfilledAt i) (u_fulfilledAt u));
     error := text_or_null (override (error i) (u_error u));
     payload := payload i |}.

(** [updateIntent]: nothing happens for an unknown id. *)
Definition update (db : Db) (id : string) (u : Updates) : Db :=
  {| intents :=
       map (fun i => if intentId i =? id then merge i u else i) (intents db);
     nonces := nonces db |}.

(** [ORDER BY created_at ASC]. *)
Fixpoint insert_by_createdAt (i : Intent) (l : list Intent) : list Intent :=
  match l with
  | [] => [i]
  | j :: rest =>
      if Rltb (createdAt i) (createdAt j) then i :: l
      else j :: insert_by_createdAt i rest
  end.

Definition sort_by_createdAt (l : list Intent) : list Intent :=
  fold_left (fun acc i => insert_by_createdAt i acc) l [].

Definition with_status (st : IntentStatus) (db : Db) : list Intent :=
  sort_by_createdAt (filter (fun i => IntentStatus_eqb (status i) st) (intents db)).

(** [getOpenIntents], [getPendingIntents]. *)
Definition getOpenIntents (db : Db) : list Intent := with_status OPEN db.
Definition getPendingIntents (db : Db) : list Intent := with_status PENDING db.

(** [ORDER BY created_at DESC].  SQL leaves the order of rows with the same
    [created_at] open; they come in row order here. *)
Fixpoint insert_by_createdAt_desc (i : Intent) (l : list Intent) : list Intent :=
  match l with
  | [] => [i]
  | j :: rest =>
      if Rltb (createdAt j) (createdAt i) then i :: l
      else j :: insert_by_createdAt_desc i rest
  end.

Definition sort_by_createdAt_desc (l : list Intent) : list Intent :=
  fold_left (fun acc i => insert_by_createdAt_desc i acc) l [].

(** [LIMIT ?] bound to an integer: a negative limit is no limit. *)
Definition sql_limit {A : Type} (limit : Z) (l : list A) : list A :=
  if (limit <? 0)%Z then l else firstn (Z.to_nat limit) l.

(** [getIntentsByUser]: the rows whose source or target address is the
    lower-cased address, newest first. *)
Definition getIntentsByUser (db : Db) (address : string) (limit : Z)
  : list Intent :=
  let addr := Str.toLowerCase address in
  sql_limit limit
    (sort_by_createdAt_desc
       (filter (fun i => ((sourceAddress i =? addr)
                          || (i_targetAddress i =? addr))%bool)
          (intents db))).

(** [getAllIntents]. *)
Definition getAllIntents (db : Db) : list Intent :=
  sort_by_createdAt_desc (intents db).

Definition SwapDirection_eqb (a b : SwapDirection) : bool :=
  match a, b with
  | OCT_TO_ETH, OCT_TO_ETH | ETH_TO_OCT, ETH_TO_OCT => true
  | _, _ => false
  end.

(** [getIntentsByDirection]. *)
Definition getIntentsByDirection (db : Db) (d : SwapDirection) : list Intent :=
  sort_by_createdAt_desc
    (filter (fun i => SwapDirection_eqb (direction i) d) (intents db)).

End Store.

(** * The solver ([src/solver.ts]) *)

Inductive TxStatus : Type := tx_pending | tx_confirmed | tx_failed.

(** [OctraTransaction], [SepoliaTransaction] of [src/types.ts];
    [sep_value] is [parseFloat(tx.value)], the amount in wei. *)
Record OctraTransaction : Type := {
  oct_hash : string;
  oct_from : string;
  oct_to : string;
  oct_amount : R;
  oct_message : option string;
  oct_status : TxStatus
}.

Record SepoliaTransaction : Type := {
  sep_hash : string;
  sep_from : string;
  sep_to : string;
  sep_value : R;
  sep_status : TxStatus;
  sep_input : option string
}.

(** The entries of [config] the solver reads. *)
Record AppConfig : Type := {
  octraEscrowAddress : string;
  sepoliaEscrowAddress : string;
  cfg_feeBps : R
}.

(** The result of [sendETH] and [sendOCT]. *)
Record SendResult : Type := {
  success : bool;
  txHash : option string;
  send_error : option string
}.

Module Solver.

Import Store.
Open Scope string_scope.

(** A submission that nothing interrupts is one step: from the engine and
    the answers of the world to the engine after it, the response (or the
    exception) and the payouts it started, whose results arrive later as
    steps of their own ([resume]).  One run of the periodic checker is one
    step as well.  The pieces a submission is made of, between its
    [await]s, and the runs in which the pieces of several submissions
    alternate come after these ([octLookup], [overlapped]). *)

(** The reasons of [validateIntentPayload]. *)
Inductive ValidationError : Type :=
| NotSentToEscrow (expected got : string)
| AmountMismatch (expected got : R)
| IntentExpired
| InvalidTargetEvmAddress.

(** The [message] of a response; the values a template interpolates are the
    arguments. *)
Inductive Message : Type :=
| AlreadySubmitted
| NotFoundOnOctra
| NotFoundOnSepolia
| NotConfirmed (st : TxStatus)
| InvalidIntentPayload
| ValidationFailed (err : ValidationError)
| NotSentToEthEscrow (expected got : string)
| EnvelopeError (err : string)
| InvalidOctraAddressFormat
| IntentHasExpired
| NonceAlreadyUsed
| InvalidEthAmount
| OutputBelowMinimum (out minimum : R)
| FulfillmentInProgress
| QueuedForLiquidity.

(** [SubmitResponse]. *)
Record SubmitResponse : Type := {
  r_intentId : string;
  r_status : IntentStatus;
  r_message : Message
}.

Definition rejected (m : Message) : SubmitResponse :=
  {| r_intentId := EmptyString; r_status := REJECTED; r_message := m |}.

(** What a call of an [async] function comes to: a response, or an
    exception. *)
Inductive Outcome : Type :=
| Responded (r : SubmitResponse)
| Threw.

(** The answers of the outside world during one submission: the two RPC
    lookups, the fresh balances of the payout accounts, the id drawn by
    [uuidv4()] and the readings of [Date.now()], in the order the code
    takes them. *)
Record World : Type := {
  fetchOctraTransaction : string -> option OctraTransaction;
  fetchSepoliaTransaction : string -> option SepoliaTransaction;
  getHotWalletBalanceFresh : R;
  getEscrowBalanceFresh : R;
  uuidv4 : string;
  now_check : R;
  now_created : R;
  now_fulfill : R
}.

(** The state of the process: the database and the oracle singleton. *)
Record Engine : Type := {
  db : Db;
  oracle : Oracle.PriceOracle
}.

(** A payout handed to [sendETH] or [sendOCT] whose result is awaited:
    the fulfilling function, the intent it read and the amount. *)
Record Payout : Type := {
  pay_direction : SwapDirection;
  pay_intent : Intent;
  pay_amount : R
}.

Record Step : Type := {
  engine : Engine;
  outcome : Outcome;
  inflight : list Payout
}.

Definition LIQUIDITY_BUFFER : R := 11 / 10.

(** [validateIntentPayload]. *)
Definition validateIntentPayload (now : R) (p : SwapIntentPayload)
    (tx : OctraTransaction) (escrowAddress : string) : option ValidationError :=
  if negb (oct_to tx =? escrowAddress)
  then Some (NotSentToEscrow escrowAddress (oct_to tx))
  else if Rgtb (Rabs (oct_amount tx - amountIn p)) (1 / 1000000)
  then Some (AmountMismatch (amountIn p) (oct_amount tx))
  else if Rgtb now (expiry p) then Some IntentExpired
  else if negb (Str.matches_evm_address (targetAddress p))
  then Some InvalidTargetEvmAddress
  else None.

(** The part of [fulfillOctToEth] and of [fulfillEthToOct] that runs before
    the payout is awaited: the intent is read, must be [OPEN] or [PENDING]
    and not past its expiry. *)
Definition beginFulfill (d : SwapDirection) (now : R) (id : string) (out : R)
    (b : Db) : Db * list Payout :=
  match Store.get b id with
  | None => (b, [])
  | Some intent =>
      if (negb (IntentStatus_eqb (status intent) OPEN)
          && negb (IntentStatus_eqb (status intent) PENDING))%bool
      then (b, [])
      else if Rgtb now (i_expiry intent)
      then (Store.update b id (just_status EXPIRED), [])
      else (b, [{| pay_direction := d; pay_intent := intent; pay_amount := out |}])
  end.

(** [result.success && result.txHash]. *)
Definition sent (result : SendResult) : option string :=
  if success result then text_or_null (txHash result) else None.

Definition fulfilled (tx : string) (out now : R) : Updates :=
  {| u_status := Some FULFILLED; u_targetTxHash := Some tx;
     u_amountOut := Some out; u_fulfilledAt := Some now; u_error := None |}.

Section WithConfig.

Variable s : Oracle.Settings.
Variable config : AppConfig.
Variable P : Platform.

(** [fulfillOctToEth] from the result of [sendETH] on; [now] is the reading
    of [Date.now()]. *)
Definition fulfillOctToEth_resume (now : R) (result : SendResult) (p : Payout)
    (e : Engine) : Engine :=
  match sent result with
  | Some tx =>
      {| db := Store.update (db e) (intentId (pay_intent p))
                 (fulfilled tx (pay_amount p) now);
         oracle := Oracle.recordSwap s now OCT_TO_ETH
                     (i_amountIn (pay_intent p)) (oracle e) |}
  | None => e
  end.

(** [fulfillEthToOct] from the result of [sendOCT] on. *)
Definition fulfillEthToOct_resume (now : R) (result : SendResult) (p : Payout)
    (e : Engine) : Engine :=
  match sent result with
  | Some tx =>
      {| db := Store.update (db e) (intentId (pay_intent p))
                 (fulfilled tx (pay_amount p) now);
         oracle := Oracle.recordSwap s now ETH_TO_OCT (pay_amount p) (oracle e) |}
  | None => e
  end.

Definition resume (now : R) (result : SendResult) (p : Payout) (e : Engine)
  : Engine :=
  match pay_direction p with
  | OCT_TO_ETH => fulfillOctToEth_resume now result p e
  | ETH_TO_OCT => fulfillEthToOct_resume now result p e
  end.

Definition threw (e : Engine) : Step :=
  {| engine := e; outcome := Threw; inflight := [] |}.

(** The nonce of an EVM envelope as the SQLite driver binds it: a string as
    it is, a number as its text; any other value is refused with an
    exception ([None]). *)
Definition bindText (v : Json.JSON) : option string :=
  match v with
  | Json.JString t => Some t
  | Json.JNumber x => Some (sqlite_text P x)
  | _ => None
  end.

(** Steps 7 and 8 of a submission, shared by the two directions: the row is
    created and, with liquidity, the payout started. *)
Definition createIntent (w : World) (e : Engine) (intent : Intent)
    (hasLiquidity : bool) (out : R) : Step :=
  match Store.add (db e) intent with
  | None => threw e
  | Some b1 =>
      if hasLiquidity
      then
        let (b2, started) :=
          beginFulfill (direction intent) (now_fulfill w) (intentId intent) out b1 in
        {| engine := {| db := b2; oracle := oracle e |};
           outcome := Responded {| r_intentId := intentId intent;
                                   r_status := OPEN;
                                   r_message := FulfillmentInProgress |};
           inflight := started |}
      else
        {| engine := {| db := b1; oracle := oracle e |};
           outcome := Responded {| r_intentId := intentId intent;
                                   r_status := PENDING;
                                   r_message := QueuedForLiquidity |};
           inflight := [] |}
  end.

Definition reject (e : Engine) (m : Message) : Step :=
  {| engine := e; outcome := Responded (rejected m); inflight := [] |}.

Definition already (e : Engine) (existing : Intent) : Step :=
  {| engine := e;
     outcome := Responded {| r_intentId := intentId existing;
                             r_status := status existing;
                             r_message := AlreadySubmitted |};
     inflight := [] |}.

(** [processOctToEthSubmission]. *)
Definition processOctToEthSubmission (w : World) (e : Engine)
    (octraTxHash : string) : Step :=
  match Store.getByTxHash (db e) octraTxHash with
  | Some existing => already e existing
  | None =>
  match fetchOctraTransaction w octraTxHash with
  | None => reject e NotFoundOnOctra
  | Some tx =>
  match oct_status tx with
  | tx_pending | tx_failed => reject e (NotConfirmed (oct_status tx))
  | tx_confirmed =>
  match Envelope.parseIntentPayload P (oct_message tx) with
  | None => reject e InvalidIntentPayload
  | Some payload =>
  match validateIntentPayload (now_check w) payload tx (octraEscrowAddress config) with
  | Some err => reject e (ValidationFailed err)
  | None =>
  if Store.isNonceUsed (db e) (nonce payload) then reject e NonceAlreadyUsed
  else
    let ethOut := Oracle.calculateEthOut (oracle e) (amountIn payload) (cfg_feeBps config) in
    if Rltb ethOut (minAmountOut payload)
    then reject e (OutputBelowMinimum ethOut (minAmountOut payload))
    else
      let ethBalance := getHotWalletBalanceFresh w in
      let requiredEth := ethOut * LIQUIDITY_BUFFER in
      let hasLiquidity := Rgeb ethBalance requiredEth in
      let intent :=
        {| intentId := uuidv4 w;
           direction := OCT_TO_ETH;
           sourceAddress := oct_from tx;
           sourceTxHash := octraTxHash;
           i_amountIn := amountIn payload;
           i_targetAddress := targetAddress payload;
           targetTxHash := None;
           amountOut := None;
           i_minAmountOut := minAmountOut payload;
           status := if hasLiquidity then OPEN else PENDING;
           i_expiry := expiry payload;
           createdAt := now_created w;
           fulfilledAt := None;
           error := None;
           payload := payload |} in
      createIntent w e intent hasLiquidity ethOut
  end end end end end.

(** [processEthToOctSubmission]. *)
Definition processEthToOctSubmission (w : World) (e : Engine)
    (sepoliaTxHash : string) : Step :=
  match Store.getByTxHash (db e) sepoliaTxHash with
  | Some existing => already e existing
  | None =>
  match fetchSepoliaTransaction w sepoliaTxHash with
  | None => reject e NotFoundOnSepolia
  | Some tx =>
  match sep_status tx with
  | tx_pending | tx_failed => reject e (NotConfirmed (sep_status tx))
  | tx_confirmed =>
  if negb (Str.toLowerCase (sep_to tx) =? Str.toLowerCase (sepoliaEscrowAddress config))
  then reject e (NotSentToEthEscrow (sepoliaEscrowAddress config) (sep_to tx))
  else
  match Envelope.parseAndVerifyEvmEnvelope P
          (match sep_input tx with Some i => i | None => EmptyString end) with
  | Envelope.Invalid err => reject e (EnvelopeError err)
  | Envelope.Valid intentData =>
  match Envelope.evm_targetAddress intentData with
  | Json.JString target =>
  if negb (Str.startsWith target "oct") then reject e InvalidOctraAddressFormat
  else if Rgtb (now_check w) (Envelope.evm_expiry intentData)
  then reject e IntentHasExpired
  else
  match bindText (Envelope.evm_nonce intentData) with
  | Some non =>
  if Store.isNonceUsed (db e) non then reject e NonceAlreadyUsed
  else
    let ethAmount := sep_value tx / 1000000000000000000 in
    if Rleb ethAmount 0 then reject e InvalidEthAmount
    else
    let octOut := Oracle.calculateOctOut (oracle e) ethAmount (cfg_feeBps config) in
    if Rltb octOut (Envelope.evm_minAmountOut intentData)
    then reject e (OutputBelowMinimum octOut (Envelope.evm_minAmountOut intentData))
    else
      let octBalance := getEscrowBalanceFresh w in
      let requiredOct := octOut * LIQUIDITY_BUFFER in
      let hasLiquidity := Rgeb octBalance requiredOct in
      let payload :=
        {| version := 1;
           intentType := "swap";
           fromAsset := "ETH";
           toAsset := "OCT";
           amountIn := ethAmount;
           minAmountOut := Envelope.evm_minAmountOut intentData;
           targetChain := "octra_mainnet";
           targetAddress := target;
           expiry := Envelope.evm_expiry intentData;
           nonce := non |} in
      let intent :=
        {| intentId := uuidv4 w;
           direction := ETH_TO_OCT;
           sourceAddress := sep_from tx;
           sourceTxHash := sepoliaTxHash;
           i_amountIn := ethAmount;
           i_targetAddress := target;
           targetTxHash := None;
           amountOut := None;
           i_minAmountOut := Envelope.evm_minAmountOut intentData;
           status := if hasLiquidity then OPEN else PENDING;
           i_expiry := Envelope.evm_expiry intentData;
           createdAt := now_created w;
           fulfilledAt := None;
           error := None;
           payload := payload |} in
      createIntent w e intent hasLiquidity octOut
  | None => threw e
  end
  | _ => threw e
  end end end end end.

(** The answers of the outside world during one run of the periodic
    checker: its reading of the clock, and for each pending intent (by id)
    the fresh balances and the clock reading at the start of its payout. *)
Record SweepWorld : Type := {
  sweep_now : R;
  sweep_hotWallet : string -> R;
  sweep_escrow : string -> R;
  sweep_now_fulfill : string -> R
}.

(** The first loop of the checker: [OPEN] intents past their expiry. *)
Definition expireOpen (now : R) (b : Db) : Db :=
  fold_left
    (fun acc intent =>
       if Rgtb now (i_expiry intent)
       then Store.update acc (intentId intent) (just_status EXPIRED)
       else acc)
    (getOpenIntents b) b.

(** The body of the second loop, for one [PENDING] intent. *)
Definition retryPending (w : SweepWorld) (acc : Engine * list Payout)
    (intent : Intent) : Engine * list Payout :=
  let (e, started) := acc in
  let id := intentId intent in
  if Rgtb (sweep_now w) (i_expiry intent)
  then ({| db := Store.update (db e) id (just_status EXPIRED); oracle := oracle e |},
        started)
  else
    match direction intent with
    | OCT_TO_ETH =>
        let ethOut := Oracle.calculateEthOut (oracle e) (i_amountIn intent) (cfg_feeBps config) in
        let ethBalance := sweep_hotWallet w id in
        let requiredEth := ethOut * LIQUIDITY_BUFFER in
        if Rgeb ethBalance requiredEth
        then
          let b1 := Store.update (db e) id (just_status OPEN) in
          let (b2, more) := beginFulfill OCT_TO_ETH (sweep_now_fulfill w id) id ethOut b1 in
          ({| db := b2; oracle := oracle e |}, (started ++ more)%list)
        else acc
    | ETH_TO_OCT =>
        let octOut := Oracle.calculateOctOut (oracle e) (i_amountIn intent) (cfg_feeBps config) in
        let octBalance := sweep_escrow w id in
        let requiredOct := octOut * LIQUIDITY_BUFFER in
        if Rgeb octBalance requiredOct
        then
          let b1 := Store.update (db e) id (just_status OPEN) in
          let (b2, more) := beginFulfill ETH_TO_OCT (sweep_now_fulfill w id) id octOut b1 in
          ({| db := b2; oracle := oracle e |}, (started ++ more)%list)
        else acc
    end.

(** One run of the callback of [startExpiryChecker]: the engine after it and
    the payouts it started. *)
Definition expiryChecker (w : SweepWorld) (e : Engine) : Engine * list Payout :=
  let e1 := {| db := expireOpen (sweep_now w) (db e); oracle := oracle e |} in
  fold_left (retryPending w) (getPendingIntents (db e1)) (e1, []).

(** The submission of a deposit reference for a direction. *)
Definition submit (d : SwapDirection) (w : World) (e : Engine) (h : string)
  : Step :=
  match d with
  | OCT_TO_ETH => processOctToEthSubmission w e h
  | ETH_TO_OCT => processEthToOctSubmission w e h
  end.

(** The intent row a submission writes. *)
Definition octIntent (w : World) (e : Engine) (octraTxHash : string)
    (tx : OctraTransaction) (p : SwapIntentPayload) : Intent :=
  let ethOut := Oracle.calculateEthOut (oracle e) (amountIn p) (cfg_feeBps config) in
  {| intentId := uuidv4 w;
     direction := OCT_TO_ETH;
     sourceAddress := oct_from tx;
     sourceTxHash := octraTxHash;
     i_amountIn := amountIn p;
     i_targetAddress := targetAddress p;
     targetTxHash := None;
     amountOut := None;
     i_minAmountOut := minAmountOut p;
     status := if Rgeb (getHotWalletBalanceFresh w) (ethOut * LIQUIDITY_BUFFER)
               then OPEN else PENDING;
     i_expiry := expiry p;
     createdAt := now_created w;
     fulfilledAt := None;
     error := None;
     payload := p |}.

Definition ethIntent (w : World) (e : Engine) (sepoliaTxHash : string)
    (tx : SepoliaTransaction) (d : Envelope.EvmPayload) (target non : string)
  : Intent :=
  let ethAmount := sep_value tx / 1000000000000000000 in
  let octOut := Oracle.calculateOctOut (oracle e) ethAmount (cfg_feeBps config) in
  {| intentId := uuidv4 w;
     direction := ETH_TO_OCT;
     sourceAddress := sep_from tx;
     sourceTxHash := sepoliaTxHash;
     i_amountIn := ethAmount;
     i_targetAddress := target;
     targetTxHash := None;
     amountOut := None;
     i_minAmountOut := Envelope.evm_minAmountOut d;
     status := if Rgeb (getEscrowBalanceFresh w) (octOut * LIQUIDITY_BUFFER)
               then OPEN else PENDING;
     i_expiry := Envelope.evm_expiry d;
     createdAt := now_created w;
     fulfilledAt := None;
     error := None;
     payload :=
       {| version := 1;
          intentType := "swap";
          fromAsset := "ETH";
          toAsset := "OCT";
          amountIn := ethAmount;
          minAmountOut := Envelope.evm_minAmountOut d;
          targetChain := "octra_mainnet";
          targetAddress := target;
          expiry := Envelope.evm_expiry d;
          nonce := non |} |}.

(** Every validation of an OCT to ETH submission passes: the transaction is
    found and confirmed, its memo parses, it went to the escrow with the
    amount of the intent, the intent is not expired, its target is an EVM
    address, its nonce is new and the quote reaches its minimum. *)
Definition octValid (w : World) (e : Engine) (octraTxHash : string)
    (tx : OctraTransaction) (p : SwapIntentPayload) : Prop :=
  fetchOctraTransaction w octraTxHash = Some tx
  /\ oct_status tx = tx_confirmed
  /\ Envelope.parseIntentPayload P (oct_message tx) = Some p
  /\ validateIntentPayload (now_check w) p tx (octraEscrowAddress config) = None
  /\ Store.isNonceUsed (db e) (nonce p) = false
  /\ minAmountOut p
     <= Oracle.calculateEthOut (oracle e) (amountIn p) (cfg_feeBps config).

(** Every validation of an ETH to OCT submission passes. *)
Definition ethValid (w : World) (e : Engine) (sepoliaTxHash : string)
    (tx : SepoliaTransaction) (d : Envelope.EvmPayload) (target non : string)
  : Prop :=
  fetchSepoliaTransaction w sepoliaTxHash = Some tx
  /\ sep_status tx = tx_confirmed
  /\ Str.toLowerCase (sep_to tx) = Str.toLowerCase (sepoliaEscrowAddress config)
  /\ Envelope.parseAndVerifyEvmEnvelope P
       (match sep_input tx with Some i => i | None => EmptyString end) = Envelope.Valid d
  /\ Envelope.evm_targetAddress d = Json.JString target
  /\ Str.startsWith target "oct" = true
  /\ now_check w <= Envelope.evm_expiry d
  /\ bindText (Envelope.evm_nonce d) = Some non
  /\ Store.isNonceUsed (db e) non = false
  /\ 0 < sep_value tx / 1000000000000000000
  /\ Envelope.evm_minAmountOut d
     <= Oracle.calculateOctOut (oracle e) (sep_value tx / 1000000000000000000)
          (cfg_feeBps config).

(** The states of the engine when calls do not overlap: the process starts
    with an empty database and a new oracle, and moves by submissions, by
    the results of payouts and by the runs of the periodic checker, one at
    a time.  The runs in which one submission starts while another waits
    are those of [overlapped] below. *)
Inductive reachable : Engine -> Prop :=
| reach_start (now : R) :
    reachable {| db := Store.empty; oracle := Oracle.constructor s now |}
| reach_submitOct (w : World) (e : Engine) (h : string) :
    reachable e -> reachable (engine (processOctToEthSubmission w e h))
| reach_submitEth (w : World) (e : Engine) (h : string) :
    reachable e -> reachable (engine (processEthToOctSubmission w e h))
| reach_resume (now : R) (result : SendResult) (p : Payout) (e : Engine) :
    reachable e -> reachable (resume now result p e)
| reach_checker (w : SweepWorld) (e : Engine) :
    reachable e -> reachable (fst (expiryChecker w e)).

(** ** Submissions that overlap

    An [async] function runs in one piece up to its next [await]; while it
    waits, other requests run.  A submission waits twice before it writes
    its row: for the transaction ([fetchOctraTransaction],
    [fetchSepoliaTransaction]) and for the fresh balance
    ([getHotWalletBalanceFresh], [getEscrowBalanceFresh]).  It has three
    pieces, each on the engine as it is when the piece runs: the lookup of
    the reference, the checks on the transaction, and the creation of the
    row. *)

(** The first piece of [processOctToEthSubmission]: the answer when the
    reference is known, [None] when the function goes on to fetch the
    transaction. *)
Definition octLookup (e : Engine) (octraTxHash : string) : option Step :=
  match Store.getByTxHash (db e) octraTxHash with
  | Some existing => Some (already e existing)
  | None => None
  end.

(** Its second piece, from the answer of [fetchOctraTransaction] to the
    call of [getHotWalletBalanceFresh]: a rejection, or the transaction,
    the payload and the quote it goes on with. *)
Definition octChecks (w : World) (e : Engine) (octraTxHash : string)
  : Step + OctraTransaction * SwapIntentPayload * R :=
  match fetchOctraTransaction w octraTxHash with
  | None => inl (reject e NotFoundOnOctra)
  | Some tx =>
  match oct_status tx with
  | tx_pending | tx_failed => inl (reject e (NotConfirmed (oct_status tx)))
  | tx_confirmed =>
  match Envelope.parseIntentPayload P (oct_message tx) with
  | None => inl (reject e InvalidIntentPayload)
  | Some payload =>
  match validateIntentPayload (now_check w) payload tx (octraEscrowAddress config) with
  | Some err => inl (reject e (ValidationFailed err))
  | None =>
  if Store.isNonceUsed (db e) (nonce payload) then inl (reject e NonceAlreadyUsed)
  else
    let ethOut := Oracle.calculateEthOut (oracle e) (amountIn payload) (cfg_feeBps config) in
    if Rltb ethOut (minAmountOut payload)
    then inl (reject e (OutputBelowMinimum ethOut (minAmountOut payload)))
    else inr (tx, payload, ethOut)
  end end end end.

(** Its third piece, from the answer of [getHotWalletBalanceFresh] on. *)
Definition octCreate (w : World) (e : Engine) (octraTxHash : string)
    (tx : OctraTransaction) (payload : SwapIntentPayload) (ethOut : R) : Step :=
  let ethBalance := getHotWalletBalanceFresh w in
  let requiredEth := ethOut * LIQUIDITY_BUFFER in
  let hasLiquidity := Rgeb ethBalance requiredEth in
  let intent :=
    {| intentId := uuidv4 w;
       direction := OCT_TO_ETH;
       sourceAddress := oct_from tx;
       sourceTxHash := octraTxHash;
       i_amountIn := amountIn payload;
       i_targetAddress := targetAddress payload;
       targetTxHash := None;
       amountOut := None;
       i_minAmountOut := minAmountOut payload;
       status := if hasLiquidity then OPEN else PENDING;
       i_expiry := expiry payload;
       createdAt := now_created w;
       fulfilledAt := None;
       error := None;
       payload := payload |} in
  createIntent w e intent hasLiquidity ethOut.

(** The values the checks of [processEthToOctSubmission] hand on. *)
Record EthChecked : Type := {
  chk_tx : SepoliaTransaction;
  chk_intentData : Envelope.EvmPayload;
  chk_target : string;
  chk_nonce : string;
  chk_ethAmount : R;
  chk_octOut : R
}.

(** The three pieces of [processEthToOctSubmission]. *)
Definition ethLookup (e : Engine) (sepoliaTxHash : string) : option Step :=
  match Store.getByTxHash (db e) sepoliaTxHash with
  | Some existing => Some (already e existing)
  | None => None
  end.

Definition ethChecks (w : World) (e : Engine) (sepoliaTxHash : string)
  : Step + EthChecked :=
  match fetchSepoliaTransaction w sepoliaTxHash with
  | None => inl (reject e NotFoundOnSepolia)
  | Some tx =>
  match sep_status tx with
  | tx_pending | tx_failed => inl (reject e (NotConfirmed (sep_status tx)))
  | tx_confirmed =>
  if negb (Str.toLowerCase (sep_to tx) =? Str.toLowerCase (sepoliaEscrowAddress config))
  then inl (reject e (NotSentToEthEscrow (sepoliaEscrowAddress config) (sep_to tx)))
  else
  match Envelope.parseAndVerifyEvmEnvelope P
          (match sep_input tx with Some i => i | None => EmptyString end) with
  | Envelope.Invalid err => inl (reject e (EnvelopeError err))
  | Envelope.Valid intentData =>
  match Envelope.evm_targetAddress intentData with
  | Json.JString target =>
  if negb (Str.startsWith target "oct") then inl (reject e InvalidOctraAddressFormat)
  else if Rgtb (now_check w) (Envelope.evm_expiry intentData)
  then inl (reject e IntentHasExpired)
  else
  match bindText (Envelope.evm_nonce intentData) with
  | Some non =>
  if Store.isNonceUsed (db e) non then inl (reject e NonceAlreadyUsed)
  else
    let ethAmount := sep_value tx / 1000000000000000000 in
    if Rleb ethAmount 0 then inl (reject e InvalidEthAmount)
    else
    let octOut := Oracle.calculateOctOut (oracle e) ethAmount (cfg_feeBps config) in
    if Rltb octOut (Envelope.evm_minAmountOut intentData)
    then inl (reject e (OutputBelowMinimum octOut
                          (Envelope.evm_minAmountOut intentData)))
    else inr {| chk_tx := tx; chk_intentData := intentData;
                chk_target := target; chk_nonce := non;
                chk_ethAmount := ethAmount; chk_octOut := octOut |}
  | None => inl (threw e)
  end
  | _ => inl (threw e)
  end end end end.

Definition ethCreate (w : World) (e : Engine) (sepoliaTxHash : string)
    (c : EthChecked) : Step :=
  let octBalance := getEscrowBalanceFresh w in
  let requiredOct := chk_octOut c * LIQUIDITY_BUFFER in
  let hasLiquidity := Rgeb octBalance requiredOct in
  let payload :=
    {| version := 1;
       intentType := "swap";
       fromAsset := "ETH";
       toAsset := "OCT";
       amountIn := chk_ethAmount c;
       minAmountOut := Envelope.evm_minAmountOut (chk_intentData c);
       targetChain := "octra_mainnet";
       targetAddress := chk_target c;
       expiry := Envelope.evm_expiry (chk_intentData c);
       nonce := chk_nonce c |} in
  let intent :=
    {| intentId := uuidv4 w;
       direction := ETH_TO_OCT;
       sourceAddress := sep_from (chk_tx c);
       sourceTxHash := sepoliaTxHash;
       i_amountIn := chk_ethAmount c;
       i_targetAddress := chk_target c;
       targetTxHash := None;
       amountOut := None;
       i_minAmountOut := Envelope.evm_minAmountOut (chk_intentData c);
       status := if hasLiquidity then OPEN else PENDING;
       i_expiry := Envelope.evm_expiry (chk_intentData c);
       createdAt := now_created w;
       fulfilledAt := None;
       error := None;
       payload := payload |} in
  createIntent w e intent hasLiquidity (chk_octOut c).

(** What a call that waits goes on with when it is resumed. *)
Inductive Waiting : Type :=
| OctFetching (octraTxHash : string)
| OctProbing (octraTxHash : string) (tx : OctraTransaction)
    (payload : SwapIntentPayload) (ethOut : R)
| EthFetching (sepoliaTxHash : string)
| EthProbing (sepoliaTxHash : string) (c : EthChecked)
| Sending (p : Payout).

(** The process with the calls that wait. *)
Record System : Type := {
  running : Engine;
  waiting : list Waiting
}.

(** One piece runs: a submission whose reference is unknown starts to
    wait for the transaction; one that waits for the transaction runs its
    checks and is over or waits for the balance; one that waits for the
    balance writes its row and starts its payout; a payout that is awaited
    gives its result; the periodic checker runs.  The world gives the
    answers the piece takes. *)
Inductive move : System -> System -> Prop :=
| move_octLookup (e : Engine) (pool : list Waiting) (h : string) :
    octLookup e h = None ->
    move {| running := e; waiting := pool |}
         {| running := e; waiting := pool ++ [OctFetching h] |}
| move_octRefused (w : World) (e : Engine) (l1 l2 : list Waiting) (h : string)
    (st : Step) :
    octChecks w e h = inl st ->
    move {| running := e; waiting := l1 ++ OctFetching h :: l2 |}
         {| running := e; waiting := l1 ++ l2 |}
| move_octChecks (w : World) (e : Engine) (l1 l2 : list Waiting) (h : string)
    (tx : OctraTransaction) (payload : SwapIntentPayload) (ethOut : R) :
    octChecks w e h = inr (tx, payload, ethOut) ->
    move {| running := e; waiting := l1 ++ OctFetching h :: l2 |}
         {| running := e; waiting := l1 ++ OctProbing h tx payload ethOut :: l2 |}
| move_octCreate (w : World) (e : Engine) (l1 l2 : list Waiting) (h : string)
    (tx : OctraTransaction) (payload : SwapIntentPayload) (ethOut : R) :
    move {| running := e; waiting := l1 ++ OctProbing h tx payload ethOut :: l2 |}
         {| running := engine (octCreate w e h tx payload ethOut);
            waiting := l1 ++ l2
                       ++ map Sending (inflight (octCreate w e h tx payload ethOut)) |}
| move_ethLookup (e : Engine) (pool : list Waiting) (h : string) :
    ethLookup e h = None ->
    move {| running := e; waiting := pool |}
         {| running := e; waiting := pool ++ [EthFetching h] |}
| move_ethRefused (w : World) (e : Engine) (l1 l2 : list Waiting) (h : string)
    (st : Step) :
    ethChecks w e h = inl st ->
    move {| running := e; waiting := l1 ++ EthFetching h :: l2 |}
         {| running := e; waiting := l1 ++ l2 |}
| move_ethChecks (w : World) (e : Engine) (l1 l2 : list Waiting) (h : string)
    (c : EthChecked) :
    ethChecks w e h = inr c ->
    move {| running := e; waiting := l1 ++ EthFetching h :: l2 |}
         {| running := e; waiting := l1 ++ EthProbing h c :: l2 |}
| move_ethCreate (w : World) (e : Engine) (l1 l2 : list Waiting) (h : string)
    (c : EthChecked) :
    move {| running := e; waiting := l1 ++ EthProbing h c :: l2 |}
         {| running := engine (ethCreate w e h c);
            waiting := l1 ++ l2 ++ map Sending (inflight (ethCreate w e h c)) |}
| move_sent (now : R) (result : SendResult) (e : Engine) (l1 l2 : list Waiting)
    (p : Payout) :
    move {| running := e; waiting := l1 ++ Sending p :: l2 |}
         {| running := resume now result p e; waiting := l1 ++ l2 |}
| move_checker (w : SweepWorld) (e : Engine) (pool : list Waiting) :
    move {| running := e; waiting := pool |}
         {| running := fst (expiryChecker w e);
            waiting := pool ++ map Sending (snd (expiryChecker w e)) |}.

(** The states of the process when submissions may overlap.  A run of the
    periodic checker is taken in one piece here. *)
Inductive overlapped : System -> Prop :=
| over_start (now : R) :
    overlapped {| running := {| db := Store.empty;
                                oracle := Oracle.constructor s now |};
                  waiting := [] |}
| over_move (sys sys' : System) :
    overlapped sys -> move sys sys' -> overlapped sys'.

End WithConfig.

(** No two rows of the table have the same [sourceTxHash]. *)
Definition uniqueSource (b : Db) : Prop :=
  NoDup (map sourceTxHash (intents b)).

(** No two rows of the table have the same [intentId]. *)
Definition uniqueId (b : Db) : Prop :=
  NoDup (map intentId (intents b)).

(** The nonce of every row is in the table of nonces. *)
Definition noncesRecorded (b : Db) : Prop :=
  forall i, In i (intents b) -> isNonceUsed b (nonce (payload i)) = true.

(** An intent that still waits for its payout. *)
Definition live (i : Intent) : bool :=
  (IntentStatus_eqb (status i) OPEN || IntentStatus_eqb (status i) PENDING)%bool.

(** A row as the solver leaves it: its status is [OPEN], [PENDING],
    [FULFILLED] or [EXPIRED], and a fulfilled row holds the hash of its
    payout. *)
Definition wellFormed (i : Intent) : Prop :=
  (status i = OPEN \/ status i = PENDING \/ status i = FULFILLED
   \/ status i = EXPIRED)
  /\ (status i = FULFILLED ->
      exists tx, targetTxHash i = Some tx /\ tx <> EmptyString).

(** The id and the expiry of a row, which no update changes. *)
Definition key (i : Intent) : string * R := (intentId i, i_expiry i).

(** The updates the solver writes: the status [EXPIRED] or [OPEN] alone, or
    the result of a payout that went through. *)
Definition written (u : Updates) : Prop :=
  u = just_status EXPIRED \/ u = just_status OPEN
  \/ exists tx out now, tx <> EmptyString /\ u = fulfilled tx out now.

(** The balance a submission probes before it pays out in a direction: the
    hot wallet for ETH, the escrow for OCT. *)
Definition probed (d : SwapDirection) (w : World) : R :=
  match d with
  | OCT_TO_ETH => getHotWalletBalanceFresh w
  | ETH_TO_OCT => getEscrowBalanceFresh w
  end.

End Solver.

(** * The HTTP routes ([src/routes.ts])

    A handler is a function of the engine, of the parameters of the request
    as Express hands them over and of the answers of the world; it gives the
    engine after it and the response: the status code ([res.json] alone is
    200) and the body.  A query parameter read with [parseInt] is the integer
    read, [None] for [NaN] ([parseInt] takes any value and does not throw).
    A query parameter on which the handler calls a method of strings is a
    [Query]: absent, a string, or the array or object Express makes of a
    name given more than once or with brackets.  A handler without
    [try]/[catch] that throws is answered by the default error handler of
    Express, with status 500 and its own page ([src/index.ts] installs no
    error handler). *)

Module Routes.

Import Store Solver.
Open Scope string_scope.

(** A value of [req.query]. *)
Inductive Query : Type :=
| q_absent
| q_string (s : string)
| q_other.

(** ** Input validation helpers *)

(** [isValidOctraTxHash]: a string of 64 hex digits. *)
Definition isValidOctraTxHash (hash : Json.JS) : bool :=
  match hash with
  | Some (Json.JString h) => Str.matches_hex64 h
  | _ => false
  end.

(** [isValidEthTxHash]: a string of [0x] and 64 hex digits. *)
Definition isValidEthTxHash (hash : Json.JS) : bool :=
  match hash with
  | Some (Json.JString h) => Str.matches_0x_hex64 h
  | _ => false
  end.

(** [isValidIntentId]: the shape of a UUID. *)
Definition isValidIntentId (id : string) : bool := Str.matches_uuid id.

(** [isValidAddress]: an Octra address or an EVM address. *)
Definition isValidAddress (address : string) : bool :=
  if address =? EmptyString then false
  else (Str.startsWith address "oct" || Str.matches_evm_address address)%bool.

(** ** Responses *)

(** [StatusResponse] of [src/types.ts]. *)
Record StatusResponse : Type := {
  sr_intentId : string;
  sr_direction : SwapDirection;
  sr_status : IntentStatus;
  sr_sourceAddress : string;
  sr_sourceTxHash : string;
  sr_targetAddress : string;
  sr_targetTxHash : option string;
  sr_amountIn : R;
  sr_amountOut : option R
}.

(** An entry of the list [swaps] of [GET /explorer]. *)
Record ExplorerSwap : Type := {
  ex_id : string;
  ex_direction : SwapDirection;
  ex_status : IntentStatus;
  ex_sourceAddress : string;
  ex_targetAddress : string;
  ex_sourceTxHash : string;
  ex_targetTxHash : option string;
  ex_amountIn : R;
  ex_amountOut : option R;
  ex_createdAt : R;
  ex_fulfilledAt : option R
}.

Record ExplorerStats : Type := {
  totalSwaps : nat;
  stats_fulfilled : nat;
  stats_pending : nat;
  stats_failed : nat
}.

Record ExplorerResponse : Type := {
  ex_page : Z;
  ex_limit : Z;
  ex_total : Z;
  ex_totalPages : Z;
  ex_stats : ExplorerStats;
  ex_swaps : list ExplorerSwap
}.

(** The [payload] of an entry of the list [swaps] of
    [GET /history/:address]. *)
Record HistoryPayload : Type := {
  hp_fromAsset : string;
  hp_toAsset : string;
  hp_amountIn : R;
  hp_minAmountOut : R;
  hp_targetAddress : string
}.

(** An entry of that list; the [status] goes out in lower case. *)
Record HistorySwap : Type := {
  hs_id : string;
  hs_direction : SwapDirection;
  hs_status : string;
  hs_payload : HistoryPayload;
  hs_sourceTxHash : string;
  hs_targetTxHash : option string;
  hs_amountOut : option R;
  hs_createdAt : R;
  hs_fulfilledAt : option R;
  hs_error : option string
}.

Inductive Body : Type :=
| ErrorPage
| ErrorBody (error : string)
| SubmitBody (r : SubmitResponse)
| StatusBody (r : StatusResponse)
| ExplorerBody (r : ExplorerResponse)
| HistoryBody (address : string) (count : nat) (swaps : list HistorySwap)
| PriceHistoryBody (count : nat) (history : list Oracle.PriceRecord).

Record Response : Type := {
  code : nat;
  body : Body
}.

(** What a handler that may change the engine comes to. *)
Record Handled : Type := {
  after : Engine;
  response : Response;
  started : list Payout
}.

Definition refuse (e : Engine) (c : nat) (msg : string) : Handled :=
  {| after := e;
     response := {| code := c; body := ErrorBody msg |};
     started := [] |}.

(** The end of the three submission handlers:
    [res.status(result.status === 'REJECTED' ? 400 : 200).json(result)], and
    500 when the solver threw. *)
Definition answer (st : Step) : Handled :=
  {| after := engine st;
     response :=
       match outcome st with
       | Responded r =>
           {| code := if IntentStatus_eqb (r_status r) REJECTED then 400 else 200;
              body := SubmitBody r |}
       | Threw => {| code := 500; body := ErrorBody "Internal server error" |}
       end;
     started := inflight st |}.

(** [parseInt(x) || d]. *)
Definition or_default (x : option Z) (d : Z) : Z :=
  match x with
  | None => d
  | Some n => if (n =? 0)%Z then d else n
  end.

(** [Math.ceil(a / b)] for integers [a >= 0] and [b >= 1]. *)
Definition ceil_div (a b : Z) : Z := ((a + b - 1) / b)%Z.

(** [array.slice(from, to)] for integers [0 <= from <= to]. *)
Definition slice {A : Type} (from to : Z) (l : list A) : list A :=
  firstn (Z.to_nat (to - from)) (skipn (Z.to_nat from) l).

Definition IntentStatus_name (st : IntentStatus) : string :=
  match st with
  | OPEN => "OPEN" | PENDING => "PENDING" | FULFILLED => "FULFILLED"
  | EXPIRED => "EXPIRED" | REJECTED => "REJECTED" | FAILED => "FAILED"
  end.

Definition SwapDirection_name (d : SwapDirection) : string :=
  match d with
  | OCT_TO_ETH => "OCT_TO_ETH" | ETH_TO_OCT => "ETH_TO_OCT"
  end.

(** [list.includes(x)] for a list of strings. *)
Definition includes (l : list string) (x : string) : bool :=
  existsb (fun y => y =? x) l.

Definition count {A : Type} (f : A -> bool) (l : list A) : nat :=
  List.length (filter f l).

Section WithConfig.

Variable s : Oracle.Settings.
Variable config : AppConfig.
Variable P : Platform.

(** ** Swap endpoints *)

(** [POST /swap/oct-to-eth], and [POST /swap/submit] which has the same
    body; [octraTxHash] is the property of that name of the request body. *)
Definition post_swap_oct_to_eth (w : World) (e : Engine) (octraTxHash : Json.JS)
  : Handled :=
  if negb (Json.truthy octraTxHash)
  then refuse e 400 "octraTxHash is required"
  else if negb (isValidOctraTxHash octraTxHash)
  then refuse e 400 "Invalid transaction hash format"
  else
    match octraTxHash with
    | Some (Json.JString h) => answer (processOctToEthSubmission config P w e h)
    | _ => refuse e 400 "Invalid transaction hash format"
    end.

(** [POST /swap/eth-to-oct]. *)
Definition post_swap_eth_to_oct (w : World) (e : Engine) (sepoliaTxHash : Json.JS)
  : Handled :=
  if negb (Json.truthy sepoliaTxHash)
  then refuse e 400 "sepoliaTxHash is required"
  else if negb (isValidEthTxHash sepoliaTxHash)
  then refuse e 400 "Invalid transaction hash format"
  else
    match sepoliaTxHash with
    | Some (Json.JString h) => answer (processEthToOctSubmission config P w e h)
    | _ => refuse e 400 "Invalid transaction hash format"
    end.

(** The submission endpoint of a direction. *)
Definition post_swap (d : SwapDirection) (w : World) (e : Engine) (hash : Json.JS)
  : Handled :=
  match d with
  | OCT_TO_ETH => post_swap_oct_to_eth w e hash
  | ETH_TO_OCT => post_swap_eth_to_oct w e hash
  end.

(** [GET /swap/:intentId]. *)
Definition get_swap (e : Engine) (id : string) : Response :=
  if negb (isValidIntentId id)
  then {| code := 400; body := ErrorBody "Invalid intent ID format" |}
  else
    match Store.get (db e) id with
    | None => {| code := 404; body := ErrorBody "Intent not found" |}
    | Some intent =>
        {| code := 200;
           body := StatusBody
             {| sr_intentId := intentId intent;
                sr_direction := direction intent;
                sr_status := status intent;
                sr_sourceAddress := sourceAddress intent;
                sr_sourceTxHash := sourceTxHash intent;
                sr_targetAddress := i_targetAddress intent;
                sr_targetTxHash := targetTxHash intent;
                sr_amountIn := i_amountIn intent;
                sr_amountOut := amountOut intent |} |}
    end.

(** ** Oracle endpoints *)

(** [GET /oracle/price/history]. *)
Definition get_oracle_price_history (e : Engine) (limit : option Z) : Response :=
  let limit := or_default limit 100 in
  let history := Oracle.getHistory limit (oracle e) in
  {| code := 200; body := PriceHistoryBody (List.length history) history |}.

(** ** Utility endpoints *)

(** The filters and the sort of [GET /explorer]: the intents it lists,
    before they are cut into pages.  [statusParam] and [directionParam] are
    the query parameters [status] and [direction].  A parameter that is an
    array or an object is truthy and has no [toUpperCase]: the call throws
    ([None]). *)
Definition explorer_intents (e : Engine)
    (statusParam directionParam : Query) : option (list Intent) :=
  let intents := getAllIntents (db e) in
  match
    match statusParam with
    | q_absent => Some intents
    | q_string st =>
        if (negb (st =? EmptyString)
            && includes ["PENDING"; "FULFILLED"; "FAILED"; "REJECTED"]
                 (Str.toUpperCase st))%bool
        then Some (filter (fun i => IntentStatus_name (status i) =? Str.toUpperCase st)
                     intents)
        else Some intents
    | q_other => None
    end
  with
  | None => None
  | Some intents =>
  match
    match directionParam with
    | q_absent => Some intents
    | q_string d =>
        if (negb (d =? EmptyString)
            && includes ["OCT_TO_ETH"; "ETH_TO_OCT"] (Str.toUpperCase d))%bool
        then Some (filter (fun i => SwapDirection_name (direction i) =? Str.toUpperCase d)
                     intents)
        else Some intents
    | q_other => None
    end
  with
  | None => None
  | Some intents => Some (sort_by_createdAt_desc intents)
  end
  end.

(** The entry of an intent in the list [swaps]. *)
Definition explorer_swap (i : Intent) : ExplorerSwap :=
  {| ex_id := intentId i;
     ex_direction := direction i;
     ex_status := status i;
     ex_sourceAddress := sourceAddress i;
     ex_targetAddress := i_targetAddress i;
     ex_sourceTxHash := sourceTxHash i;
     ex_targetTxHash := targetTxHash i;
     ex_amountIn := i_amountIn i;
     ex_amountOut := amountOut i;
     ex_createdAt := createdAt i;
     ex_fulfilledAt := fulfilledAt i |}.

(** [GET /explorer]. *)
Definition get_explorer (e : Engine) (page limit : option Z)
    (statusParam directionParam : Query) : Response :=
  let page := Z.max 1 (or_default page 1) in
  let limit := Z.min 100 (Z.max 1 (or_default limit 20)) in
  match explorer_intents e statusParam directionParam with
  | None => {| code := 500; body := ErrorPage |}
  | Some intents =>
  let total := Z.of_nat (List.length intents) in
  let totalPages := ceil_div total limit in
  let offset := ((page - 1) * limit)%Z in
  let paginatedIntents := slice offset (offset + limit) intents in
  let stats :=
    {| totalSwaps := List.length (getAllIntents (db e));
       stats_fulfilled :=
         count (fun i => IntentStatus_eqb (status i) FULFILLED)
           (getAllIntents (db e));
       stats_pending :=
         count (fun i => IntentStatus_eqb (status i) PENDING)
           (getAllIntents (db e));
       stats_failed :=
         count (fun i => (IntentStatus_eqb (status i) FAILED
                          || IntentStatus_eqb (status i) REJECTED)%bool)
           (getAllIntents (db e)) |} in
  let swaps := map explorer_swap paginatedIntents in
  {| code := 200;
     body := ExplorerBody
       {| ex_page := page;
          ex_limit := limit;
          ex_total := total;
          ex_totalPages := totalPages;
          ex_stats := stats;
          ex_swaps := swaps |} |}
  end.

(** [GET /history/:address]. *)
Definition get_history (e : Engine) (address : string) (limit : option Z)
  : Response :=
  let limit := Z.min 100 (Z.max 1 (or_default limit 50)) in
  if address =? EmptyString
  then {| code := 400; body := ErrorBody "Address is required" |}
  else if negb (isValidAddress address)
  then {| code := 400; body := ErrorBody "Invalid address format" |}
  else
    let intents := getIntentsByUser (db e) address limit in
    let history :=
      map (fun i =>
             {| hs_id := intentId i;
                hs_direction := direction i;
                hs_status := Str.toLowerCase (IntentStatus_name (status i));
                hs_payload :=
                  {| hp_fromAsset :=
                       match direction i with
                       | OCT_TO_ETH => "OCT" | ETH_TO_OCT => "ETH"
                       end;
                     hp_toAsset :=
                       match direction i with
                       | OCT_TO_ETH => "ETH" | ETH_TO_OCT => "OCT"
                       end;
                     hp_amountIn := i_amountIn i;
                     hp_minAmountOut := minAmountOut (payload i);
                     hp_targetAddress := i_targetAddress i |};
                hs_sourceTxHash := sourceTxHash i;
                hs_targetTxHash := targetTxHash i;
                hs_amountOut := amountOut i;
                hs_createdAt := createdAt i;
                hs_fulfilledAt := fulfilledAt i;
                hs_error := error i |})
        intents in
    {| code := 200; body := HistoryBody address (List.length history) history |}.

End WithConfig.

(** The list [swaps] of a response of [GET /explorer]. *)
Definition swaps_of (r : Response) : list ExplorerSwap :=
  match body r with
  | ExplorerBody x => ex_swaps x
  | _ => []
  end.

End Routes.

(** * A platform and a configuration to run the code on

    The values of the platform functions on the texts that occur in the
    runs below: a hex and a base64 codec for ASCII text, [JSON.stringify]
    with the decimal text of the numbers listed in [numbers], [JSON.parse]
    and the SHA-256 digest as tables. *)

Module Fixture.

Import Json.
Open Scope string_scope.

(** The double quote, and a text between double quotes. *)
Definition dq : string := String (ascii_of_nat 34) EmptyString.
Definition q (t : string) : string := dq ++ t ++ dq.

Definition hex_digit (n : nat) : ascii :=
  if Nat.ltb n 10 then ascii_of_nat (48 + n)%nat else ascii_of_nat (87 + n)%nat.

Fixpoint hex_encode (t : string) : string :=
  match t with
  | EmptyString => EmptyString
  | String c rest =>
      let n := nat_of_ascii c in
      String (hex_digit (Nat.div n 16))
        (String (hex_digit (Nat.modulo n 16)) (hex_encode rest))
  end.

Definition hex_value (c : ascii) : option nat :=
  let n := nat_of_ascii c in
  if Str.is_digit n then Some (n - 48)%nat
  else if (Nat.leb 65 n && Nat.leb n 70)%bool then Some (n - 55)%nat
  else if (Nat.leb 97 n && Nat.leb n 102)%bool then Some (n - 87)%nat
  else None.

(** [Buffer.from(t, 'hex')]: pairs of digits up to the first that is not
    one. *)
Fixpoint hex_decode (t : string) : string :=
  match t with
  | String a (String b rest) =>
      match hex_value a, hex_value b with
      | Some x, Some y => String (ascii_of_nat (16 * x + y)%nat) (hex_decode rest)
      | _, _ => EmptyString
      end
  | _ => EmptyString
  end.

Definition base64_value (c : ascii) : option nat :=
  let n := nat_of_ascii c in
  if Str.is_upper n then Some (n - 65)%nat
  else if Str.is_lower n then Some (n - 71)%nat
  else if Str.is_digit n then Some (n + 4)%nat
  else if Nat.eqb n 43 then Some 62%nat
  else if Nat.eqb n 47 then Some 63%nat
  else None.

(** The 6-bit values of a base64 text, up to the padding. *)
Fixpoint base64_values (t : string) : list nat :=
  match t with
  | EmptyString => []
  | String c rest =>
      match base64_value c with
      | Some v => v :: base64_values rest
      | None => []
      end
  end.

Fixpoint base64_bytes (fuel : nat) (vs : list nat) : string :=
  match fuel with
  | O => EmptyString
  | S fuel' =>
      match vs with
      | a :: b :: c :: d :: rest =>
          String (ascii_of_nat (4 * a + Nat.div b 16)%nat)
            (String (ascii_of_nat (16 * Nat.modulo b 16 + Nat.div c 4)%nat)
               (String (ascii_of_nat (64 * Nat.modulo c 4 + d)%nat)
                  (base64_bytes fuel' rest)))
      | [a; b; c] =>
          String (ascii_of_nat (4 * a + Nat.div b 16)%nat)
            (String (ascii_of_nat (16 * Nat.modulo b 16 + Nat.div c 4)%nat)
               EmptyString)
      | [a; b] => String (ascii_of_nat (4 * a + Nat.div b 16)%nat) EmptyString
      | _ => EmptyString
      end
  end.

Definition base64_decode (t : string) : string :=
  base64_bytes (String.length t) (base64_values t).

(** The decimal text of some numbers. *)
Definition numbers : list (R * string) :=
  [ (0, "0"); (1, "1"); (2, "2"); (5, "5"); (80, "80"); (900, "900");
    (1000, "1000"); (100000, "100000"); (2000000, "2000000");
    (3600000, "3600000"); (9 / 10, "0.9") ].

Fixpoint lookup_number (x : R) (table : list (R * string)) : string :=
  match table with
  | [] => "NaN"
  | (y, t) :: rest => if Reqb x y then t else lookup_number x rest
  end.

Definition number_text (x : R) : string := lookup_number x numbers.

(** The text SQLite makes of some numbers bound as [REAL]. *)
Definition reals : list (R * string) :=
  [ (0, "0.0"); (1, "1.0"); (2, "2.0"); (5, "5.0"); (9 / 10, "0.9") ].

Definition real_text (x : R) : string := lookup_number x reals.

(** [JSON.stringify], for strings that need no escape. *)
Fixpoint stringify (v : JSON) : string :=
  match v with
  | JNull => "null"
  | JBool true => "true"
  | JBool false => "false"
  | JNumber x => number_text x
  | JString t => q t
  | JArray items =>
      "[" ++
      (fix go (l : list JSON) : string :=
         match l with
         | [] => EmptyString
         | [x] => stringify x
         | x :: rest => stringify x ++ "," ++ go rest
         end) items ++ "]"
  | JObject fields =>
      "{" ++
      (fix go (l : list (string * JSON)) : string :=
         match l with
         | [] => EmptyString
         | [(name, x)] => q name ++ ":" ++ stringify x
         | (name, x) :: rest => q name ++ ":" ++ stringify x ++ "," ++ go rest
         end) fields ++ "}"
  end.

(** The payload of an ETH to OCT intent: 1 ETH for at least 900 OCT. *)
Definition evmPayloadText (ver : string) : string :=
  "{" ++ q "version" ++ ":" ++ ver ++ ","
  ++ q "intentType" ++ ":" ++ q "swap" ++ ","
  ++ q "fromAsset" ++ ":" ++ q "ETH" ++ ","
  ++ q "toAsset" ++ ":" ++ q "OCT" ++ ","
  ++ q "amountIn" ++ ":1,"
  ++ q "minAmountOut" ++ ":900,"
  ++ q "targetChain" ++ ":" ++ q "octra_mainnet" ++ ","
  ++ q "targetAddress" ++ ":" ++ q "oct1recipient" ++ ","
  ++ q "expiry" ++ ":2000000,"
  ++ q "nonce" ++ ":" ++ q "n-1" ++ "}".

Definition evmPayload (ver : R) : JSON :=
  JObject
    [ ("version", JNumber ver); ("intentType", JString "swap");
      ("fromAsset", JString "ETH"); ("toAsset", JString "OCT");
      ("amountIn", JNumber 1); ("minAmountOut", JNumber 900);
      ("targetChain", JString "octra_mainnet");
      ("targetAddress", JString "oct1recipient");
      ("expiry", JNumber 2000000); ("nonce", JString "n-1") ].

(** The canonical JSON of that payload and its SHA-256 digest. *)
Definition canonical : string := evmPayloadText "1".
Definition digest : string :=
  "f7b1def77c9a4734e9b074796d2e9d72e052b064f84521056dba0a6db018737a".

(** The envelope [{ payload, hash, timestamp }] around it, with the
    [version] of the payload as a parameter. *)
Definition evmEnvelopeText (ver : string) : string :=
  "{" ++ q "payload" ++ ":" ++ evmPayloadText ver ++ ","
  ++ q "hash" ++ ":" ++ q digest ++ ","
  ++ q "timestamp" ++ ":1000}".

Definition evmEnvelope (ver : R) : JSON :=
  JObject
    [ ("payload", evmPayload ver); ("hash", JString digest);
      ("timestamp", JNumber 1000) ].

(** An envelope without hash whose target address is a number. *)
Definition illTypedText : string :=
  "{" ++ q "targetAddress" ++ ":5,"
  ++ q "minAmountOut" ++ ":1,"
  ++ q "expiry" ++ ":2000000,"
  ++ q "nonce" ++ ":" ++ q "n-2" ++ "}".

Definition illTyped : JSON :=
  JObject
    [ ("targetAddress", JNumber 5); ("minAmountOut", JNumber 1);
      ("expiry", JNumber 2000000); ("nonce", JString "n-2") ].

(** The memo of an OCT to ETH deposit. *)
Definition memoText (amount minOut non : string) : string :=
  "{" ++ q "version" ++ ":1,"
  ++ q "intentType" ++ ":" ++ q "swap" ++ ","
  ++ q "fromAsset" ++ ":" ++ q "OCT" ++ ","
  ++ q "toAsset" ++ ":" ++ q "ETH" ++ ","
  ++ q "amountIn" ++ ":" ++ amount ++ ","
  ++ q "minAmountOut" ++ ":" ++ minOut ++ ","
  ++ q "targetChain" ++ ":" ++ q "ethereum_sepolia" ++ ","
  ++ q "targetAddress" ++ ":" ++ q "0x00000000000000000000000000000000000000a1" ++ ","
  ++ q "expiry" ++ ":3600000,"
  ++ q "nonce" ++ ":" ++ q non ++ "}".

Definition memo (amount minOut : R) (non : string) : JSON :=
  JObject
    [ ("version", JNumber 1); ("intentType", JString "swap");
      ("fromAsset", JString "OCT"); ("toAsset", JString "ETH");
      ("amountIn", JNumber amount); ("minAmountOut", JNumber minOut);
      ("targetChain", JString "ethereum_sepolia");
      ("targetAddress", JString "0x00000000000000000000000000000000000000a1");
      ("expiry", JNumber 3600000); ("nonce", JString non) ].

Definition memoA : string := memoText "1000" "0.9" "nonce-A".
Definition memoB : string := memoText "100000" "80" "nonce-B".

(** The memo of a deposit whose [amountIn] is below 0. *)
Definition memoZ : string := memoText "-0.0000005" "0" "nonce-Z".

(** [JSON.parse] on the texts above. *)
Definition parse (t : string) : option JSON :=
  if t =? evmEnvelopeText "1" then Some (evmEnvelope 1)
  else if t =? evmEnvelopeText "2" then Some (evmEnvelope 2)
  else if t =? illTypedText then Some illTyped
  else if t =? memoA then Some (memo 1000 (9 / 10) "nonce-A")
  else if t =? memoB then Some (memo 100000 80 "nonce-B")
  else if t =? memoZ then Some (memo (- (1 / 2000000)) 0 "nonce-Z")
  else None.

(** The SHA-256 digest of the canonical payload. *)
Definition sha256 (t : string) : string :=
  if t =? canonical then digest else EmptyString.

Definition node : Platform := {|
  JSON_parse := parse;
  JSON_stringify := stringify;
  sha256_hex := sha256;
  hex_to_utf8 := hex_decode;
  base64_to_utf8 := base64_decode;
  sqlite_text := real_text
|}.

Definition config : AppConfig := {|
  octraEscrowAddress := "oct1escrow";
  sepoliaEscrowAddress := "0x00000000000000000000000000000000000000E5";
  cfg_feeBps := 50
|}.

(** The call data of a deposit: the envelope in hex. *)
Definition txInput (ver : string) : string := "0x" ++ hex_encode (evmEnvelopeText ver).

(** The same envelope in base64, and the call data that carries it. *)
Definition envelope64 : string :=
  "eyJwYXlsb2FkIjp7InZlcnNpb24iOjEsImludGVudFR5cGUiOiJzd2FwIiwiZnJv"
  ++ "bUFzc2V0IjoiRVRIIiwidG9Bc3NldCI6Ik9DVCIsImFtb3VudEluIjoxLCJtaW5B"
  ++ "bW91bnRPdXQiOjkwMCwidGFyZ2V0Q2hhaW4iOiJvY3RyYV9tYWlubmV0IiwidGFy"
  ++ "Z2V0QWRkcmVzcyI6Im9jdDFyZWNpcGllbnQiLCJleHBpcnkiOjIwMDAwMDAsIm5v"
  ++ "bmNlIjoibi0xIn0sImhhc2giOiJmN2IxZGVmNzdjOWE0NzM0ZTliMDc0Nzk2ZDJl"
  ++ "OWQ3MmUwNTJiMDY0Zjg0NTIxMDU2ZGJhMGE2ZGIwMTg3MzdhIiwidGltZXN0YW1w"
  ++ "IjoxMDAwfQ==".

Definition txInput64 : string := "0x" ++ hex_encode envelope64.
Definition txInputIllTyped : string := "0x" ++ hex_encode illTypedText.

(** The canonical payload the verifier rebuilds from the envelope, whatever
    the [version] the envelope states. *)
Definition rebuilt : JSON := evmPayload 1.

(** The payload the verifier returns for the deposit. *)
Definition verified : Envelope.EvmPayload :=
  {| Envelope.evm_targetAddress := JString "oct1recipient";
     Envelope.evm_minAmountOut := 900;
     Envelope.evm_expiry := 2000000;
     Envelope.evm_nonce := JString "n-1" |}.

(** The number of positions at which two texts differ. *)
Fixpoint differences (a b : string) : nat :=
  match a, b with
  | String x a', String y b' =>
      ((if Ascii.eqb x y then 0 else 1) + differences a' b')%nat
  | _, _ => 0%nat
  end.

End Fixture.

(** * Runs of the engine *)

Module Runs.

Import Store Solver Fixture.
Open Scope string_scope.

(** The engine at start: an empty database and a new oracle with the
    defaults of the source, at clock reading 0. *)
Definition start : Engine :=
  {| db := Store.empty; oracle := Oracle.constructor Oracle.defaults 0 |}.

(** Two confirmed Octra deposits to the escrow: A of 1000 OCT for at least
    0.9 ETH, B of 100000 OCT for at least 80 ETH. *)
Definition hashA : string :=
  "aaaaaaaaaaaaaaaaaaaaaaaaaaaaaaaaaaaaaaaaaaaaaaaaaaaaaaaaaaaaaaaa".
Definition hashB : string :=
  "bbbbbbbbbbbbbbbbbbbbbbbbbbbbbbbbbbbbbbbbbbbbbbbbbbbbbbbbbbbbbbbb".

Definition txA : OctraTransaction :=
  {| oct_hash := hashA; oct_from := "oct1alice"; oct_to := "oct1escrow";
     oct_amount := 1000; oct_message := Some memoA;
     oct_status := tx_confirmed |}.

Definition txB : OctraTransaction :=
  {| oct_hash := hashB; oct_from := "oct1bob"; oct_to := "oct1escrow";
     oct_amount := 100000; oct_message := Some memoB;
     oct_status := tx_confirmed |}.

Definition octraRpc (h : string) : option OctraTransaction :=
  if h =? hashA then Some txA else if h =? hashB then Some txB else None.

(** A confirmed Sepolia deposit of 1 ETH to the escrow whose call data is
    the envelope of [Fixture.txInput], and one whose call data is the
    envelope with a number as target address. *)
Definition hashE : string :=
  "0xeeeeeeeeeeeeeeeeeeeeeeeeeeeeeeeeeeeeeeeeeeeeeeeeeeeeeeeeeeeeeeee".
Definition hashF : string :=
  "0xffffffffffffffffffffffffffffffffffffffffffffffffffffffffffffffff".

Definition txE : SepoliaTransaction :=
  {| sep_hash := hashE;
     sep_from := "0x00000000000000000000000000000000000000c1";
     sep_to := "0x00000000000000000000000000000000000000e5";
     sep_value := 1000000000000000000;
     sep_status := tx_confirmed;
     sep_input := Some (txInput "1") |}.

Definition txF : SepoliaTransaction :=
  {| sep_hash := hashF;
     sep_from := "0x00000000000000000000000000000000000000c1";
     sep_to := "0x00000000000000000000000000000000000000e5";
     sep_value := 1000000000000000000;
     sep_status := tx_confirmed;
     sep_input := Some txInputIllTyped |}.

Definition sepoliaRpc (h : string) : option SepoliaTransaction :=
  if h =? hashE then Some txE else if h =? hashF then Some txF else None.

(** The world when A is submitted (the hot wallet is empty), when B is (it
    holds 1000 ETH), and when the Sepolia deposits are (the escrow holds
    5000 OCT). *)
Definition worldA : World :=
  {| fetchOctraTransaction := octraRpc;
     fetchSepoliaTransaction := sepoliaRpc;
     getHotWalletBalanceFresh := 0;
     getEscrowBalanceFresh := 5000;
     uuidv4 := "11111111-1111-4111-8111-111111111111";
     now_check := 1000; now_created := 1000; now_fulfill := 1000 |}.

Definition worldB : World :=
  {| fetchOctraTransaction := octraRpc;
     fetchSepoliaTransaction := sepoliaRpc;
     getHotWalletBalanceFresh := 1000;
     getEscrowBalanceFresh := 5000;
     uuidv4 := "22222222-2222-4222-8222-222222222222";
     now_check := 2000; now_created := 2000; now_fulfill := 2000 |}.

(** A payout that went through. *)
Definition paid : SendResult :=
  {| success := true; txHash := Some "0xpayout"; send_error := None |}.

(** A is submitted and queued; B is submitted, paid out at once and
    recorded by the oracle; then the periodic checker runs, the hot wallet
    holding 1000 ETH. *)
Definition stepA : Step := submit config node OCT_TO_ETH worldA start hashA.
Definition stepB : Step := submit config node OCT_TO_ETH worldB (engine stepA) hashB.

Definition afterB : Engine :=
  fold_left (fun e p => resume Oracle.defaults 3000 paid p e)
    (inflight stepB) (engine stepB).

Definition checkerWorld : SweepWorld :=
  {| sweep_now := 30000;
     sweep_hotWallet := fun _ => 1000;
     sweep_escrow := fun _ => 5000;
     sweep_now_fulfill := fun _ => 30000 |}.


(** The Sepolia deposit is submitted at start and paid out. *)
Definition stepE : Step := submit config node ETH_TO_OCT worldB start hashE.

Definition afterE : Engine :=
  fold_left (fun e p => resume Oracle.defaults 3000 paid p e)
    (inflight stepE) (engine stepE).

(** The deposit with the ill-typed envelope is submitted at start. *)
Definition stepF : Step := submit config node ETH_TO_OCT worldB start hashF.

(** The rows of A and of B as the submissions write them. *)
Definition payloadA : SwapIntentPayload :=
  {| version := 1; intentType := "swap"; fromAsset := "OCT"; toAsset := "ETH";
     amountIn := 1000; minAmountOut := 9 / 10;
     targetChain := "ethereum_sepolia";
     targetAddress := "0x00000000000000000000000000000000000000a1";
     expiry := 3600000; nonce := "nonce-A" |}.

Definition payloadB : SwapIntentPayload :=
  {| version := 1; intentType := "swap"; fromAsset := "OCT"; toAsset := "ETH";
     amountIn := 100000; minAmountOut := 80;
     targetChain := "ethereum_sepolia";
     targetAddress := "0x00000000000000000000000000000000000000a1";
     expiry := 3600000; nonce := "nonce-B" |}.

Definition rowA (st : IntentStatus) : Intent :=
  {| intentId := "11111111-1111-4111-8111-111111111111";
     direction := OCT_TO_ETH;
     sourceAddress := "oct1alice";
     sourceTxHash := hashA;
     i_amountIn := 1000;
     i_targetAddress := "0x00000000000000000000000000000000000000a1";
     targetTxHash := None;
     amountOut := None;
     i_minAmountOut := 9 / 10;
     status := st;
     i_expiry := 3600000;
     createdAt := 1000;
     fulfilledAt := None;
     error := None;
     payload := payloadA |}.

Definition rowB (st : IntentStatus) (tx : option string) (out at_ : option R)
  : Intent :=
  {| intentId := "22222222-2222-4222-8222-222222222222";
     direction := OCT_TO_ETH;
     sourceAddress := "oct1bob";
     sourceTxHash := hashB;
     i_amountIn := 100000;
     i_targetAddress := "0x00000000000000000000000000000000000000a1";
     targetTxHash := tx;
     amountOut := out;
     i_minAmountOut := 80;
     status := st;
     i_expiry := 3600000;
     createdAt := 2000;
     fulfilledAt := at_;
     error := None;
     payload := payloadB |}.

(** The oracle once the swap of B is recorded. *)
Definition oracleB : Oracle.PriceOracle :=
  Oracle.recordSwap Oracle.defaults 3000 OCT_TO_ETH 100000 (oracle start).

(** The row of the Sepolia deposit as the submission writes it. *)
Definition payloadE : SwapIntentPayload :=
  {| version := 1; intentType := "swap"; fromAsset := "ETH"; toAsset := "OCT";
     amountIn := 1000000000000000000 / 1000000000000000000;
     minAmountOut := 900;
     targetChain := "octra_mainnet";
     targetAddress := "oct1recipient";
     expiry := 2000000; nonce := "n-1" |}.

Definition rowE (st : IntentStatus) (tx : option string) (out at_ : option R)
  : Intent :=
  {| intentId := "22222222-2222-4222-8222-222222222222";
     direction := ETH_TO_OCT;
     sourceAddress := "0x00000000000000000000000000000000000000c1";
     sourceTxHash := hashE;
     i_amountIn := 1000000000000000000 / 1000000000000000000;
     i_targetAddress := "oct1recipient";
     targetTxHash := tx;
     amountOut := out;
     i_minAmountOut := 900;
     status := st;
     i_expiry := 2000000;
     createdAt := 2000;
     fulfilledAt := at_;
     error := None;
     payload := payloadE |}.

(** The payload the verifier returns for the ill-typed envelope. *)
Definition verifiedIllTyped : Envelope.EvmPayload :=
  {| Envelope.evm_targetAddress := Json.JNumber 5;
     Envelope.evm_minAmountOut := 1;
     Envelope.evm_expiry := 2000000;
     Envelope.evm_nonce := Json.JString "n-2" |}.

(** A new oracle; a first swap of 25000 OCT after one minute, a second of
    1025000 OCT after two. *)
Definition oracle0 : Oracle.PriceOracle := Oracle.constructor Oracle.defaults 0.
Definition oracle1 : Oracle.PriceOracle :=
  Oracle.recordSwap Oracle.defaults 60000 OCT_TO_ETH 25000 oracle0.
Definition oracle2 : Oracle.PriceOracle :=
  Oracle.recordSwap Oracle.defaults 120000 OCT_TO_ETH 1025000 oracle1.

(** The spot price and the EMA after the first swap. *)
Definition spot1 : R := 8 / 8405.
Definition ema1 : R := 1 / 10 * (8 / 8405) + 9 / 10 * (1 / 1000).

(** The deposit A submitted twice while the hot wallet holds 1000 ETH, the
    second call starting while the first waits: the world of the second
    call, the rows and the payouts of the two calls. *)
Definition worldC : World :=
  {| fetchOctraTransaction := octraRpc;
     fetchSepoliaTransaction := sepoliaRpc;
     getHotWalletBalanceFresh := 1000;
     getEscrowBalanceFresh := 5000;
     uuidv4 := "44444444-4444-4444-8444-444444444444";
     now_check := 2000; now_created := 2000; now_fulfill := 2000 |}.

Definition rowA_of (id : string) (st : IntentStatus) (tx : option string)
    (out at_ : option R) : Intent :=
  {| intentId := id;
     direction := OCT_TO_ETH;
     sourceAddress := "oct1alice";
     sourceTxHash := hashA;
     i_amountIn := 1000;
     i_targetAddress := "0x00000000000000000000000000000000000000a1";
     targetTxHash := tx;
     amountOut := out;
     i_minAmountOut := 9 / 10;
     status := st;
     i_expiry := 3600000;
     createdAt := 2000;
     fulfilledAt := at_;
     error := None;
     payload := payloadA |}.

Definition payoutA (id : string) : Payout :=
  {| pay_direction := OCT_TO_ETH;
     pay_intent := rowA_of id OPEN None None None;
     pay_amount := 995 / 1001 |}.

(** Both calls have looked the reference up and run their checks at start;
    then the first writes its row, then the second; then the two payouts
    go through. *)
Definition firstCall : Step :=
  octCreate worldB start hashA txA payloadA (995 / 1001).

Definition secondCall : Step :=
  octCreate worldC (engine firstCall) hashA txA payloadA (995 / 1001).

Definition bothPaid : Engine :=
  resume Oracle.defaults 4000 paid (payoutA (uuidv4 worldC))
    (resume Oracle.defaults 3000 paid (payoutA (uuidv4 worldB))
       (engine secondCall)).

(** A confirmed Octra transaction to the escrow that moves nothing, with a
    memo that asks for a swap of -0.0000005 OCT for at least 0 ETH, and the
    world when it is submitted; the hot wallet holds 1000 ETH. *)
Definition hashZ : string :=
  "cccccccccccccccccccccccccccccccccccccccccccccccccccccccccccccccc".

Definition txZ : OctraTransaction :=
  {| oct_hash := hashZ; oct_from := "oct1carol"; oct_to := "oct1escrow";
     oct_amount := 0; oct_message := Some memoZ;
     oct_status := tx_confirmed |}.

Definition worldZ : World :=
  {| fetchOctraTransaction := fun h => if h =? hashZ then Some txZ else None;
     fetchSepoliaTransaction := sepoliaRpc;
     getHotWalletBalanceFresh := 1000;
     getEscrowBalanceFresh := 5000;
     uuidv4 := "55555555-5555-4555-8555-555555555555";
     now_check := 1000; now_created := 1000; now_fulfill := 1000 |}.

Definition payloadZ : SwapIntentPayload :=
  {| version := 1; intentType := "swap"; fromAsset := "OCT"; toAsset := "ETH";
     amountIn := - (1 / 2000000); minAmountOut := 0;
     targetChain := "ethereum_sepolia";
     targetAddress := "0x00000000000000000000000000000000000000a1";
     expiry := 3600000; nonce := "nonce-Z" |}.

Definition rowZ (st : IntentStatus) (tx : option string) (at_ : option R)
  : Intent :=
  {| intentId := "55555555-5555-4555-8555-555555555555";
     direction := OCT_TO_ETH;
     sourceAddress := "oct1carol";
     sourceTxHash := hashZ;
     i_amountIn := - (1 / 2000000);
     i_targetAddress := "0x00000000000000000000000000000000000000a1";
     targetTxHash := tx;
     amountOut := None;
     i_minAmountOut := 0;
     status := st;
     i_expiry := 3600000;
     createdAt := 1000;
     fulfilledAt := at_;
     error := None;
     payload := payloadZ |}.

(** The deposit is submitted at start and its payout, of 0 ETH, goes
    through. *)
Definition stepZ : Step := submit config node OCT_TO_ETH worldZ start hashZ.

Definition afterZ : Engine :=
  fold_left (fun e p => resume Oracle.defaults 3000 paid p e)
    (inflight stepZ) (engine stepZ).

(** A confirmed plain transfer of 1 ETH to the escrow, without call data,
    and a world whose Sepolia node knows it. *)
Definition hashG : string :=
  "0x9999999999999999999999999999999999999999999999999999999999999999".

Definition txG : SepoliaTransaction :=
  {| sep_hash := hashG;
     sep_from := "0x00000000000000000000000000000000000000c1";
     sep_to := "0x00000000000000000000000000000000000000e5";
     sep_value := 1000000000000000000;
     sep_status := tx_confirmed;
     sep_input := Some "0x" |}.

Definition worldG : World :=
  {| fetchOctraTransaction := octraRpc;
     fetchSepoliaTransaction := fun h => if h =? hashG then Some txG else None;
     getHotWalletBalanceFresh := 1000;
     getEscrowBalanceFresh := 5000;
     uuidv4 := "33333333-3333-4333-8333-333333333333";
     now_check := 2000; now_created := 2000; now_fulfill := 2000 |}.

End Runs.

(** * Facts about numbers *)

Lemma Rltb_true (x y : R) : Rltb x y = true <-> x < y.
Proof. unfold Rltb; destruct (Rlt_dec x y); split; intros; auto; discriminate. Qed.

Lemma Rltb_false (x y : R) : Rltb x y = false <-> y <= x.
Proof.
  unfold Rltb; destruct (Rlt_dec x y); split; intros; auto; try discriminate; lra.
Qed.

Lemma Rleb_true (x y : R) : Rleb x y = true <-> x <= y.
Proof. unfold Rleb; destruct (Rle_dec x y); split; intros; auto; discriminate. Qed.

Lemma Rleb_false (x y : R) : Rleb x y = false <-> y < x.
Proof.
  unfold Rleb; destruct (Rle_dec x y); split; intros; auto; try discriminate; lra.
Qed.

Lemma Reqb_true (x y : R) : Reqb x y = true <-> x = y.
Proof. unfold Reqb; destruct (Req_dec_T x y); split; intros; auto; discriminate. Qed.

Lemma Reqb_false (x y : R) : Reqb x y = false <-> x <> y.
Proof.
  unfold Reqb; destruct (Req_dec_T x y); split; intros; auto; try discriminate.
  contradiction.
Qed.


(** Decide the comparisons of a goal whose numbers are constants. *)
Ltac decide_numbers :=
  unfold Rgtb, Rgeb;
  repeat match goal with
  | |- context [Rltb ?a ?b] =>
      first [ rewrite (proj2 (Rltb_true a b)) by lra
            | rewrite (proj2 (Rltb_false a b)) by lra ]
  | |- context [Rleb ?a ?b] =>
      first [ rewrite (proj2 (Rleb_true a b)) by lra
            | rewrite (proj2 (Rleb_false a b)) by lra ]
  | |- context [Reqb ?a ?b] =>
      first [ rewrite (proj2 (Reqb_true a b)) by lra
            | rewrite (proj2 (Reqb_false a b)) by lra ]
  | |- context [Rmax ?a ?b] =>
      first [ rewrite (Rmax_right a b) by lra
            | rewrite (Rmax_left a b) by lra ]
  | |- context [Rmin ?a ?b] =>
      first [ rewrite (Rmin_right a b) by lra
            | rewrite (Rmin_left a b) by lra ]
  | |- context [Rabs ?a] =>
      first [ rewrite (Rabs_pos_eq a) by lra
            | rewrite (Rabs_left a) by lra ]
  end.


Lemma Rmax_0_of_nonneg (x : R) : 0 <= x -> Rmax 0 x = x.
Proof. intros H. apply Rmax_right. exact H. Qed.




(** On a pool with [x * y = k] the output is [y * a / (x + a)]. *)
Lemma gross_closed_form (x y a : R) :
  x + a <> 0 -> y - (x * y) / (x + a) = y * a / (x + a).
Proof. intros H. field. exact H. Qed.


Lemma gross_nonneg (x y a : R) :
  0 < x -> 0 < y -> 0 <= a -> 0 <= y - (x * y) / (x + a).
Proof.
  intros Hx Hy Ha.
  rewrite gross_closed_form by lra.
  apply Rmult_le_pos; [nra|].
  left. apply Rinv_0_lt_compat. lra.
Qed.

(** * The quote *)

Section QuoteFacts.

Import Oracle.




End QuoteFacts.

(** * The virtual reserves under [recordSwap] *)

Section ReserveFacts.

Import Oracle.

Variable s : Settings.

Lemma recordSwap_unfold (now : R) (d : SwapDirection) (a : R) (o : PriceOracle) :
  recordSwap s now d a o =
  cleanupVolumeHistory now
    (recordPrice now (spotPrice (applyPriceBounds s (beforeBounds s now d a o)))
       swap (Some a) (Some d) (applyPriceBounds s (beforeBounds s now d a o))).
Proof. reflexivity. Qed.

Lemma reserves_beforeBounds (now : R) (d : SwapDirection) (a : R) (o : PriceOracle) :
  reserves (beforeBounds s now d a o) = reserves (updateReserves now d a o).
Proof.
  unfold beforeBounds, updateTWAP, updateEMA, checkCircuitBreaker.
  destruct (Rgtb _ _); reflexivity.
Qed.

Lemma reserves_recordSwap (now : R) (d : SwapDirection) (a : R) (o : PriceOracle) :
  reserves (recordSwap s now d a o) =
  reserves (applyPriceBounds s (beforeBounds s now d a o)).
Proof. reflexivity. Qed.

Lemma spotPrice_recordSwap (now : R) (d : SwapDirection) (a : R) (o : PriceOracle) :
  spotPrice (recordSwap s now d a o) =
  spotPrice (applyPriceBounds s (beforeBounds s now d a o)).
Proof. reflexivity. Qed.

(** The trade itself: the input reserve takes the amount, the output
    reserve pays the fee-free quote, and [k] stays. *)
Lemma updateReserves_trade (now : R) (d : SwapDirection) (a : R) (o : PriceOracle) :
  reserveIn d (updateReserves now d a o) = reserveIn d o + a /\
  reserveOut d (updateReserves now d a o) = reserveOut d o - quote d o a 0 /\
  k (reserves (updateReserves now d a o)) = k (reserves o).
Proof. destruct d; repeat split. Qed.

Lemma updateReserves_steady (now : R) (d : SwapDirection) (a : R) (o : PriceOracle) :
  steady o -> 0 <= a -> steady (updateReserves now d a o).
Proof.
  intros (Hoct & Heth & Hk) Ha.
  assert (Hkpos : 0 < k (reserves o)) by (rewrite <- Hk; nra).
  destruct d; unfold steady, updateReserves; cbn [reserves octReserve ethReserve k
    set_volumeHistory set_reserves];
    unfold calculateEthOut, calculateOctOut.
  - replace (ethReserve (reserves o) -
             k (reserves o) / (octReserve (reserves o) + a) -
             (ethReserve (reserves o) -
              k (reserves o) / (octReserve (reserves o) + a)) * (0 / 10000))
      with (ethReserve (reserves o) -
            (octReserve (reserves o) * ethReserve (reserves o))
            / (octReserve (reserves o) + a))
      by (rewrite Hk; field; lra).
    rewrite Rmax_0_of_nonneg by (apply gross_nonneg; lra).
    replace (ethReserve (reserves o) -
             (ethReserve (reserves o) -
              octReserve (reserves o) * ethReserve (reserves o)
              / (octReserve (reserves o) + a)))
      with (k (reserves o) / (octReserve (reserves o) + a))
      by (rewrite Hk; field; lra).
    split; [lra|]. split.
    + apply Rdiv_lt_0_compat; lra.
    + field; lra.
  - replace (octReserve (reserves o) -
             k (reserves o) / (ethReserve (reserves o) + a) -
             (octReserve (reserves o) -
              k (reserves o) / (ethReserve (reserves o) + a)) * (0 / 10000))
      with (octReserve (reserves o) -
            (ethReserve (reserves o) * octReserve (reserves o))
            / (ethReserve (reserves o) + a))
      by (rewrite <- Hk; field; lra).
    rewrite Rmax_0_of_nonneg by (apply gross_nonneg; lra).
    replace (octReserve (reserves o) -
             (octReserve (reserves o) -
              ethReserve (reserves o) * octReserve (reserves o)
              / (ethReserve (reserves o) + a)))
      with (k (reserves o) / (ethReserve (reserves o) + a))
      by (rewrite <- Hk; field; lra).
    split; [|split].
    + apply Rdiv_lt_0_compat; lra.
    + lra.
    + field; lra.
Qed.

(** The reserves rebuilt at a price [p]: their product is [k] again. *)
Lemma resynthesized_product (kk p : R) :
  0 < kk -> 0 < p ->
  0 < sqrt (kk / p) /\ 0 < sqrt (kk * p) /\ sqrt (kk / p) * sqrt (kk * p) = kk.
Proof.
  intros Hk Hp.
  assert (Hq : 0 < kk / p) by (apply Rdiv_lt_0_compat; assumption).
  assert (Hm : 0 < kk * p) by nra.
  split; [apply sqrt_lt_R0; exact Hq|].
  split; [apply sqrt_lt_R0; exact Hm|].
  rewrite <- sqrt_mult by lra.
  replace (kk / p * (kk * p)) with (kk * kk) by (field; lra).
  apply sqrt_square. lra.
Qed.

(** What [applyPriceBounds] does to the spot price and to the reserves. *)
Lemma applyPriceBounds_cases (o : PriceOracle) :
  (spotPrice (applyPriceBounds s o) = spotPrice o /\
   reserves (applyPriceBounds s o) = reserves o)
  \/
  (spotPrice (applyPriceBounds s o) <> spotPrice o /\
   (spotPrice (applyPriceBounds s o) = minRate (CONFIG s) \/
    spotPrice (applyPriceBounds s o) = maxRate (CONFIG s)) /\
   reserves (applyPriceBounds s o) =
     {| octReserve := sqrt (k (reserves o) / spotPrice (applyPriceBounds s o));
        ethReserve := sqrt (k (reserves o) * spotPrice (applyPriceBounds s o));
        k := k (reserves o) |}).
Proof.
  unfold applyPriceBounds.
  cbn [spotPrice reserves set_reserves set_emaPrice set_spotPrice].
  set (spot := if Rltb (spotPrice o) (minRate (CONFIG s)) then minRate (CONFIG s)
               else if Rgtb (spotPrice o) (maxRate (CONFIG s))
                    then maxRate (CONFIG s) else spotPrice o).
  destruct (Reqb spot (spotPrice o)) eqn:E; cbn [negb].
  - left. apply Reqb_true in E. split; [exact E | reflexivity].
  - right. apply Reqb_false in E. split; [exact E|]. split; [|reflexivity].
    subst spot.
    destruct (Rltb (spotPrice o) (minRate (CONFIG s))); [left; reflexivity|].
    destruct (Rgtb (spotPrice o) (maxRate (CONFIG s))); [right; reflexivity|].
    contradiction E; reflexivity.
Qed.

(** On a pool in its steady state and for a non-negative amount (and
    positive rate bounds), the trade update of [recordSwap] leaves the
    product of the two reserves at [k]; [k] itself is never changed; when the
    clamp of [applyPriceBounds] changes the price, the reserves are rebuilt
    as [sqrt (k / price)] and [sqrt (k * price)]; and after the call the
    product of the reserves is exactly [k], the pool being in its steady
    state again. *)
Theorem recordSwap_product_is_k (now : R) (d : SwapDirection) (a : R)
    (o : PriceOracle) :
  steady o -> 0 <= a -> 0 < minRate (CONFIG s) -> 0 < maxRate (CONFIG s) ->
  let traded := updateReserves now d a o in
  let before := beforeBounds s now d a o in
  let after := recordSwap s now d a o in
  octReserve (reserves traded) * ethReserve (reserves traded) = k (reserves o)
  /\ k (reserves after) = k (reserves o)
  /\ (spotPrice after <> spotPrice before ->
      octReserve (reserves after) = sqrt (k (reserves o) / spotPrice after) /\
      ethReserve (reserves after) = sqrt (k (reserves o) * spotPrice after))
  /\ octReserve (reserves after) * ethReserve (reserves after) = k (reserves after)
  /\ steady after.
Proof.
  intros Hst Ha Hmin Hmax traded before after.
  pose proof (updateReserves_steady now d a o Hst Ha) as (Hoct & Heth & Hk).
  fold traded in Hoct, Heth, Hk.
  assert (Hkk : k (reserves traded) = k (reserves o)) by (destruct d; reflexivity).
  assert (Hkpos : 0 < k (reserves o)).
  { destruct Hst as (H1 & H2 & H3). rewrite <- H3. nra. }
  assert (Hres : reserves before = reserves traded)
    by apply reserves_beforeBounds.
  assert (Hafter : reserves after = reserves (applyPriceBounds s before))
    by reflexivity.
  assert (Hspot : spotPrice after = spotPrice (applyPriceBounds s before))
    by reflexivity.
  split; [rewrite Hk; exact Hkk|].
  destruct (applyPriceBounds_cases before) as [(Hsame & Hr) | (Hdiff & Hval & Hr)].
  - rewrite Hafter, Hr, Hres. split; [exact Hkk|]. split.
    + intros Hne. rewrite Hspot, Hsame in Hne. contradiction Hne; reflexivity.
    + split; [exact Hk|]. unfold steady. rewrite Hafter, Hr, Hres. auto.
  - assert (Hp : 0 < spotPrice after).
    { rewrite Hspot. destruct Hval as [-> | ->]; assumption. }
    rewrite <- Hspot in Hr. rewrite Hres, Hkk in Hr.
    destruct (resynthesized_product (k (reserves o)) (spotPrice after) Hkpos Hp)
      as (H1 & H2 & H3).
    rewrite Hafter, Hr. cbn [octReserve ethReserve k].
    split; [reflexivity|]. split; [intros _; split; reflexivity|].
    split; [exact H3|].
    unfold steady. rewrite Hafter, Hr. cbn [octReserve ethReserve k]. auto.
Qed.

(** The pool starts in its steady state. *)
Lemma constructor_steady (now : R) :
  0 < VIRTUAL_OCT_RESERVE s -> 0 < VIRTUAL_ETH_RESERVE s ->
  steady (constructor s now).
Proof.
  intros Ho He. unfold steady, constructor, recordPrice.
  cbn [reserves octReserve ethReserve k]. auto.
Qed.

End ReserveFacts.

(** * The circuit breaker *)

Section BreakerFacts.

Import Oracle.

Variable s : Settings.

Lemma clamp_inside (x : R) :
  minRate (CONFIG s) <= x <= maxRate (CONFIG s) -> clamp s x = x.
Proof.
  intros (Hlo & Hhi). unfold clamp, Rgtb.
  rewrite (proj2 (Rltb_false _ _)) by lra.
  rewrite (proj2 (Rltb_false _ _)) by lra.
  reflexivity.
Qed.

Lemma spotPrice_applyPriceBounds (o : PriceOracle) :
  spotPrice (applyPriceBounds s o) = clamp s (spotPrice o).
Proof. reflexivity. Qed.

Lemma emaPrice_applyPriceBounds (o : PriceOracle) :
  emaPrice (applyPriceBounds s o) =
  Rmax (minRate (CONFIG s)) (Rmin (maxRate (CONFIG s)) (emaPrice o)).
Proof. reflexivity. Qed.

Lemma reserves_applyPriceBounds_inside (o : PriceOracle) :
  minRate (CONFIG s) <= spotPrice o <= maxRate (CONFIG s) ->
  reserves (applyPriceBounds s o) = reserves o.
Proof.
  intros H. unfold applyPriceBounds.
  cbn [reserves set_reserves set_emaPrice set_spotPrice].
  fold (clamp s (spotPrice o)). rewrite (clamp_inside _ H).
  rewrite (proj2 (Reqb_true _ _)) by reflexivity. reflexivity.
Qed.

Lemma Rmax_Rmin_inside (lo hi x : R) : lo <= x <= hi -> Rmax lo (Rmin hi x) = x.
Proof.
  intros (Hlo & Hhi). rewrite Rmin_right by exact Hhi.
  apply Rmax_right. exact Hlo.
Qed.

(** The oracle at [applyPriceBounds] after a swap that trips the breaker. *)
Lemma beforeBounds_tripped (now : R) (d : SwapDirection) (a : R) (o : PriceOracle) :
  trips s now d a o ->
  let b := beforeBounds s now d a o in
  spotPrice b = emaPrice o
  /\ emaPrice b = emaPrice o
  /\ circuitBreakerActive b = true
  /\ resetTimers b = resetTimers o ++ [now + COOLDOWN_MS]
  /\ twapDataPoints b =
     updateTWAP_points s now (emaPrice o) (twapDataPoints o).
Proof.
  intros Htrip b. subst b. unfold beforeBounds, checkCircuitBreaker.
  cbn [spotPrice set_spotPrice].
  assert (E : Rgtb (priceChange (spotPrice o)
                      (calculateSpotPrice (updateReserves now d a o)))
                   (maxPriceChangePercent (CONFIG s)) = true).
  { unfold Rgtb. apply Rltb_true. exact Htrip. }
  rewrite E.
  assert (Hema : emaPrice (updateReserves now d a o) = emaPrice o)
    by (destruct d; reflexivity).
  assert (Htim : resetTimers (updateReserves now d a o) = resetTimers o)
    by (destruct d; reflexivity).
  assert (Htw : twapDataPoints (updateReserves now d a o) = twapDataPoints o)
    by (destruct d; reflexivity).
  unfold updateTWAP, updateEMA, triggerCircuitBreaker.
  cbn [spotPrice emaPrice circuitBreakerActive resetTimers twapDataPoints
       set_twapDataPoints set_emaPrice set_spotPrice].
  rewrite Hema, Htim, Htw.
  repeat split. ring.
Qed.

(** The oracle at [applyPriceBounds] after a swap that does not. *)
Lemma beforeBounds_quiet (now : R) (d : SwapDirection) (a : R) (o : PriceOracle) :
  ~ trips s now d a o ->
  let sp := calculateSpotPrice (updateReserves now d a o) in
  let b := beforeBounds s now d a o in
  spotPrice b = sp
  /\ emaPrice b = emaAlpha (CONFIG s) * sp + (1 - emaAlpha (CONFIG s)) * emaPrice o
  /\ circuitBreakerActive b = circuitBreakerActive o
  /\ resetTimers b = resetTimers o
  /\ twapDataPoints b = updateTWAP_points s now sp (twapDataPoints o).
Proof.
  intros Hq sp b. subst sp b. unfold beforeBounds, checkCircuitBreaker.
  cbn [spotPrice set_spotPrice].
  assert (E : Rgtb (priceChange (spotPrice o)
                      (calculateSpotPrice (updateReserves now d a o)))
                   (maxPriceChangePercent (CONFIG s)) = false).
  { unfold Rgtb. apply Rltb_false. unfold trips in Hq. lra. }
  rewrite E.
  assert (Hema : emaPrice (updateReserves now d a o) = emaPrice o)
    by (destruct d; reflexivity).
  assert (Htim : resetTimers (updateReserves now d a o) = resetTimers o)
    by (destruct d; reflexivity).
  assert (Htw : twapDataPoints (updateReserves now d a o) = twapDataPoints o)
    by (destruct d; reflexivity).
  assert (Hcb : circuitBreakerActive (updateReserves now d a o) = circuitBreakerActive o)
    by (destruct d; reflexivity).
  unfold updateTWAP, updateEMA.
  cbn [spotPrice emaPrice circuitBreakerActive resetTimers twapDataPoints
       set_twapDataPoints set_emaPrice set_spotPrice].
  rewrite Hema, Htim, Htw, Hcb.
  repeat split.
Qed.

(** What [recordSwap] leaves of the oracle that reached [applyPriceBounds]. *)
Lemma recordSwap_fields (now : R) (d : SwapDirection) (a : R) (o : PriceOracle) :
  let b := beforeBounds s now d a o in
  let o' := recordSwap s now d a o in
  spotPrice o' = clamp s (spotPrice b)
  /\ emaPrice o' = Rmax (minRate (CONFIG s)) (Rmin (maxRate (CONFIG s)) (emaPrice b))
  /\ circuitBreakerActive o' = circuitBreakerActive b
  /\ resetTimers o' = resetTimers b
  /\ twapDataPoints o' = twapDataPoints b.
Proof. repeat split. Qed.

(** The event loop before any reset is due. *)
Lemma fireDueTimers_none_due (t : R) (o : PriceOracle) :
  (forall due, In due (resetTimers o) -> t < due) ->
  circuitBreakerActive (fireDueTimers t o) = circuitBreakerActive o
  /\ spotPrice (fireDueTimers t o) = spotPrice o
  /\ emaPrice (fireDueTimers t o) = emaPrice o
  /\ twapDataPoints (fireDueTimers t o) = twapDataPoints o.
Proof.
  intros Hnone. unfold fireDueTimers.
  assert (E : filter (fun x => Rleb x t) (resetTimers o) = []).
  { induction (resetTimers o) as [|x l IH]; [reflexivity|].
    cbn [filter]. rewrite (proj2 (Rleb_false x t)).
    - apply IH. intros due Hin. apply Hnone. right. exact Hin.
    - apply Hnone. left. reflexivity. }
  rewrite E. repeat split.
Qed.

(** The event loop once a reset is due: the flag is down. *)
Lemma fireDueTimers_some_due (t due : R) (o : PriceOracle) :
  In due (resetTimers o) -> due <= t ->
  circuitBreakerActive (fireDueTimers t o) = false
  /\ spotPrice (fireDueTimers t o) = spotPrice o
  /\ emaPrice (fireDueTimers t o) = emaPrice o
  /\ twapDataPoints (fireDueTimers t o) = twapDataPoints o.
Proof.
  intros Hin Hle. unfold fireDueTimers.
  assert (E : In due (filter (fun x => Rleb x t) (resetTimers o))).
  { apply filter_In. split; [exact Hin|]. apply Rleb_true. exact Hle. }
  destruct (filter (fun x => Rleb x t) (resetTimers o)) as [|x l];
    [contradiction|].
  repeat split.
Qed.

Lemma getRate_breaker_active (t : R) (o : PriceOracle) :
  circuitBreakerActive o = true ->
  fst (getRate s t o) = calculateTWAP (snd (getRate s t o)).
Proof.
  intros H. unfold getRate, getEffectivePrice. cbn [fst snd].
  replace (circuitBreakerActive (updateTWAP s t o)) with (circuitBreakerActive o)
    by reflexivity.
  rewrite H. reflexivity.
Qed.

Lemma getRate_breaker_inactive (t : R) (o : PriceOracle) :
  circuitBreakerActive o = false ->
  fst (getRate s t o) =
  emaPrice o * (7 / 10) + calculateTWAP (snd (getRate s t o)) * (3 / 10).
Proof.
  intros H. unfold getRate, getEffectivePrice. cbn [fst snd].
  replace (circuitBreakerActive (updateTWAP s t o)) with (circuitBreakerActive o)
    by reflexivity.
  rewrite H. reflexivity.
Qed.

(** C6, as the code has it.  When a recorded swap (of a non-negative amount,
    on a pool in its steady state with a spot price that is not 0) moves the
    spot price by more than the threshold, the breaker is raised, the spot price falls back
    to the EMA of before the trade (clamped into the rate band, like the EMA
    itself, which the trade leaves as it was), and a reset is scheduled 5
    minutes later.  Until a reset is due the rate handed to quoting callers
    is the TWAP alone; once the scheduled reset has run it is again 70% EMA
    and 30% TWAP. *)
Theorem breaker_freezes_spot_and_quotes_twap (now : R) (d : SwapDirection)
    (a : R) (o : PriceOracle) :
  steady o -> 0 <= a -> spotPrice o <> 0 ->
  trips s now d a o ->
  let o' := recordSwap s now d a o in
  circuitBreakerActive o' = true
  /\ spotPrice (beforeBounds s now d a o) = emaPrice o
  /\ spotPrice o' = clamp s (emaPrice o)
  /\ emaPrice o' = Rmax (minRate (CONFIG s)) (Rmin (maxRate (CONFIG s)) (emaPrice o))
  /\ resetTimers o' = resetTimers o ++ [now + COOLDOWN_MS]
  /\ (forall t, (forall due, In due (resetTimers o') -> t < due) ->
        circuitBreakerActive (fireDueTimers t o') = true /\
        fst (getRate s t (fireDueTimers t o')) =
          calculateTWAP (snd (getRate s t (fireDueTimers t o'))))
  /\ (forall t, now + COOLDOWN_MS <= t ->
        circuitBreakerActive (fireDueTimers t o') = false /\
        fst (getRate s t (fireDueTimers t o')) =
          emaPrice o' * (7 / 10)
          + calculateTWAP (snd (getRate s t (fireDueTimers t o'))) * (3 / 10)).
Proof.
  intros _ _ _ Htrip o'.
  destruct (beforeBounds_tripped now d a o Htrip) as (Hsp & Hema & Hcb & Htim & _).
  destruct (recordSwap_fields now d a o) as (Fsp & Fema & Fcb & Ftim & _).
  fold o' in Fsp, Fema, Fcb, Ftim.
  assert (Hact : circuitBreakerActive o' = true) by (rewrite Fcb; exact Hcb).
  split; [exact Hact|]. split; [exact Hsp|].
  split; [rewrite Fsp, Hsp; reflexivity|].
  split; [rewrite Fema, Hema; reflexivity|].
  split; [rewrite Ftim; exact Htim|].
  split.
  - intros t Hnone.
    destruct (fireDueTimers_none_due t o' Hnone) as (G & _).
    assert (Hon : circuitBreakerActive (fireDueTimers t o') = true)
      by (rewrite G; exact Hact).
    split; [exact Hon|]. apply getRate_breaker_active. exact Hon.
  - intros t Hdue.
    assert (Hin : In (now + COOLDOWN_MS) (resetTimers o')).
    { rewrite Ftim, Htim. apply in_or_app. right. left. reflexivity. }
    destruct (fireDueTimers_some_due t _ o' Hin Hdue) as (G & _ & Ge & _).
    split; [exact G|].
    rewrite (getRate_breaker_inactive t _ G). rewrite Ge. reflexivity.
Qed.

End BreakerFacts.

(** * The store *)

Section StoreFacts.

Import Store.
Open Scope string_scope.

Lemma sources_update (b : Db) (id : string) (u : Updates) :
  map sourceTxHash (intents (update b id u)) = map sourceTxHash (intents b).
Proof.
  unfold update. cbn [intents]. rewrite map_map. apply map_ext.
  intros i. destruct (intentId i =? id); reflexivity.
Qed.

Lemma nonces_update (b : Db) (id : string) (u : Updates) :
  nonces (update b id u) = nonces b.
Proof. reflexivity. Qed.

Lemma find_none_not_in (h : string) (l : list Intent) :
  find (fun i => sourceTxHash i =? h) l = None -> ~ In h (map sourceTxHash l).
Proof.
  induction l as [|i l IH]; cbn [find map]; intros Hf Hin; [contradiction|].
  destruct (sourceTxHash i =? h) eqn:E; [discriminate|].
  destruct Hin as [Heq | Hin].
  - rewrite Heq, String.eqb_refl in E. discriminate.
  - exact (IH Hf Hin).
Qed.

Lemma find_app_new (h : string) (l : list Intent) (i : Intent) :
  find (fun j => sourceTxHash j =? h) l = None -> sourceTxHash i = h ->
  find (fun j => sourceTxHash j =? h) (l ++ [i])%list = Some i.
Proof.
  intros Hf Hi. induction l as [|j l IH]; cbn [find app].
  - rewrite Hi, String.eqb_refl. reflexivity.
  - cbn [find] in Hf. destruct (sourceTxHash j =? h); [discriminate|].
    apply IH. exact Hf.
Qed.

Lemma getByTxHash_update (b : Db) (id : string) (u : Updates) (h : string) :
  getByTxHash (update b id u) h =
  option_map (fun i => if intentId i =? id then merge i u else i)
    (getByTxHash b h).
Proof.
  unfold getByTxHash, update. cbn [intents].
  induction (intents b) as [|i l IH]; [reflexivity|].
  cbn [map find].
  assert (E : sourceTxHash (if intentId i =? id then merge i u else i)
              = sourceTxHash i) by (destruct (intentId i =? id); reflexivity).
  rewrite E. destruct (sourceTxHash i =? h); [reflexivity | exact IH].
Qed.

(** What [IntentStore.add] does when it does not throw: one row more, and
    the nonce of the intent in the nonce set. *)
Lemma add_some (b b1 : Db) (i : Intent) :
  add b i = Some b1 ->
  intents b1 = (intents b ++ [row i])%list
  /\ nonces b1 = nonces (addNonce b (nonce (payload i))).
Proof.
  unfold add, addIntent. destruct (get b (intentId i)); [discriminate|].
  intros H. injection H as <-. unfold addNonce, isNonceUsed. cbn [nonces].
  destruct (existsb _ _); split; reflexivity.
Qed.

Lemma add_none (b : Db) (i : Intent) :
  add b i = None -> exists j, get b (intentId i) = Some j.
Proof.
  unfold add, addIntent. destruct (get b (intentId i)) as [j|]; [|discriminate].
  intros _. exists j. reflexivity.
Qed.

Lemma unique_after_add (b b1 : Db) (i : Intent) :
  Solver.uniqueSource b -> getByTxHash b (sourceTxHash i) = None ->
  add b i = Some b1 -> Solver.uniqueSource b1.
Proof.
  intros Hu Hnew Hadd. destruct (add_some _ _ _ Hadd) as (Hi & _).
  unfold Solver.uniqueSource. rewrite Hi, map_app. cbn [map row sourceTxHash].
  apply NoDup_app.
  - exact Hu.
  - constructor; [intros []|constructor].
  - intros x Hin [Hx | []]. subst x.
    exact (find_none_not_in _ _ Hnew Hin).
Qed.

End StoreFacts.

(** * Submissions *)

Section SubmissionFacts.

Import Store Solver.
Open Scope string_scope.

Variable s : Oracle.Settings.
Variable config : AppConfig.
Variable P : Platform.

(** [beginFulfill] leaves the table as it is, or marks one row expired. *)
Lemma beginFulfill_db (d : SwapDirection) (now : R) (id : string) (out : R)
    (b : Db) :
  fst (beginFulfill d now id out b) = b
  \/ fst (beginFulfill d now id out b) = update b id (just_status EXPIRED).
Proof.
  unfold beginFulfill. destruct (Store.get b id) as [i|]; [|left; reflexivity].
  destruct (_ && _)%bool; [left; reflexivity|].
  destruct (Rgtb now (i_expiry i)); [right | left]; reflexivity.
Qed.

Lemma beginFulfill_sources (d : SwapDirection) (now : R) (id : string) (out : R)
    (b : Db) :
  map sourceTxHash (intents (fst (beginFulfill d now id out b)))
  = map sourceTxHash (intents b).
Proof.
  destruct (beginFulfill_db d now id out b) as [-> | ->];
    [reflexivity | apply sources_update].
Qed.

Lemma beginFulfill_nonces (d : SwapDirection) (now : R) (id : string) (out : R)
    (b : Db) :
  nonces (fst (beginFulfill d now id out b)) = nonces b.
Proof.
  destruct (beginFulfill_db d now id out b) as [-> | ->]; reflexivity.
Qed.

(** The two ways [createIntent] ends: the id is taken and the insert
    throws, or the row is written with the status the liquidity probe chose
    and the response repeats its id and that status. *)
Lemma createIntent_cases (w : World) (e : Engine) (i : Intent) (liq : bool)
    (out : R) :
  status i = (if liq then OPEN else PENDING) ->
  (Store.add (db e) i = None /\ createIntent w e i liq out = threw e)
  \/
  (exists b1, Store.add (db e) i = Some b1
     /\ (db (engine (createIntent w e i liq out)) = b1
         \/ db (engine (createIntent w e i liq out))
            = update b1 (intentId i) (just_status EXPIRED))
     /\ oracle (engine (createIntent w e i liq out)) = oracle e
     /\ exists m, outcome (createIntent w e i liq out)
          = Responded {| r_intentId := intentId i; r_status := status i;
                         r_message := m |}).
Proof.
  intros Hst. unfold createIntent.
  destruct (Store.add (db e) i) as [b1|] eqn:Hadd; [right | left; auto].
  exists b1. split; [reflexivity|]. rewrite Hst. destruct liq.
  - destruct (beginFulfill (direction i) (now_fulfill w) (intentId i) out b1)
      as [b2 started] eqn:Hb.
    cbn [engine db oracle outcome]. split.
    + pose proof (beginFulfill_db (direction i) (now_fulfill w) (intentId i) out b1) as H.
      rewrite Hb in H. exact H.
    + split; [reflexivity|]. eexists. reflexivity.
  - cbn [engine db oracle outcome]. split; [left; reflexivity|].
    split; [reflexivity|]. eexists. reflexivity.
Qed.

(** A submission for a new reference whose validations pass goes on to the
    creation of the intent. *)
Lemma processOct_valid (w : World) (e : Engine) (h : string)
    (tx : OctraTransaction) (p : SwapIntentPayload) :
  getByTxHash (db e) h = None -> octValid config P w e h tx p ->
  processOctToEthSubmission config P w e h =
  createIntent w e (octIntent config w e h tx p)
    (Rgeb (getHotWalletBalanceFresh w)
       (Oracle.calculateEthOut (oracle e) (amountIn p) (cfg_feeBps config)
        * LIQUIDITY_BUFFER))
    (Oracle.calculateEthOut (oracle e) (amountIn p) (cfg_feeBps config)).
Proof.
  intros Hnew (Hf & Hc & Hp & Hv & Hn & Hm).
  unfold processOctToEthSubmission. rewrite Hnew, Hf, Hc, Hp, Hv, Hn.
  rewrite (proj2 (Rltb_false _ _)) by exact Hm.
  reflexivity.
Qed.

(** A submission for a new reference ends in a rejection that leaves the
    engine as it was, or its validations pass. *)
Lemma processOct_cases (w : World) (e : Engine) (h : string) :
  getByTxHash (db e) h = None ->
  (exists m, processOctToEthSubmission config P w e h = reject e m)
  \/ (exists tx p, octValid config P w e h tx p).
Proof.
  intros Hnew. unfold processOctToEthSubmission. rewrite Hnew.
  destruct (fetchOctraTransaction w h) as [tx|] eqn:Hf; [|left; eexists; reflexivity].
  destruct (oct_status tx) eqn:Hc; try (left; eexists; reflexivity).
  destruct (Envelope.parseIntentPayload P (oct_message tx)) as [p|] eqn:Hp;
    [|left; eexists; reflexivity].
  destruct (validateIntentPayload (now_check w) p tx (octraEscrowAddress config))
    eqn:Hv; [left; eexists; reflexivity|].
  destruct (isNonceUsed (db e) (nonce p)) eqn:Hn; [left; eexists; reflexivity|].
  destruct (Rltb _ _) eqn:Hm; [left; eexists; reflexivity|].
  right. exists tx, p. unfold octValid. rewrite Hc.
  repeat split; try assumption; try reflexivity.
  apply Rltb_false. exact Hm.
Qed.

Lemma processEth_valid (w : World) (e : Engine) (h : string)
    (tx : SepoliaTransaction) (d : Envelope.EvmPayload) (target non : string) :
  getByTxHash (db e) h = None -> ethValid config P w e h tx d target non ->
  processEthToOctSubmission config P w e h =
  createIntent w e (ethIntent config w e h tx d target non)
    (Rgeb (getEscrowBalanceFresh w)
       (Oracle.calculateOctOut (oracle e) (sep_value tx / 1000000000000000000)
          (cfg_feeBps config) * LIQUIDITY_BUFFER))
    (Oracle.calculateOctOut (oracle e) (sep_value tx / 1000000000000000000)
       (cfg_feeBps config)).
Proof.
  intros Hnew (Hf & Hc & Hto & Hp & Ht & Hs & Hx & Hb & Hn & Ha & Hm).
  unfold processEthToOctSubmission. rewrite Hnew, Hf, Hc, Hto, String.eqb_refl.
  cbn [negb]. rewrite Hp, Ht, Hs. cbn [negb].
  unfold Rgtb. rewrite (proj2 (Rltb_false _ _)) by exact Hx.
  rewrite Hb, Hn.
  rewrite (proj2 (Rleb_false _ _)) by exact Ha.
  rewrite (proj2 (Rltb_false _ _)) by exact Hm.
  reflexivity.
Qed.

(** The same for the other direction, where an envelope whose target address
    or nonce is of the wrong type makes the call throw. *)
Lemma processEth_cases (w : World) (e : Engine) (h : string) :
  getByTxHash (db e) h = None ->
  (exists m, processEthToOctSubmission config P w e h = reject e m)
  \/ processEthToOctSubmission config P w e h = threw e
  \/ (exists tx d target non, ethValid config P w e h tx d target non).
Proof.
  intros Hnew. unfold processEthToOctSubmission. rewrite Hnew.
  destruct (fetchSepoliaTransaction w h) as [tx|] eqn:Hf; [|left; eexists; reflexivity].
  destruct (sep_status tx) eqn:Hc; try (left; eexists; reflexivity).
  destruct (Str.toLowerCase (sep_to tx) =? Str.toLowerCase (sepoliaEscrowAddress config))
    eqn:Hto; cbn [negb]; [|left; eexists; reflexivity].
  destruct (Envelope.parseAndVerifyEvmEnvelope P _) as [d|err] eqn:Hp;
    [|left; eexists; reflexivity].
  destruct (Envelope.evm_targetAddress d) as [| | |target| |] eqn:Ht;
    try (right; left; reflexivity).
  destruct (Str.startsWith target "oct") eqn:Hs; cbn [negb];
    [|left; eexists; reflexivity].
  destruct (Rgtb (now_check w) (Envelope.evm_expiry d)) eqn:Hx;
    [left; eexists; reflexivity|].
  destruct (bindText P (Envelope.evm_nonce d)) as [non|] eqn:Hb;
    [|right; left; reflexivity].
  destruct (isNonceUsed (db e) non) eqn:Hn; [left; eexists; reflexivity|].
  destruct (Rleb _ 0) eqn:Ha; [left; eexists; reflexivity|].
  destruct (Rltb _ _) eqn:Hm; [left; eexists; reflexivity|].
  right. right. exists tx, d, target, non. unfold ethValid. rewrite Hc.
  apply String.eqb_eq in Hto. apply Rleb_false in Ha.
  apply Rltb_false in Hm. unfold Rgtb in Hx. apply Rltb_false in Hx.
  repeat split; assumption.
Qed.

(** A reference the store knows is answered from the store. *)
Lemma submit_known (d : SwapDirection) (w : World) (e : Engine) (h : string)
    (existing : Intent) :
  getByTxHash (db e) h = Some existing ->
  submit config P d w e h = already e existing.
Proof.
  intros H. destruct d; unfold submit, processOctToEthSubmission,
    processEthToOctSubmission; rewrite H; reflexivity.
Qed.

(** The ways a submission for a new reference ends. *)
Lemma submit_new (d : SwapDirection) (w : World) (e : Engine) (h : string) :
  getByTxHash (db e) h = None ->
  (exists m, submit config P d w e h = reject e m)
  \/ submit config P d w e h = threw e
  \/ (exists (i : Intent) (liq : bool) (out : R),
        sourceTxHash i = h
        /\ status i = (if liq then OPEN else PENDING)
        /\ submit config P d w e h = createIntent w e i liq out).
Proof.
  intros Hnew. destruct d; unfold submit.
  - destruct (processOct_cases w e h Hnew) as [Hr | (tx & p & Hv)];
      [left; exact Hr|].
    right; right. eexists _, _, _. split; [|split].
    3: exact (processOct_valid w e h tx p Hnew Hv).
    + reflexivity.
    + cbn [status octIntent]. reflexivity.
  - destruct (processEth_cases w e h Hnew)
      as [Hr | [Ht | (tx & dd & target & non & Hv)]];
      [left; exact Hr | right; left; exact Ht |].
    right; right. eexists _, _, _. split; [|split].
    3: exact (processEth_valid w e h tx dd target non Hnew Hv).
    + reflexivity.
    + cbn [status ethIntent]. reflexivity.
Qed.

(** What a submission does to the engine: nothing, or one row for a new
    reference together with the nonce of its intent. *)
Lemma submit_effect (d : SwapDirection) (w : World) (e : Engine) (h : string) :
  (engine (submit config P d w e h) = e
   /\ ((exists existing, getByTxHash (db e) h = Some existing
          /\ submit config P d w e h = already e existing)
       \/ (getByTxHash (db e) h = None
           /\ ((exists m, submit config P d w e h = reject e m)
               \/ submit config P d w e h = threw e))))
  \/
  (getByTxHash (db e) h = None
   /\ exists i b1,
        sourceTxHash i = h
        /\ (status i = OPEN \/ status i = PENDING)
        /\ Store.add (db e) i = Some b1
        /\ (db (engine (submit config P d w e h)) = b1
            \/ db (engine (submit config P d w e h))
               = update b1 (intentId i) (just_status EXPIRED))
        /\ oracle (engine (submit config P d w e h)) = oracle e
        /\ exists m, outcome (submit config P d w e h)
             = Responded {| r_intentId := intentId i; r_status := status i;
                            r_message := m |}).
Proof.
  destruct (getByTxHash (db e) h) as [existing|] eqn:Hk.
  - left. rewrite (submit_known d w e h existing Hk). split; [reflexivity|].
    left. exists existing. split; reflexivity.
  - destruct (submit_new d w e h Hk) as [(m & Hr) | [Ht | (i & liq & out & Hs & Hst & Hc)]].
    + left. rewrite Hr. split; [reflexivity|]. right. split; [reflexivity|].
      left. exists m. reflexivity.
    + left. rewrite Ht. split; [reflexivity|]. right. split; [reflexivity|].
      right. reflexivity.
    + rewrite Hc.
      destruct (createIntent_cases w e i liq out Hst)
        as [(Hadd & Hthrew) | (b1 & Hadd & Hdb & Hor & Hout)].
      * left. rewrite Hthrew. split; [reflexivity|]. right.
        split; [reflexivity|]. right. reflexivity.
      * right. split; [reflexivity|]. exists i, b1.
        repeat split; try assumption.
        rewrite Hst. destruct liq; [left | right]; reflexivity.
Qed.

Lemma submit_sources (d : SwapDirection) (w : World) (e : Engine) (h : string) :
  uniqueSource (db e) -> uniqueSource (db (engine (submit config P d w e h))).
Proof.
  intros Hu.
  destruct (submit_effect d w e h)
    as [(-> & _) | (Hnew & i & b1 & Hs & _ & Hadd & Hdb & _)]; [exact Hu|].
  assert (Hb1 : uniqueSource b1).
  { apply (unique_after_add (db e) b1 i Hu); [rewrite Hs; exact Hnew | exact Hadd]. }
  destruct Hdb as [-> | ->]; [exact Hb1|].
  unfold uniqueSource. rewrite sources_update. exact Hb1.
Qed.

(** The payouts' results and the periodic checker only update rows. *)
Lemma resume_sources (now : R) (result : SendResult) (p : Payout) (e : Engine) :
  map sourceTxHash (intents (db (resume s now result p e)))
  = map sourceTxHash (intents (db e)).
Proof.
  unfold resume, fulfillOctToEth_resume, fulfillEthToOct_resume.
  destruct (pay_direction p); destruct (sent result); cbn [db];
    try reflexivity; apply sources_update.
Qed.

Lemma fold_left_invariant {A B : Type} (I : A -> Prop) (f : A -> B -> A)
    (l : list B) (a : A) :
  (forall x y, I x -> I (f x y)) -> I a -> I (fold_left f l a).
Proof.
  intros Hstep. revert a. induction l as [|y l IH]; cbn [fold_left]; intros a Ha.
  - exact Ha.
  - apply IH. apply Hstep. exact Ha.
Qed.

Lemma expireOpen_sources (now : R) (b : Db) :
  map sourceTxHash (intents (expireOpen now b)) = map sourceTxHash (intents b).
Proof.
  unfold expireOpen.
  apply (fold_left_invariant
           (fun acc => map sourceTxHash (intents acc) = map sourceTxHash (intents b))).
  - intros x y Hx. destruct (Rgtb now (i_expiry y)); [|exact Hx].
    rewrite sources_update. exact Hx.
  - reflexivity.
Qed.

Lemma retryPending_sources (w : SweepWorld) (acc : Engine * list Payout)
    (i : Intent) :
  map sourceTxHash (intents (db (fst (retryPending config w acc i))))
  = map sourceTxHash (intents (db (fst acc))).
Proof.
  destruct acc as [e started]. unfold retryPending. cbn [fst].
  destruct (Rgtb (sweep_now w) (i_expiry i)).
  - cbn [fst db]. apply sources_update.
  - destruct (direction i).
    + destruct (Rgeb _ _); [|reflexivity].
      destruct (beginFulfill OCT_TO_ETH _ _ _ _) as [b2 more] eqn:Hb.
      cbn [fst db].
      pose proof (beginFulfill_sources OCT_TO_ETH (sweep_now_fulfill w (intentId i))
        (intentId i)
        (Oracle.calculateEthOut (oracle e) (i_amountIn i) (cfg_feeBps config))
        (update (db e) (intentId i) (just_status OPEN))) as H.
      rewrite Hb in H. cbn [fst] in H. rewrite H. apply sources_update.
    + destruct (Rgeb _ _); [|reflexivity].
      destruct (beginFulfill ETH_TO_OCT _ _ _ _) as [b2 more] eqn:Hb.
      cbn [fst db].
      pose proof (beginFulfill_sources ETH_TO_OCT (sweep_now_fulfill w (intentId i))
        (intentId i)
        (Oracle.calculateOctOut (oracle e) (i_amountIn i) (cfg_feeBps config))
        (update (db e) (intentId i) (just_status OPEN))) as H.
      rewrite Hb in H. cbn [fst] in H. rewrite H. apply sources_update.
Qed.

Lemma expiryChecker_sources (w : SweepWorld) (e : Engine) :
  map sourceTxHash (intents (db (fst (expiryChecker config w e))))
  = map sourceTxHash (intents (db e)).
Proof.
  unfold expiryChecker.
  apply (fold_left_invariant
           (fun acc => map sourceTxHash (intents (db (fst acc)))
                       = map sourceTxHash (intents (db e)))).
  - intros x y Hx. rewrite retryPending_sources. exact Hx.
  - cbn [fst db]. apply expireOpen_sources.
Qed.

Lemma reachable_unique (e : Engine) :
  reachable s config P e -> uniqueSource (db e).
Proof.
  intros Hr. induction Hr as [now | w e h _ IH | w e h _ IH | now result p e _ IH
                              | w e _ IH].
  - constructor.
  - exact (submit_sources OCT_TO_ETH w e h IH).
  - exact (submit_sources ETH_TO_OCT w e h IH).
  - unfold uniqueSource. rewrite resume_sources. exact IH.
  - unfold uniqueSource. rewrite expiryChecker_sources. exact IH.
Qed.

(** When calls do not overlap, submissions being handled one at a time: in
    every state of the engine the [sourceTxHash] values of the stored
    intents are pairwise distinct; a submission, in either direction, of a reference the store
    knows returns the id and the current status of the stored intent and
    leaves the engine as it is, with no validation and no second row; so
    when a submission has left a row for its reference, a second submission
    of that reference returns the same [intentId]. *)
Theorem duplicate_reference_answered_from_store (e : Engine) (h : string) :
  reachable s config P e ->
  uniqueSource (db e)
  /\ (forall d w existing,
        getByTxHash (db e) h = Some existing ->
        submit config P d w e h = already e existing
        /\ outcome (submit config P d w e h)
           = Responded {| r_intentId := intentId existing;
                          r_status := status existing;
                          r_message := AlreadySubmitted |}
        /\ engine (submit config P d w e h) = e)
  /\ (forall d w r stored,
        outcome (submit config P d w e h) = Responded r ->
        getByTxHash (db (engine (submit config P d w e h))) h = Some stored ->
        intentId stored = r_intentId r
        /\ forall d2 w2,
             outcome (submit config P d2 w2 (engine (submit config P d w e h)) h)
             = Responded {| r_intentId := r_intentId r;
                            r_status := status stored;
                            r_message := AlreadySubmitted |}
             /\ engine (submit config P d2 w2 (engine (submit config P d w e h)) h)
                = engine (submit config P d w e h))
  /\ (forall d w, uniqueSource (db (engine (submit config P d w e h)))).
Proof.
  intros Hr. pose proof (reachable_unique e Hr) as Hu.
  split; [exact Hu|]. split; [|split].
  - intros d w existing Hk. rewrite (submit_known d w e h existing Hk).
    repeat split.
  - intros d w r stored Hout Hstored.
    assert (Hid : intentId stored = r_intentId r).
    { destruct (submit_effect d w e h)
        as [(He & [(ex & Hk & Hal) | (Hnew & _)])
           | (Hnew & i & b1 & Hs & _ & Hadd & Hdb & _ & m & Hresp)].
      - rewrite He, Hk in Hstored. injection Hstored as <-.
        rewrite Hal in Hout. cbn [outcome already] in Hout.
        injection Hout as <-. reflexivity.
      - rewrite He, Hnew in Hstored. discriminate.
      - rewrite Hresp in Hout. injection Hout as <-. cbn [r_intentId].
        destruct (add_some _ _ _ Hadd) as (Hi & _).
        assert (Hfind : getByTxHash b1 h = Some (row i)).
        { unfold getByTxHash. rewrite Hi. apply find_app_new; [exact Hnew|].
          exact Hs. }
        destruct Hdb as [Hdb | Hdb]; rewrite Hdb in Hstored.
        + rewrite Hfind in Hstored. injection Hstored as <-. reflexivity.
        + rewrite getByTxHash_update, Hfind in Hstored. cbn [option_map] in Hstored.
          injection Hstored as <-. cbn [row intentId].
          destruct (intentId i =? intentId i); reflexivity. }
    split; [exact Hid|]. intros d2 w2.
    rewrite (submit_known d2 w2 _ h stored Hstored).
    cbn [outcome engine already]. rewrite Hid. split; reflexivity.
  - intros d w. apply submit_sources. exact Hu.
Qed.

(** C10. A submission that answers [REJECTED] leaves the engine, and so the
    nonce set, as it was; the nonce set changes only when [IntentStore.add]
    writes a row, and then by the nonce of that row's intent; so an envelope
    whose submission was rejected passes every validation of a later
    submission that it would have passed before. *)
Theorem rejected_submission_keeps_nonce (d : SwapDirection) (w : World)
    (e : Engine) (h : string) :
  (forall r, outcome (submit config P d w e h) = Responded r ->
             r_status r = REJECTED ->
             engine (submit config P d w e h) = e
             /\ nonces (db (engine (submit config P d w e h))) = nonces (db e))
  /\ (nonces (db (engine (submit config P d w e h))) <> nonces (db e) ->
      exists i b1,
        Store.add (db e) i = Some b1
        /\ intents b1 = (intents (db e) ++ [row i])%list
        /\ nonces (db (engine (submit config P d w e h)))
           = nonces (addNonce (db e) (nonce (payload i))))
  /\ (forall r, outcome (submit config P d w e h) = Responded r ->
                r_status r = REJECTED ->
      forall w2 h2,
        (forall tx p, octValid config P w2 e h2 tx p ->
           octValid config P w2 (engine (submit config P d w e h)) h2 tx p)
        /\ (forall tx dd target non,
              ethValid config P w2 e h2 tx dd target non ->
              ethValid config P w2 (engine (submit config P d w e h)) h2 tx dd
                target non)).
Proof.
  assert (Hrej : forall r, outcome (submit config P d w e h) = Responded r ->
             r_status r = REJECTED -> engine (submit config P d w e h) = e).
  { intros r Hout Hst.
    destruct (submit_effect d w e h)
      as [(He & _) | (_ & i & b1 & _ & Hs & _ & _ & _ & m & Hresp)];
      [exact He|].
    rewrite Hresp in Hout. injection Hout as <-. cbn [r_status] in Hst.
    destruct Hs as [Hs | Hs]; rewrite Hs in Hst; discriminate. }
  split; [|split].
  - intros r Hout Hst. rewrite (Hrej r Hout Hst). split; reflexivity.
  - intros Hch.
    destruct (submit_effect d w e h)
      as [(He & _) | (_ & i & b1 & _ & _ & Hadd & Hdb & _)].
    + rewrite He in Hch. contradiction Hch; reflexivity.
    + exists i, b1. destruct (add_some _ _ _ Hadd) as (Hi & Hn).
      split; [exact Hadd|]. split; [exact Hi|].
      destruct Hdb as [-> | ->]; [exact Hn|].
      rewrite nonces_update. exact Hn.
  - intros r Hout Hst w2 h2. rewrite (Hrej r Hout Hst). split; auto.
Qed.

End SubmissionFacts.

(** * The envelope verifier *)

Section EnvelopeFacts.

Import Json Envelope.
Open Scope string_scope.

Variable P : Platform.

Lemma verifyPayloadHash_true (full : JSON) (hash : JS) :
  verifyPayloadHash P full hash = true
  <-> hash = Some (JString (sha256_hex P (JSON_stringify P full))).
Proof.
  unfold verifyPayloadHash, hashPayload, eq_string.
  destruct hash as [[| | |t| |]|]; split; intros H; try discriminate.
  - apply String.eqb_eq in H. rewrite H. reflexivity.
  - injection H as ->. apply String.eqb_refl.
Qed.

(** [parseIntentPayload], the parser of the Octra memo, reads the payload
    and its fields and never the [hash] of the envelope. *)
Lemma parseIntentPayload_reads_no_hash (m : string) (parsed payload : JSON)
    (p : JS) :
  m <> EmptyString -> JSON_parse P m = Some parsed ->
  get parsed "payload" = Some p -> or_else p (Some parsed) = Some payload ->
  parseIntentPayload P (Some m) = octFields payload.
Proof.
  intros Hm Hp Hg Ho. unfold parseIntentPayload.
  destruct (m =? EmptyString) eqn:E.
  - apply String.eqb_eq in E. contradiction.
  - rewrite Hp, Hg, Ho. reflexivity.
Qed.

(** [parseAndVerifyEvmEnvelope] on call data that decodes to an envelope. *)
Lemma parseAndVerifyEvmEnvelope_decoded (txInput : string)
    (envelope payload full : JSON) (p hash : JS) :
  ((txInput =? EmptyString) || (txInput =? "0x")
   || Nat.ltb (String.length txInput) 4)%bool = false ->
  decodeEnvelope P
    (hex_to_utf8 P
       (if Str.startsWith txInput "0x"
        then substring 2 (String.length txInput - 2) txInput
        else txInput)) = Some envelope ->
  get envelope "payload" = Some p ->
  get envelope "hash" = Some hash ->
  or_else p (Some envelope) = Some payload ->
  fullPayload payload = Some full ->
  parseAndVerifyEvmEnvelope P txInput =
  if truthy hash
  then if verifyPayloadHash P full hash
       then evmFields payload else Invalid TAMPERED
  else evmFields payload.
Proof.
  intros Hguard Hdec Hp Hh Ho Hfull.
  unfold parseAndVerifyEvmEnvelope. rewrite Hguard. cbv zeta.
  rewrite Hdec. unfold verifyEvmEnvelope. rewrite Hp, Hh, Ho, Hfull.
  reflexivity.
Qed.

(** C2, as the code has it, for the EVM path.  Let the call data of a
    deposit decode to an envelope, by either encoding (hex of the JSON text,
    or hex of its base64).  When the envelope carries a truthy [hash], the
    verifier goes on to the check of the required fields exactly if the
    declared hash is the SHA-256 of [JSON.stringify] of the canonical
    payload rebuilt from the fields of the envelope's payload, and fails with
    the tamper error otherwise.  When the [hash] is absent or falsy the
    envelope is taken in legacy mode: the fields alone decide. *)
Theorem evm_envelope_hash_is_checked (txInput : string)
    (envelope payload full : JSON) (p hash : JS) :
  ((txInput =? EmptyString) || (txInput =? "0x")
   || Nat.ltb (String.length txInput) 4)%bool = false ->
  decodeEnvelope P
    (hex_to_utf8 P
       (if Str.startsWith txInput "0x"
        then substring 2 (String.length txInput - 2) txInput
        else txInput)) = Some envelope ->
  get envelope "payload" = Some p ->
  get envelope "hash" = Some hash ->
  or_else p (Some envelope) = Some payload ->
  fullPayload payload = Some full ->
  (truthy hash = true ->
   hash = Some (JString (sha256_hex P (JSON_stringify P full))) ->
   parseAndVerifyEvmEnvelope P txInput = evmFields payload)
  /\ (truthy hash = true ->
      hash <> Some (JString (sha256_hex P (JSON_stringify P full))) ->
      parseAndVerifyEvmEnvelope P txInput = Invalid TAMPERED)
  /\ (truthy hash = false ->
      parseAndVerifyEvmEnvelope P txInput = evmFields payload)
  /\ (forall d, parseAndVerifyEvmEnvelope P txInput = Valid d ->
      truthy hash = true ->
      hash = Some (JString (sha256_hex P (JSON_stringify P full)))).
Proof.
  intros Hguard Hdec Hp Hh Ho Hfull.
  rewrite (parseAndVerifyEvmEnvelope_decoded txInput envelope payload full p hash
             Hguard Hdec Hp Hh Ho Hfull).
  repeat split.
  - intros Ht Hcorrect. rewrite Ht.
    rewrite (proj2 (verifyPayloadHash_true full hash) Hcorrect). reflexivity.
  - intros Ht Hwrong. rewrite Ht.
    destruct (verifyPayloadHash P full hash) eqn:E; [|reflexivity].
    apply verifyPayloadHash_true in E. contradiction.
  - intros Ht. rewrite Ht. reflexivity.
  - intros d Hvalid Ht. rewrite Ht in Hvalid.
    destruct (verifyPayloadHash P full hash) eqn:E; [|discriminate].
    apply verifyPayloadHash_true. exact E.
Qed.

End EnvelopeFacts.

(** * Runs of the verifier *)

Section EnvelopeRuns.

Import Json Envelope Fixture.
Open Scope string_scope.

Lemma number_text_1 : number_text 1 = "1".
Proof. unfold number_text, numbers, lookup_number. decide_numbers. reflexivity. Qed.

Lemma number_text_900 : number_text 900 = "900".
Proof. unfold number_text, numbers, lookup_number. decide_numbers. reflexivity. Qed.

Lemma number_text_2000000 : number_text 2000000 = "2000000".
Proof. unfold number_text, numbers, lookup_number. decide_numbers. reflexivity. Qed.

Lemma fullPayload_evmPayload (ver : R) :
  fullPayload (evmPayload ver) = Some rebuilt.
Proof. reflexivity. Qed.

Lemma stringify_rebuilt : JSON_stringify node rebuilt = canonical.
Proof.
  cbn [JSON_stringify node]. unfold rebuilt, evmPayload, stringify.
  rewrite number_text_1, number_text_900, number_text_2000000.
  reflexivity.
Qed.

Lemma hash_of_rebuilt : sha256_hex node (JSON_stringify node rebuilt) = digest.
Proof. rewrite stringify_rebuilt. reflexivity. Qed.

Lemma decode_txInput (ver : string) :
  ver = "1" \/ ver = "2" ->
  hex_to_utf8 node
    (if Str.startsWith (txInput ver) "0x"
     then substring 2 (String.length (txInput ver) - 2) (txInput ver)
     else txInput ver) = evmEnvelopeText ver.
Proof. intros [-> | ->]; vm_compute; reflexivity. Qed.

Lemma decodeEnvelope_1 : decodeEnvelope node (evmEnvelopeText "1") = Some (evmEnvelope 1).
Proof.
  unfold decodeEnvelope.
  replace (isBase64 (evmEnvelopeText "1")) with false by (vm_compute; reflexivity).
  cbn [JSON_parse node]. unfold parse. rewrite String.eqb_refl. reflexivity.
Qed.

Lemma decodeEnvelope_2 : decodeEnvelope node (evmEnvelopeText "2") = Some (evmEnvelope 2).
Proof.
  unfold decodeEnvelope.
  replace (isBase64 (evmEnvelopeText "2")) with false by (vm_compute; reflexivity).
  cbn [JSON_parse node]. unfold parse.
  replace (evmEnvelopeText "2" =? evmEnvelopeText "1") with false
    by (vm_compute; reflexivity).
  rewrite String.eqb_refl. reflexivity.
Qed.

Lemma evmFields_evmPayload (ver : R) : evmFields (evmPayload ver) = Valid verified.
Proof. reflexivity. Qed.

(** The verifier on the deposit, with the [version] the envelope states as
    a parameter. *)
Lemma verify_txInput (ver : string) (v : R) :
  (ver = "1" /\ v = 1) \/ (ver = "2" /\ v = 2) ->
  parseAndVerifyEvmEnvelope node (txInput ver) = Valid verified.
Proof.
  intros Hver.
  rewrite (parseAndVerifyEvmEnvelope_decoded node (txInput ver) (evmEnvelope v)
             (evmPayload v) rebuilt (Some (evmPayload v)) (Some (JString digest))).
  - cbn [truthy]. unfold verifyPayloadHash, hashPayload.
    rewrite hash_of_rebuilt. cbn [eq_string]. rewrite String.eqb_refl.
    apply evmFields_evmPayload.
  - destruct Hver as [(-> & _) | (-> & _)]; vm_compute; reflexivity.
  - destruct Hver as [(-> & ->) | (-> & ->)].
    + rewrite (decode_txInput "1") by (left; reflexivity). apply decodeEnvelope_1.
    + rewrite (decode_txInput "2") by (right; reflexivity). apply decodeEnvelope_2.
  - reflexivity.
  - reflexivity.
  - reflexivity.
  - apply fullPayload_evmPayload.
Qed.

(** The deposit with its envelope in base64 is verified as well. *)
Lemma verify_txInput64 :
  isBase64 envelope64 = true
  /\ base64_to_utf8 node envelope64 = evmEnvelopeText "1"
  /\ parseAndVerifyEvmEnvelope node txInput64 = Valid verified.
Proof.
  assert (Hb : isBase64 envelope64 = true) by (vm_compute; reflexivity).
  assert (Hd : base64_to_utf8 node envelope64 = evmEnvelopeText "1")
    by (vm_compute; reflexivity).
  split; [exact Hb|]. split; [exact Hd|].
  rewrite (parseAndVerifyEvmEnvelope_decoded node txInput64 (evmEnvelope 1)
             (evmPayload 1) rebuilt (Some (evmPayload 1)) (Some (JString digest))).
  - cbn [truthy]. unfold verifyPayloadHash, hashPayload.
    rewrite hash_of_rebuilt. cbn [eq_string]. rewrite String.eqb_refl.
    apply evmFields_evmPayload.
  - vm_compute. reflexivity.
  - replace (hex_to_utf8 node _) with envelope64 by (vm_compute; reflexivity).
    unfold decodeEnvelope. rewrite Hb, Hd.
    cbn [JSON_parse node]. unfold parse. rewrite String.eqb_refl. reflexivity.
  - reflexivity.
  - reflexivity.
  - reflexivity.
  - apply fullPayload_evmPayload.
Qed.

(** The witness of C2: the deposit with its correct hash is verified. *)
Lemma evm_envelope_hash_is_checked_witness :
  parseAndVerifyEvmEnvelope node (txInput "1") = Valid verified.
Proof.
  rewrite <- (evmFields_evmPayload 1).
  refine (proj1 (evm_envelope_hash_is_checked node (txInput "1") (evmEnvelope 1)
                   (evmPayload 1) rebuilt (Some (evmPayload 1))
                   (Some (JString digest)) _ _ _ _ _ _) _ _).
  - vm_compute. reflexivity.
  - rewrite (decode_txInput "1") by (left; reflexivity). apply decodeEnvelope_1.
  - reflexivity.
  - reflexivity.
  - reflexivity.
  - apply fullPayload_evmPayload.
  - reflexivity.
  - rewrite hash_of_rebuilt. reflexivity.
Defined.

(** C2 fails as stated.  The call data [txInput "2"] is the call data
    [txInput "1"] of a deposit with one byte changed, the digit of the
    [version] in the payload, and the declared hash kept; the verifier
    accepts both, with no tamper error. *)
Lemma one_byte_mutation_is_accepted :
  String.length (txInput "2") = String.length (txInput "1")
  /\ differences (txInput "1") (txInput "2") = 1%nat
  /\ differences (evmEnvelopeText "1") (evmEnvelopeText "2") = 1%nat
  /\ get (evmEnvelope 2) "hash" = get (evmEnvelope 1) "hash"
  /\ parseAndVerifyEvmEnvelope node (txInput "1") = Valid verified
  /\ parseAndVerifyEvmEnvelope node (txInput "2") = Valid verified
  /\ parseAndVerifyEvmEnvelope node (txInput "2") <> Invalid TAMPERED.
Proof.
  split; [vm_compute; reflexivity|].
  split; [vm_compute; reflexivity|].
  split; [vm_compute; reflexivity|].
  split; [reflexivity|].
  split; [apply (verify_txInput "1" 1); left; split; reflexivity|].
  assert (H2 : parseAndVerifyEvmEnvelope node (txInput "2") = Valid verified)
    by (apply (verify_txInput "2" 2); right; split; reflexivity).
  split; [exact H2|]. rewrite H2. discriminate.
Qed.

End EnvelopeRuns.

(** * Runs of the engine: the Octra deposits *)

Section RunFacts.
Import Json Envelope Store Solver Fixture Runs.
Open Scope string_scope.

Lemma start_reserves :
  Oracle.reserves (oracle start)
  = {| Oracle.octReserve := 1000000; Oracle.ethReserve := 1000;
       Oracle.k := 1000000 * 1000 |}.
Proof. reflexivity. Qed.

Lemma quote_start_A : Oracle.calculateEthOut (oracle start) 1000 50 = 995 / 1001.
Proof.
  unfold Oracle.calculateEthOut. rewrite start_reserves.
  cbn [Oracle.octReserve Oracle.ethReserve Oracle.k].
  decide_numbers. lra.
Qed.

Lemma parse_memoA : JSON_parse node memoA = Some (memo 1000 (9 / 10) "nonce-A").
Proof. vm_compute. reflexivity. Qed.

Lemma parseIntentPayload_memoA :
  parseIntentPayload node (Some memoA) = Some payloadA.
Proof.
  rewrite (parseIntentPayload_reads_no_hash node memoA (memo 1000 (9 / 10) "nonce-A")
             (memo 1000 (9 / 10) "nonce-A") None).
  - unfold octFields, memo. cbn. decide_numbers. reflexivity.
  - intros H. discriminate H.
  - exact parse_memoA.
  - reflexivity.
  - reflexivity.
Qed.

Lemma valid_A : octValid config node worldA start hashA txA payloadA.
Proof.
  unfold octValid. repeat split.
  - exact parseIntentPayload_memoA.
  - unfold validateIntentPayload. cbn. decide_numbers.  reflexivity.
  - cbn [amountIn payloadA cfg_feeBps config minAmountOut].
    rewrite quote_start_A. lra.
Qed.

Lemma stepA_eq :
  stepA =
  {| engine := {| db := {| intents := [rowA PENDING]; nonces := ["nonce-A"] |};
                  oracle := oracle start |};
     outcome := Responded {| r_intentId := "11111111-1111-4111-8111-111111111111";
                             r_status := PENDING;
                             r_message := QueuedForLiquidity |};
     inflight := [] |}.
Proof.
  unfold stepA, submit.
  rewrite (processOct_valid config node worldA start hashA txA payloadA
             eq_refl valid_A).
  cbn [amountIn payloadA cfg_feeBps config getHotWalletBalanceFresh worldA].
  rewrite quote_start_A.
  unfold LIQUIDITY_BUFFER. decide_numbers.
  unfold createIntent, octIntent.
  cbn [amountIn payloadA cfg_feeBps config getHotWalletBalanceFresh worldA].
  rewrite quote_start_A. unfold LIQUIDITY_BUFFER. decide_numbers.
  reflexivity.
Qed.

Lemma quote_start_B : Oracle.calculateEthOut (oracle start) 100000 50 = 995 / 11.
Proof.
  unfold Oracle.calculateEthOut. rewrite start_reserves.
  cbn [Oracle.octReserve Oracle.ethReserve Oracle.k].
  decide_numbers. lra.
Qed.

Lemma parseIntentPayload_memoB :
  parseIntentPayload node (Some memoB) = Some payloadB.
Proof.
  rewrite (parseIntentPayload_reads_no_hash node memoB (memo 100000 80 "nonce-B")
             (memo 100000 80 "nonce-B") None).
  - unfold octFields, memo. cbn. decide_numbers. reflexivity.
  - intros H. discriminate H.
  - vm_compute. reflexivity.
  - reflexivity.
  - reflexivity.
Qed.

Lemma valid_B : octValid config node worldB (engine stepA) hashB txB payloadB.
Proof.
  rewrite stepA_eq. unfold octValid. repeat split.
  - exact parseIntentPayload_memoB.
  - unfold validateIntentPayload. cbn. decide_numbers. reflexivity.
  - cbn [engine oracle amountIn payloadB cfg_feeBps config minAmountOut].
    rewrite quote_start_B. lra.
Qed.

Lemma stepB_eq :
  stepB =
  {| engine :=
       {| db := {| intents := [rowA PENDING; rowB OPEN None None None];
                   nonces := ["nonce-A"; "nonce-B"] |};
          oracle := oracle start |};
     outcome := Responded {| r_intentId := "22222222-2222-4222-8222-222222222222";
                             r_status := OPEN;
                             r_message := FulfillmentInProgress |};
     inflight := [{| pay_direction := OCT_TO_ETH;
                     pay_intent := rowB OPEN None None None;
                     pay_amount := 995 / 11 |}] |}.
Proof.
  unfold stepB, submit.
  rewrite (processOct_valid config node worldB (engine stepA) hashB txB payloadB).
  2:{ rewrite stepA_eq. reflexivity. }
  2:{ exact valid_B. }
  rewrite stepA_eq.
  cbn [engine oracle amountIn payloadB cfg_feeBps config getHotWalletBalanceFresh worldB].
  rewrite quote_start_B.
  unfold createIntent, octIntent.
  cbn [engine oracle amountIn payloadB cfg_feeBps config getHotWalletBalanceFresh worldB].
  rewrite quote_start_B. unfold LIQUIDITY_BUFFER. decide_numbers.
  unfold beginFulfill. cbn. decide_numbers.
  reflexivity.
Qed.

Lemma start_prices :
  Oracle.spotPrice (oracle start) = 1000 / 1000000
  /\ Oracle.emaPrice (oracle start) = 1000 / 1000000.
Proof. split; reflexivity. Qed.

Lemma band_defaults :
  Oracle.minRate (Oracle.CONFIG Oracle.defaults) = 1 / 1000 * (50 / 100)
  /\ Oracle.maxRate (Oracle.CONFIG Oracle.defaults) = 1 / 1000 * (200 / 100)
  /\ Oracle.maxPriceChangePercent (Oracle.CONFIG Oracle.defaults) = 10.
Proof. repeat split. Qed.





Lemma afterB_eq :
  afterB =
  {| db := {| intents := [rowA PENDING;
                          rowB FULFILLED (Some "0xpayout") (Some (995 / 11))
                            (Some 3000)];
              nonces := ["nonce-A"; "nonce-B"] |};
     oracle := oracleB |}.
Proof.
  unfold afterB. rewrite stepB_eq. cbn [inflight engine fold_left].
  unfold resume, fulfillOctToEth_resume.
  cbn [pay_direction pay_intent pay_amount sent paid success txHash text_or_null].
  cbn [String.eqb Ascii.eqb Bool.eqb].
  unfold Store.update, merge, rowA, rowB, fulfilled, override, number_or_null,
    text_or_null.
  cbn. decide_numbers. reflexivity.
Qed.

End RunFacts.

(** * The periodic checker *)

Section CheckerFacts.

Import Store Solver.
Open Scope string_scope.

Variable config : AppConfig.




End CheckerFacts.

(** * Runs of the engine: the Sepolia deposits *)

Section SepoliaRunFacts.
Import Json Envelope Store Solver Fixture Runs.
Open Scope string_scope.

Lemma quote_start_E :
  Oracle.calculateOctOut (oracle start)
    (1000000000000000000 / 1000000000000000000) 50 = 995000 / 1001.
Proof.
  unfold Oracle.calculateOctOut. rewrite start_reserves.
  cbn [Oracle.octReserve Oracle.ethReserve Oracle.k].
  decide_numbers. lra.
Qed.

Lemma valid_E : ethValid config node worldB start hashE txE verified
                  "oct1recipient" "n-1".
Proof.
  unfold ethValid. repeat split.
  - apply (verify_txInput "1" 1). left. split; reflexivity.
  - cbn [now_check worldB evm_expiry verified]. lra.
  - cbn [sep_value txE]. lra.
  - cbn [sep_value txE evm_minAmountOut verified cfg_feeBps config].
    rewrite quote_start_E. lra.
Qed.

Lemma stepE_eq :
  stepE =
  {| engine :=
       {| db := {| intents := [rowE OPEN None None None]; nonces := ["n-1"] |};
          oracle := oracle start |};
     outcome := Responded {| r_intentId := "22222222-2222-4222-8222-222222222222";
                             r_status := OPEN;
                             r_message := FulfillmentInProgress |};
     inflight := [{| pay_direction := ETH_TO_OCT;
                     pay_intent := rowE OPEN None None None;
                     pay_amount := 995000 / 1001 |}] |}.
Proof.
  unfold stepE, submit.
  rewrite (processEth_valid config node worldB start hashE txE verified
             "oct1recipient" "n-1" eq_refl valid_E).
  cbn [sep_value txE cfg_feeBps config getEscrowBalanceFresh worldB].
  rewrite quote_start_E.
  unfold createIntent, ethIntent.
  cbn [sep_value txE cfg_feeBps config getEscrowBalanceFresh worldB].
  rewrite quote_start_E. unfold LIQUIDITY_BUFFER. decide_numbers.
  unfold beginFulfill. cbn. decide_numbers.
  reflexivity.
Qed.

Lemma traded_E :
  Oracle.reserves (Oracle.updateReserves 3000 ETH_TO_OCT (995000 / 1001) (oracle start))
  = {| Oracle.octReserve := 250250000 / 499;
       Oracle.ethReserve := 1000 + 995000 / 1001;
       Oracle.k := 1000000 * 1000 |}.
Proof.
  unfold Oracle.updateReserves, Oracle.calculateOctOut.
  cbn [Oracle.reserves Oracle.set_volumeHistory Oracle.set_reserves].
  rewrite start_reserves. cbn [Oracle.octReserve Oracle.ethReserve Oracle.k].
  decide_numbers. f_equal; lra.
Qed.

Lemma trips_E :
  Oracle.trips Oracle.defaults 3000 ETH_TO_OCT (995000 / 1001) (oracle start).
Proof.
  unfold Oracle.trips, Oracle.priceChange, Oracle.calculateSpotPrice.
  rewrite traded_E. destruct start_prices as (-> & _).
  destruct band_defaults as (_ & _ & ->).
  cbn [Oracle.octReserve Oracle.ethReserve]. decide_numbers. lra.
Qed.

Lemma reserves_oracleE :
  Oracle.reserves
    (Oracle.recordSwap Oracle.defaults 3000 ETH_TO_OCT (995000 / 1001) (oracle start))
  = {| Oracle.octReserve := 250250000 / 499;
       Oracle.ethReserve := 1000 + 995000 / 1001;
       Oracle.k := 1000000 * 1000 |}.
Proof.
  rewrite reserves_recordSwap.
  rewrite reserves_applyPriceBounds_inside.
  - rewrite reserves_beforeBounds. exact traded_E.
  - destruct (beforeBounds_tripped Oracle.defaults 3000 ETH_TO_OCT (995000 / 1001)
                (oracle start) trips_E) as (-> & _).
    destruct start_prices as (_ & ->).
    destruct band_defaults as (-> & -> & _). lra.
Qed.

Lemma afterE_eq :
  afterE =
  {| db := {| intents := [rowE FULFILLED (Some "0xpayout") (Some (995000 / 1001))
                            (Some 3000)];
              nonces := ["n-1"] |};
     oracle := Oracle.recordSwap Oracle.defaults 3000 ETH_TO_OCT (995000 / 1001)
                 (oracle start) |}.
Proof.
  unfold afterE. rewrite stepE_eq. cbn [inflight engine fold_left].
  unfold resume, fulfillEthToOct_resume.
  cbn [pay_direction pay_intent pay_amount sent paid success txHash text_or_null].
  cbn [String.eqb Ascii.eqb Bool.eqb].
  unfold Store.update, merge, rowE, fulfilled, override, number_or_null,
    text_or_null.
  cbn. decide_numbers. reflexivity.
Qed.

Lemma verify_illTyped :
  parseAndVerifyEvmEnvelope node txInputIllTyped = Valid verifiedIllTyped.
Proof.
  rewrite (parseAndVerifyEvmEnvelope_decoded node txInputIllTyped illTyped
             illTyped
             (JObject [("version", JNumber 1); ("intentType", JString "swap");
                       ("fromAsset", JString "ETH"); ("toAsset", JString "OCT");
                       ("minAmountOut", JNumber 1);
                       ("targetChain", JString "octra_mainnet");
                       ("targetAddress", JNumber 5);
                       ("expiry", JNumber 2000000); ("nonce", JString "n-2")])
             None None).
  - cbn [truthy]. unfold evmFields, illTyped. cbn. decide_numbers. reflexivity.
  - vm_compute. reflexivity.
  - replace (hex_to_utf8 node _) with illTypedText by (vm_compute; reflexivity).
    unfold decodeEnvelope.
    replace (isBase64 illTypedText) with false by (vm_compute; reflexivity).
    vm_compute. reflexivity.
  - reflexivity.
  - reflexivity.
  - reflexivity.
  - reflexivity.
Qed.

Lemma stepF_eq : stepF = threw start.
Proof.
  unfold stepF, submit, processEthToOctSubmission.
  replace (getByTxHash (db start) hashF) with (@None Intent) by reflexivity.
  replace (fetchSepoliaTransaction worldB hashF) with (Some txF)
    by (vm_compute; reflexivity).
  cbn [sep_status txF sep_to sep_input].
  replace (Str.toLowerCase "0x00000000000000000000000000000000000000e5"
           =? Str.toLowerCase (sepoliaEscrowAddress config)) with true
    by (vm_compute; reflexivity).
  cbn [negb]. rewrite verify_illTyped. reflexivity.
Qed.
End SepoliaRunFacts.

(** * Runs of the oracle *)

Section OracleRuns.
Import Oracle Runs.

Ltac fields := repeat (f_equal; try lra).

(** The rate of [getRate], from the fields it reads. *)
Lemma getRate_value (s : Settings) (t : R) (o : PriceOracle) :
  fst (getRate s t o) =
  if circuitBreakerActive o
  then twap_of (spotPrice o) (updateTWAP_points s t (spotPrice o) (twapDataPoints o))
  else emaPrice o * (7 / 10)
       + twap_of (spotPrice o)
           (updateTWAP_points s t (spotPrice o) (twapDataPoints o)) * (3 / 10).
Proof. reflexivity. Qed.


Lemma oracle0_fields :
  reserves oracle0 = {| octReserve := 1000000; ethReserve := 1000; k := 1000000 * 1000 |}
  /\ spotPrice oracle0 = 1000 / 1000000
  /\ emaPrice oracle0 = 1000 / 1000000
  /\ twapDataPoints oracle0 = [{| price := 1000 / 1000000; timestamp := 0; weight := 0 |}]
  /\ circuitBreakerActive oracle0 = false
  /\ resetTimers oracle0 = [].
Proof. repeat split. Qed.

Lemma traded_1 :
  reserves (updateReserves 60000 OCT_TO_ETH 25000 oracle0)
  = {| octReserve := 1025000; ethReserve := 40000 / 41; k := 1000000 * 1000 |}.
Proof.
  unfold updateReserves, calculateEthOut.
  cbn [reserves set_volumeHistory set_reserves].
  destruct oracle0_fields as (-> & _).
  cbn [octReserve ethReserve k]. decide_numbers. f_equal; lra.
Qed.

Lemma spot_1 : calculateSpotPrice (updateReserves 60000 OCT_TO_ETH 25000 oracle0) = spot1.
Proof.
  unfold calculateSpotPrice. rewrite traded_1. cbn [octReserve ethReserve].
  unfold spot1. lra.
Qed.

Lemma quiet_1 : ~ trips defaults 60000 OCT_TO_ETH 25000 oracle0.
Proof.
  unfold trips. rewrite spot_1. destruct oracle0_fields as (_ & -> & _).
  unfold priceChange, spot1. cbn [maxPriceChangePercent CONFIG defaults MAX_PRICE_CHANGE_PERCENT].
  decide_numbers. lra.
Qed.

Lemma band :
  minRate (CONFIG defaults) = 1 / 1000 * (50 / 100)
  /\ maxRate (CONFIG defaults) = 1 / 1000 * (200 / 100)
  /\ emaAlpha (CONFIG defaults) = 1 / 10
  /\ twapWindowMs (CONFIG defaults) = 15 * 60 * 1000.
Proof. repeat split. Qed.

Lemma points_1 :
  updateTWAP_points defaults 60000 spot1
    [{| price := 1000 / 1000000; timestamp := 0; weight := 0 |}]
  = [{| price := 1000 / 1000000; timestamp := 0; weight := 60000 |};
     {| price := spot1; timestamp := 60000; weight := 0 |}].
Proof.
  unfold updateTWAP_points.
  cbn [twapWindowMs CONFIG defaults TWAP_WINDOW_MS close_last app timestamp price].
  cbn [filter timestamp]. decide_numbers.
  cbn [filter timestamp]. decide_numbers. fields.
Qed.

Lemma points_2 :
  updateTWAP_points defaults 120000 ema1
    [{| price := 1000 / 1000000; timestamp := 0; weight := 60000 |};
     {| price := spot1; timestamp := 60000; weight := 0 |}]
  = [{| price := 1000 / 1000000; timestamp := 0; weight := 60000 |};
     {| price := spot1; timestamp := 60000; weight := 60000 |};
     {| price := ema1; timestamp := 120000; weight := 0 |}].
Proof.
  unfold updateTWAP_points.
  cbn [twapWindowMs CONFIG defaults TWAP_WINDOW_MS close_last app timestamp price].
  cbn [filter timestamp]. decide_numbers.
  cbn [filter timestamp]. decide_numbers.
  cbn [filter timestamp]. decide_numbers. fields.
Qed.

Lemma points_3 :
  updateTWAP_points defaults 130000 ema1
    [{| price := 1000 / 1000000; timestamp := 0; weight := 60000 |};
     {| price := spot1; timestamp := 60000; weight := 60000 |};
     {| price := ema1; timestamp := 120000; weight := 0 |}]
  = [{| price := 1000 / 1000000; timestamp := 0; weight := 60000 |};
     {| price := spot1; timestamp := 60000; weight := 60000 |};
     {| price := ema1; timestamp := 120000; weight := 10000 |};
     {| price := ema1; timestamp := 130000; weight := 0 |}].
Proof.
  unfold updateTWAP_points.
  cbn [twapWindowMs CONFIG defaults TWAP_WINDOW_MS close_last app timestamp price].
  cbn [filter timestamp]. decide_numbers.
  cbn [filter timestamp]. decide_numbers.
  cbn [filter timestamp]. decide_numbers.
  cbn [filter timestamp]. decide_numbers. fields.
Qed.

Lemma twap_3 :
  twap_of ema1
    [{| price := 1000 / 1000000; timestamp := 0; weight := 60000 |};
     {| price := spot1; timestamp := 60000; weight := 60000 |};
     {| price := ema1; timestamp := 120000; weight := 10000 |};
     {| price := ema1; timestamp := 130000; weight := 0 |}]
  = (1000 / 1000000 * 60000 + spot1 * 60000 + ema1 * 10000) / 130000.
Proof.
  unfold twap_of, twap_sums. cbn [fold_left weight price fst snd].
  decide_numbers. cbn [fst snd]. decide_numbers. unfold ema1, spot1. lra.
Qed.

Lemma oracle1_fields :
  reserves oracle1 = {| octReserve := 1025000; ethReserve := 40000 / 41; k := 1000000 * 1000 |}
  /\ spotPrice oracle1 = spot1
  /\ emaPrice oracle1 = ema1
  /\ twapDataPoints oracle1 =
       [{| price := 1000 / 1000000; timestamp := 0; weight := 60000 |};
        {| price := spot1; timestamp := 60000; weight := 0 |}]
  /\ circuitBreakerActive oracle1 = false
  /\ resetTimers oracle1 = [].
Proof.
  destruct (beforeBounds_quiet defaults 60000 OCT_TO_ETH 25000 oracle0 quiet_1)
    as (Bsp & Bema & Bcb & Btim & Btw).
  destruct (recordSwap_fields defaults 60000 OCT_TO_ETH 25000 oracle0)
    as (Fsp & Fema & Fcb & Ftim & Ftw).
  rewrite spot_1 in Bsp, Bema, Btw.
  destruct oracle0_fields as (_ & _ & E0 & T0 & C0 & R0).
  destruct band as (Hmin & Hmax & Halpha & Hwin).
  unfold oracle1.
  repeat split.
  - rewrite reserves_recordSwap, reserves_applyPriceBounds_inside.
    + rewrite reserves_beforeBounds. exact traded_1.
    + rewrite Bsp, Hmin, Hmax. unfold spot1. lra.
  - rewrite Fsp, Bsp. apply clamp_inside. rewrite Hmin, Hmax. unfold spot1. lra.
  - rewrite Fema, Bema, E0, Halpha. rewrite Rmax_Rmin_inside.
    + unfold ema1, spot1. lra.
    + rewrite Hmin, Hmax. unfold spot1. lra.
  - rewrite Ftw, Btw, T0. exact points_1.
  - rewrite Fcb, Bcb. exact C0.
  - rewrite Ftim, Btim. exact R0.
Qed.

Lemma traded_2 :
  reserves (updateReserves 120000 OCT_TO_ETH 1025000 oracle1)
  = {| octReserve := 2050000; ethReserve := 20000 / 41; k := 1000000 * 1000 |}.
Proof.
  unfold updateReserves, calculateEthOut.
  cbn [reserves set_volumeHistory set_reserves].
  destruct oracle1_fields as (-> & _).
  cbn [octReserve ethReserve k]. decide_numbers. f_equal; lra.
Qed.

Lemma trips_2 : trips defaults 120000 OCT_TO_ETH 1025000 oracle1.
Proof.
  unfold trips, calculateSpotPrice. rewrite traded_2.
  destruct oracle1_fields as (_ & -> & _).
  unfold priceChange, spot1.
  cbn [octReserve ethReserve maxPriceChangePercent CONFIG defaults
       MAX_PRICE_CHANGE_PERCENT].
  decide_numbers. lra.
Qed.

Lemma oracle2_fields :
  spotPrice oracle2 = ema1
  /\ emaPrice oracle2 = ema1
  /\ twapDataPoints oracle2 =
       [{| price := 1000 / 1000000; timestamp := 0; weight := 60000 |};
        {| price := spot1; timestamp := 60000; weight := 60000 |};
        {| price := ema1; timestamp := 120000; weight := 0 |}]
  /\ circuitBreakerActive oracle2 = true
  /\ resetTimers oracle2 = [120000 + COOLDOWN_MS].
Proof.
  destruct (beforeBounds_tripped defaults 120000 OCT_TO_ETH 1025000 oracle1 trips_2)
    as (Bsp & Bema & Bcb & Btim & Btw).
  destruct (recordSwap_fields defaults 120000 OCT_TO_ETH 1025000 oracle1)
    as (Fsp & Fema & Fcb & Ftim & Ftw).
  destruct oracle1_fields as (_ & _ & E1 & T1 & _ & R1).
  destruct band as (Hmin & Hmax & _ & Hwin).
  unfold oracle2.
  repeat split.
  - rewrite Fsp, Bsp, E1. apply clamp_inside. rewrite Hmin, Hmax.
    unfold ema1. lra.
  - rewrite Fema, Bema, E1. apply Rmax_Rmin_inside. rewrite Hmin, Hmax.
    unfold ema1. lra.
  - rewrite Ftw, Btw, T1, E1. exact points_2.
  - rewrite Fcb. exact Bcb.
  - rewrite Ftim, Btim, R1. reflexivity.
Qed.

Lemma rate_during_cooldown :
  fst (getRate defaults 130000 (fireDueTimers 130000 oracle2))
  = (1000 / 1000000 * 60000 + spot1 * 60000 + ema1 * 10000) / 130000.
Proof.
  destruct oracle2_fields as (S2 & E2 & T2 & C2 & R2).
  destruct (fireDueTimers_none_due 130000 oracle2) as (Fc & Fs & Fe & Ft).
  { rewrite R2. intros due [<- | []]. unfold COOLDOWN_MS. lra. }
  rewrite getRate_value, Fc, Fs, Ft, C2, S2, T2, points_3. exact twap_3.
Qed.
End OracleRuns.

(** * The claims on the runs *)

Section Verdicts.

Import Json Envelope Store Solver Fixture Runs.
Open Scope string_scope.

Lemma defaults_band :
  0 < Oracle.minRate (Oracle.CONFIG Oracle.defaults)
  /\ 0 < Oracle.maxRate (Oracle.CONFIG Oracle.defaults).
Proof.
  destruct band as (-> & -> & _). split; lra.
Qed.

Lemma oracle0_steady : Oracle.steady oracle0.
Proof.
  apply constructor_steady;
    cbn [Oracle.VIRTUAL_OCT_RESERVE Oracle.VIRTUAL_ETH_RESERVE Oracle.defaults]; lra.
Qed.



(** An instance: the first swap on the new oracle. *)
Lemma recordSwap_product_is_k_witness :
  Oracle.steady oracle0
  /\ Oracle.octReserve (Oracle.reserves oracle1)
     * Oracle.ethReserve (Oracle.reserves oracle1)
     = Oracle.k (Oracle.reserves oracle1)
  /\ Oracle.steady oracle1.
Proof.
  assert (Ha : 0 <= 25000) by lra.
  pose proof (recordSwap_product_is_k Oracle.defaults 60000 OCT_TO_ETH 25000 oracle0
                oracle0_steady Ha (proj1 defaults_band) (proj2 defaults_band))
    as (_ & _ & _ & Hprod & Hsteady).
  split; [exact oracle0_steady|]. split; [exact Hprod | exact Hsteady].
Defined.

Lemma oracle1_steady : Oracle.steady oracle1.
Proof.
  destruct oracle1_fields as (Hres & _). unfold Oracle.steady. rewrite Hres.
  cbn [Oracle.octReserve Oracle.ethReserve Oracle.k]. repeat split; lra.
Qed.

(** The witness of C6: the second swap trips the breaker. *)
Lemma breaker_freezes_spot_and_quotes_twap_witness :
  Oracle.steady oracle1
  /\ Oracle.spotPrice oracle1 <> 0
  /\ Oracle.trips Oracle.defaults 120000 OCT_TO_ETH 1025000 oracle1
  /\ Oracle.circuitBreakerActive oracle2 = true
  /\ Oracle.spotPrice
       (Oracle.beforeBounds Oracle.defaults 120000 OCT_TO_ETH 1025000 oracle1)
     = Oracle.emaPrice oracle1.
Proof.
  assert (Ha : 0 <= 1025000) by lra.
  assert (Hs : Oracle.spotPrice oracle1 <> 0).
  { destruct oracle1_fields as (_ & -> & _). unfold spot1. lra. }
  pose proof (breaker_freezes_spot_and_quotes_twap Oracle.defaults 120000
                OCT_TO_ETH 1025000 oracle1 oracle1_steady Ha Hs trips_2)
    as (Hact & Hspot & _).
  split; [exact oracle1_steady|]. split; [exact Hs|].
  split; [exact trips_2|]. split; [exact Hact | exact Hspot].
Defined.

(** C6 fails as stated.  The second swap moves the spot price by 75%, more
    than the threshold of 10%, and raises the breaker; ten seconds later, in
    the cooldown, the rate [getRate] hands out is the TWAP of the window, not
    the EMA of before the trade. *)
Lemma rate_in_cooldown_is_not_the_ema :
  Oracle.trips Oracle.defaults 120000 OCT_TO_ETH 1025000 oracle1
  /\ 120000 <= 130000 < 120000 + Oracle.COOLDOWN_MS
  /\ Oracle.circuitBreakerActive (Oracle.fireDueTimers 130000 oracle2) = true
  /\ Oracle.emaPrice oracle1 = ema1
  /\ fst (Oracle.getRate Oracle.defaults 130000 (Oracle.fireDueTimers 130000 oracle2))
     = (1000 / 1000000 * 60000 + spot1 * 60000 + ema1 * 10000) / 130000
  /\ fst (Oracle.getRate Oracle.defaults 130000 (Oracle.fireDueTimers 130000 oracle2))
     <> Oracle.emaPrice oracle1.
Proof.
  destruct oracle1_fields as (_ & _ & E1 & _).
  destruct oracle2_fields as (_ & _ & _ & C2 & R2).
  destruct (fireDueTimers_none_due 130000 oracle2) as (Fc & _).
  { rewrite R2. intros due [<- | []]. unfold Oracle.COOLDOWN_MS. lra. }
  split; [exact trips_2|].
  split; [unfold Oracle.COOLDOWN_MS; lra|].
  split; [rewrite Fc; exact C2|].
  split; [exact E1|].
  split; [exact rate_during_cooldown|].
  rewrite rate_during_cooldown, E1. unfold ema1, spot1. lra.
Qed.

Lemma reachable_stepA : reachable Oracle.defaults config node (engine stepA).
Proof. apply reach_submitOct. apply reach_start. Qed.

(** An instance: the reference of A submitted again, in the other
    direction. *)
Lemma duplicate_reference_answered_from_store_witness :
  reachable Oracle.defaults config node (engine stepA)
  /\ outcome (submit config node ETH_TO_OCT worldB (engine stepA) hashA)
     = Responded {| r_intentId := "11111111-1111-4111-8111-111111111111";
                    r_status := PENDING;
                    r_message := AlreadySubmitted |}
  /\ engine (submit config node ETH_TO_OCT worldB (engine stepA) hashA)
     = engine stepA.
Proof.
  assert (Hk : getByTxHash (db (engine stepA)) hashA = Some (rowA PENDING)).
  { rewrite stepA_eq. reflexivity. }
  pose proof (duplicate_reference_answered_from_store Oracle.defaults config node
                (engine stepA) hashA reachable_stepA) as (_ & Hdup & _).
  destruct (Hdup ETH_TO_OCT worldB (rowA PENDING) Hk) as (_ & Hout & Heng).
  split; [exact reachable_stepA|]. split; [exact Hout | exact Heng].
Defined.

(** The witness of C10: a reference the chain does not know is rejected and
    the engine stays as it is. *)
Lemma rejected_submission_keeps_nonce_witness :
  outcome (submit config node OCT_TO_ETH worldA (engine stepA) hashE)
  = Responded (rejected NotFoundOnOctra)
  /\ engine (submit config node OCT_TO_ETH worldA (engine stepA) hashE)
     = engine stepA.
Proof.
  assert (Hout : outcome (submit config node OCT_TO_ETH worldA (engine stepA) hashE)
                 = Responded (rejected NotFoundOnOctra)).
  { rewrite stepA_eq. reflexivity. }
  split; [exact Hout|].
  exact (proj1 (proj1 (rejected_submission_keeps_nonce config node OCT_TO_ETH
                         worldA (engine stepA) hashE)
                  (rejected NotFoundOnOctra) Hout eq_refl)).
Defined.



(** What the result of a payout does to the oracle: nothing when the payout
    failed; else one [recordSwap], with the [amountIn] of the intent for OCT
    to ETH and with the amount paid out for ETH to OCT. *)
Lemma resume_records_swap (s : Oracle.Settings) (now : R) (result : SendResult)
    (p : Payout) (e : Engine) :
  (sent result = None -> resume s now result p e = e)
  /\ (forall tx, sent result = Some tx ->
      oracle (resume s now result p e)
      = Oracle.recordSwap s now (pay_direction p)
          (match pay_direction p with
           | OCT_TO_ETH => i_amountIn (pay_intent p)
           | ETH_TO_OCT => pay_amount p
           end) (oracle e)).
Proof.
  unfold resume, fulfillOctToEth_resume, fulfillEthToOct_resume.
  split.
  - intros H. destruct (pay_direction p); rewrite H; reflexivity.
  - intros tx H. destruct (pay_direction p); rewrite H; reflexivity.
Qed.

(** C5 on the deposit of 1 ETH.  The intent is created with an input of 1
    ETH and a payout of 995000/1001 OCT (about 994); when the payout is
    confirmed the row becomes [FULFILLED] and [recordSwap] is called once,
    with the OCT paid out as its amount; the ETH reserve of the oracle grows
    by those 994 and not by the 1 ETH of the trade, and the OCT reserve does
    not fall by the constant-product output for 1 ETH. *)
Theorem eth_to_oct_fulfilment_records_payout_as_input :
  inflight stepE = [{| pay_direction := ETH_TO_OCT;
                       pay_intent := rowE OPEN None None None;
                       pay_amount := 995000 / 1001 |}]
  /\ i_amountIn (rowE OPEN None None None) = 1
  /\ intents (db afterE)
     = [rowE FULFILLED (Some "0xpayout") (Some (995000 / 1001)) (Some 3000)]
  /\ oracle afterE
     = Oracle.recordSwap Oracle.defaults 3000 ETH_TO_OCT (995000 / 1001)
         (oracle start)
  /\ Oracle.ethReserve (Oracle.reserves (oracle afterE))
     = Oracle.ethReserve (Oracle.reserves (oracle start)) + 995000 / 1001
  /\ Oracle.ethReserve (Oracle.reserves (oracle afterE))
     <> Oracle.ethReserve (Oracle.reserves (oracle start)) + 1
  /\ Oracle.octReserve (Oracle.reserves (oracle afterE))
     <> Oracle.octReserve (Oracle.reserves (oracle start))
        - Oracle.quote ETH_TO_OCT (oracle start) 1 0.
Proof.
  split; [rewrite stepE_eq; reflexivity|].
  split; [cbn [i_amountIn rowE]; lra|].
  rewrite afterE_eq. cbn [db intents oracle].
  split; [reflexivity|]. split; [reflexivity|].
  rewrite reserves_oracleE, start_reserves.
  cbn [Oracle.ethReserve Oracle.octReserve].
  split; [reflexivity|]. split; [lra|].
  unfold Oracle.quote, Oracle.calculateOctOut. rewrite start_reserves.
  cbn [Oracle.ethReserve Oracle.octReserve Oracle.k]. decide_numbers. lra.
Qed.

(** C9 on the deposit whose envelope has a number as target address.  The
    verifier accepts the envelope, and the submission then ends in an
    exception: no response with status [REJECTED] is returned (and no row
    is written). *)
Theorem ill_typed_envelope_is_not_rejected :
  fetchSepoliaTransaction worldB hashF = Some txF
  /\ parseAndVerifyEvmEnvelope node txInputIllTyped = Valid verifiedIllTyped
  /\ stepF = threw start
  /\ outcome stepF = Threw
  /\ (forall m, outcome stepF <> Responded (rejected m))
  /\ engine stepF = start.
Proof.
  split; [reflexivity|]. split; [exact verify_illTyped|].
  rewrite stepF_eq. cbn [outcome engine threw].
  split; [reflexivity|]. split; [reflexivity|].
  split; [intros m H; discriminate H | reflexivity].
Qed.

End Verdicts.

(** * The stored spot price and the reserves *)

Section SpotRuns.

Import Oracle Runs.





End SpotRuns.

(** * A deposit of a negative amount *)

Section NegativeDeposit.

Import Json Envelope Store Solver Fixture Runs.
Open Scope string_scope.

Lemma quote_start_Z :
  Oracle.calculateEthOut (oracle start) (- (1 / 2000000)) 50 = 0.
Proof.
  unfold Oracle.calculateEthOut. rewrite start_reserves.
  cbn [Oracle.octReserve Oracle.ethReserve Oracle.k].
  apply Rmax_left.
  assert (H : 1000 - 1000000 * 1000 / (1000000 + - (1 / 2000000)) < 0).
  { apply (Rmult_lt_reg_r (1000000 + - (1 / 2000000))); [lra|].
    unfold Rdiv at 1. rewrite Rmult_minus_distr_r.
    rewrite (Rmult_assoc (1000000 * 1000)), Rinv_l by lra. lra. }
  nra.
Qed.

Lemma parse_memoZ :
  JSON_parse node memoZ = Some (memo (- (1 / 2000000)) 0 "nonce-Z").
Proof. vm_compute. reflexivity. Qed.

Lemma parseIntentPayload_memoZ :
  parseIntentPayload node (Some memoZ) = Some payloadZ.
Proof.
  rewrite (parseIntentPayload_reads_no_hash node memoZ
             (memo (- (1 / 2000000)) 0 "nonce-Z")
             (memo (- (1 / 2000000)) 0 "nonce-Z") None).
  - unfold octFields, memo. cbn. decide_numbers. reflexivity.
  - intros H. discriminate H.
  - exact parse_memoZ.
  - reflexivity.
  - reflexivity.
Qed.

Lemma valid_Z : octValid config node worldZ start hashZ txZ payloadZ.
Proof.
  unfold octValid. repeat split.
  - exact parseIntentPayload_memoZ.
  - unfold validateIntentPayload. cbn. decide_numbers. reflexivity.
  - cbn [amountIn payloadZ cfg_feeBps config minAmountOut].
    rewrite quote_start_Z. lra.
Qed.

Lemma stepZ_eq :
  stepZ =
  {| engine := {| db := {| intents := [rowZ OPEN None None];
                           nonces := ["nonce-Z"] |};
                  oracle := oracle start |};
     outcome := Responded {| r_intentId := "55555555-5555-4555-8555-555555555555";
                             r_status := OPEN;
                             r_message := FulfillmentInProgress |};
     inflight := [{| pay_direction := OCT_TO_ETH;
                     pay_intent := rowZ OPEN None None;
                     pay_amount := 0 |}] |}.
Proof.
  unfold stepZ, submit.
  rewrite (processOct_valid config node worldZ start hashZ txZ payloadZ
             eq_refl valid_Z).
  cbn [amountIn payloadZ cfg_feeBps config getHotWalletBalanceFresh worldZ].
  rewrite quote_start_Z.
  unfold createIntent, octIntent.
  cbn [amountIn payloadZ cfg_feeBps config getHotWalletBalanceFresh worldZ].
  rewrite quote_start_Z. unfold LIQUIDITY_BUFFER. decide_numbers.
  unfold beginFulfill. cbn. decide_numbers.
  reflexivity.
Qed.

Lemma traded_Z :
  Oracle.reserves
    (Oracle.updateReserves 3000 OCT_TO_ETH (- (1 / 2000000)) (oracle start))
  = {| Oracle.octReserve := 1000000 - 1 / 2000000; Oracle.ethReserve := 1000;
       Oracle.k := 1000000 * 1000 |}.
Proof.
  unfold Oracle.updateReserves.
  cbn [Oracle.reserves Oracle.set_volumeHistory Oracle.set_reserves].
  assert (H : Oracle.calculateEthOut (oracle start) (- (1 / 2000000)) 0 = 0).
  { unfold Oracle.calculateEthOut. rewrite start_reserves.
    cbn [Oracle.octReserve Oracle.ethReserve Oracle.k].
    apply Rmax_left.
    assert (H : 1000 - 1000000 * 1000 / (1000000 + - (1 / 2000000)) < 0).
    { apply (Rmult_lt_reg_r (1000000 + - (1 / 2000000))); [lra|].
      unfold Rdiv at 1. rewrite Rmult_minus_distr_r.
      rewrite (Rmult_assoc (1000000 * 1000)), Rinv_l by lra. lra. }
    nra. }
  rewrite H. rewrite start_reserves.
  cbn [Oracle.octReserve Oracle.ethReserve Oracle.k]. f_equal; lra.
Qed.

Lemma spot_Z :
  Oracle.calculateSpotPrice
    (Oracle.updateReserves 3000 OCT_TO_ETH (- (1 / 2000000)) (oracle start))
  = 2000000000 / 1999999999999.
Proof.
  unfold Oracle.calculateSpotPrice. rewrite traded_Z.
  cbn [Oracle.octReserve Oracle.ethReserve]. field.
Qed.

Lemma quiet_Z :
  ~ Oracle.trips Oracle.defaults 3000 OCT_TO_ETH (- (1 / 2000000)) (oracle start).
Proof.
  unfold Oracle.trips. rewrite spot_Z.
  destruct start_prices as (-> & _).
  destruct band_defaults as (_ & _ & ->).
  unfold Oracle.priceChange.
  rewrite Rabs_pos_eq; lra.
Qed.

Lemma reserves_afterZ :
  Oracle.reserves
    (Oracle.recordSwap Oracle.defaults 3000 OCT_TO_ETH (- (1 / 2000000))
       (oracle start))
  = {| Oracle.octReserve := 1000000 - 1 / 2000000; Oracle.ethReserve := 1000;
       Oracle.k := 1000000 * 1000 |}.
Proof.
  rewrite reserves_recordSwap.
  rewrite reserves_applyPriceBounds_inside.
  - rewrite reserves_beforeBounds. exact traded_Z.
  - destruct (beforeBounds_quiet Oracle.defaults 3000 OCT_TO_ETH
                (- (1 / 2000000)) (oracle start) quiet_Z) as (-> & _).
    rewrite spot_Z.
    destruct band_defaults as (-> & -> & _). lra.
Qed.

Lemma afterZ_oracle :
  oracle afterZ
  = Oracle.recordSwap Oracle.defaults 3000 OCT_TO_ETH (- (1 / 2000000))
      (oracle start).
Proof.
  unfold afterZ. rewrite stepZ_eq. cbn [inflight engine fold_left].
  unfold resume, fulfillOctToEth_resume.
  cbn [pay_direction pay_intent pay_amount sent paid success txHash text_or_null].
  cbn [String.eqb Ascii.eqb Bool.eqb].
  reflexivity.
Qed.

(** C7 fails for a deposit whose [amountIn] is below 0, which the checks of
    the OCT to ETH path let through.  The deposit passes every validation
    and is answered [OPEN], with a payout of 0 ETH; when the payout has gone
    through, [fulfillOctToEth] records a swap of the negative amount: the
    OCT reserve takes it, the ETH reserve stays (the output is cut at 0),
    the price bounds change nothing, and the product of the reserves is no
    longer [k]. *)
Theorem negative_deposit_breaks_the_product :
  octValid config node worldZ start hashZ txZ payloadZ
  /\ outcome stepZ
     = Responded {| r_intentId := "55555555-5555-4555-8555-555555555555";
                    r_status := OPEN;
                    r_message := FulfillmentInProgress |}
  /\ inflight stepZ
     = [{| pay_direction := OCT_TO_ETH; pay_intent := rowZ OPEN None None;
           pay_amount := 0 |}]
  /\ reachable Oracle.defaults config node afterZ
  /\ Oracle.steady (oracle start)
  /\ oracle afterZ
     = Oracle.recordSwap Oracle.defaults 3000 OCT_TO_ETH (i_amountIn (rowZ OPEN None None))
         (oracle start)
  /\ i_amountIn (rowZ OPEN None None) < 0
  /\ Oracle.reserves (oracle afterZ)
     = {| Oracle.octReserve := 1000000 - 1 / 2000000; Oracle.ethReserve := 1000;
          Oracle.k := 1000000 * 1000 |}
  /\ Oracle.octReserve (Oracle.reserves (oracle afterZ))
     * Oracle.ethReserve (Oracle.reserves (oracle afterZ))
     <> Oracle.k (Oracle.reserves (oracle afterZ))
  /\ Oracle.spotPrice (oracle afterZ)
     = Oracle.spotPrice
         (Oracle.beforeBounds Oracle.defaults 3000 OCT_TO_ETH
            (i_amountIn (rowZ OPEN None None)) (oracle start)).
Proof.
  split; [exact valid_Z|].
  split; [rewrite stepZ_eq; reflexivity|].
  split; [rewrite stepZ_eq; reflexivity|].
  split.
  { unfold afterZ.
    assert (Hz : reachable Oracle.defaults config node (engine stepZ)).
    { apply reach_submitOct. apply reach_start. }
    revert Hz. generalize (engine stepZ).
    induction (inflight stepZ) as [|p l IH]; intros e He; [exact He|].
    cbn [fold_left]. apply IH. apply reach_resume. exact He. }
  split; [exact oracle0_steady|].
  split; [exact afterZ_oracle|].
  split; [cbn [i_amountIn rowZ]; lra|].
  rewrite afterZ_oracle. cbn [i_amountIn rowZ].
  split; [exact reserves_afterZ|].
  split.
  - rewrite reserves_afterZ. cbn [Oracle.octReserve Oracle.ethReserve Oracle.k]. lra.
  - rewrite spotPrice_recordSwap, spotPrice_applyPriceBounds.
    apply clamp_inside.
    destruct (beforeBounds_quiet Oracle.defaults 3000 OCT_TO_ETH
                (- (1 / 2000000)) (oracle start) quiet_Z) as (-> & _).
    rewrite spot_Z. destruct band_defaults as (-> & -> & _). lra.
Qed.

End NegativeDeposit.

(** * Submissions that overlap *)

Section OverlapFacts.

Import Json Envelope Store Solver.
Open Scope string_scope.

Variable config : AppConfig.
Variable P : Platform.

(** The three pieces, run one after the other on one engine, are the
    submission. *)
Lemma processOct_pieces (w : World) (e : Engine) (h : string) :
  processOctToEthSubmission config P w e h
  = match octLookup e h with
    | Some st => st
    | None =>
        match octChecks config P w e h with
        | inl st => st
        | inr (tx, payload, ethOut) => octCreate w e h tx payload ethOut
        end
    end.
Proof.
  unfold processOctToEthSubmission, octLookup, octChecks, octCreate.
  destruct (getByTxHash (db e) h); [reflexivity|].
  destruct (fetchOctraTransaction w h) as [tx|]; [|reflexivity].
  destruct (oct_status tx); try reflexivity.
  destruct (parseIntentPayload P (oct_message tx)) as [payload|]; [|reflexivity].
  destruct (validateIntentPayload _ _ _ _); [reflexivity|].
  destruct (isNonceUsed (db e) (nonce payload)); [reflexivity|].
  cbv zeta. destruct (Rltb _ _); reflexivity.
Qed.

Lemma processEth_pieces (w : World) (e : Engine) (h : string) :
  processEthToOctSubmission config P w e h
  = match ethLookup e h with
    | Some st => st
    | None =>
        match ethChecks config P w e h with
        | inl st => st
        | inr c => ethCreate w e h c
        end
    end.
Proof.
  unfold processEthToOctSubmission, ethLookup, ethChecks, ethCreate.
  destruct (getByTxHash (db e) h); [reflexivity|].
  destruct (fetchSepoliaTransaction w h) as [tx|]; [|reflexivity].
  destruct (sep_status tx); try reflexivity.
  destruct (negb _); [reflexivity|].
  destruct (parseAndVerifyEvmEnvelope P _) as [d|err]; [|reflexivity].
  destruct (evm_targetAddress d); try reflexivity.
  destruct (negb _); [reflexivity|].
  destruct (Rgtb _ _); [reflexivity|].
  destruct (bindText P (evm_nonce d)) as [non|]; [|reflexivity].
  destruct (isNonceUsed (db e) non); [reflexivity|].
  cbv zeta. destruct (Rleb _ 0); [reflexivity|].
  destruct (Rltb _ _); reflexivity.
Qed.

End OverlapFacts.

Section OverlapRuns.

Import Json Envelope Store Solver Fixture Runs.
Open Scope string_scope.

Lemma checks_A (w : World) :
  fetchOctraTransaction w = octraRpc -> now_check w <= 3600000 ->
  octChecks config node w start hashA = inr (txA, payloadA, 995 / 1001).
Proof.
  intros Hf Hnow. unfold octChecks. rewrite Hf.
  change (octraRpc hashA) with (Some txA).
  cbn [oct_status txA oct_message].
  rewrite parseIntentPayload_memoA.
  assert (Hv : validateIntentPayload (now_check w) payloadA txA
                 (octraEscrowAddress config) = None).
  { unfold validateIntentPayload. cbn [oct_to txA octraEscrowAddress config
      oct_amount amountIn payloadA expiry targetAddress].
    assert (E1 : ("oct1escrow" =? "oct1escrow") = true) by reflexivity.
    rewrite E1. cbn [negb].
    assert (E2 : Str.matches_evm_address
                   "0x00000000000000000000000000000000000000a1" = true)
      by (vm_compute; reflexivity).
    rewrite E2. cbn [negb]. decide_numbers. reflexivity. }
  rewrite Hv.
  cbn [isNonceUsed db start Store.empty nonces existsb].
  cbn [amountIn payloadA cfg_feeBps config minAmountOut].
  rewrite quote_start_A. decide_numbers. reflexivity.
Qed.

Lemma firstCall_eq :
  firstCall =
  {| engine := {| db := {| intents := [rowA_of (uuidv4 worldB) OPEN None None None];
                           nonces := ["nonce-A"] |};
                  oracle := oracle start |};
     outcome := Responded {| r_intentId := uuidv4 worldB;
                             r_status := OPEN;
                             r_message := FulfillmentInProgress |};
     inflight := [payoutA (uuidv4 worldB)] |}.
Proof.
  unfold firstCall, octCreate, createIntent.
  cbn [getHotWalletBalanceFresh worldB].
  unfold LIQUIDITY_BUFFER. decide_numbers.
  unfold beginFulfill. cbn. decide_numbers.
  reflexivity.
Qed.

Lemma secondCall_eq :
  secondCall =
  {| engine := {| db := {| intents := [rowA_of (uuidv4 worldB) OPEN None None None;
                                       rowA_of (uuidv4 worldC) OPEN None None None];
                           nonces := ["nonce-A"] |};
                  oracle := oracle start |};
     outcome := Responded {| r_intentId := uuidv4 worldC;
                             r_status := OPEN;
                             r_message := FulfillmentInProgress |};
     inflight := [payoutA (uuidv4 worldC)] |}.
Proof.
  unfold secondCall. rewrite firstCall_eq. unfold octCreate, createIntent.
  cbn [getHotWalletBalanceFresh worldC engine].
  unfold LIQUIDITY_BUFFER. decide_numbers.
  unfold beginFulfill. cbn. decide_numbers.
  reflexivity.
Qed.

Lemma bothPaid_rows :
  intents (db bothPaid)
  = [rowA_of (uuidv4 worldB) FULFILLED (Some "0xpayout") (Some (995 / 1001))
       (Some 3000);
     rowA_of (uuidv4 worldC) FULFILLED (Some "0xpayout") (Some (995 / 1001))
       (Some 4000)].
Proof.
  unfold bothPaid. rewrite secondCall_eq.
  unfold resume, fulfillOctToEth_resume.
  cbn [pay_direction pay_intent pay_amount payoutA sent paid success txHash
       text_or_null].
  cbn [String.eqb Ascii.eqb Bool.eqb].
  cbn [db engine intents].
  unfold Store.update, merge, rowA_of, fulfilled, override, number_or_null,
    text_or_null.
  cbn. decide_numbers. reflexivity.
Qed.

(** C3 fails when two calls overlap.  The reference of the deposit A is
    submitted twice, the second call starting while the first waits: both
    look the reference up before either has written, both pass the checks at
    start (the nonce is still unused), then each writes its row.  The two
    calls answer [OPEN] with two different ids, the store holds two rows with
    the same [sourceTxHash], and two payouts are started for the one
    deposit; when both have gone through, both rows are [FULFILLED]. *)
Theorem overlapping_submissions_store_two_rows :
  octLookup start hashA = None
  /\ octChecks config node worldB start hashA = inr (txA, payloadA, 995 / 1001)
  /\ octChecks config node worldC start hashA = inr (txA, payloadA, 995 / 1001)
  /\ outcome firstCall
     = Responded {| r_intentId := "22222222-2222-4222-8222-222222222222";
                    r_status := OPEN; r_message := FulfillmentInProgress |}
  /\ outcome secondCall
     = Responded {| r_intentId := "44444444-4444-4444-8444-444444444444";
                    r_status := OPEN; r_message := FulfillmentInProgress |}
  /\ overlapped Oracle.defaults config node
       {| running := engine secondCall;
          waiting := [Sending (payoutA (uuidv4 worldB));
                      Sending (payoutA (uuidv4 worldC))] |}
  /\ map sourceTxHash (intents (db (engine secondCall))) = [hashA; hashA]
  /\ map intentId (intents (db (engine secondCall)))
     = ["22222222-2222-4222-8222-222222222222";
        "44444444-4444-4444-8444-444444444444"]
  /\ ~ uniqueSource (db (engine secondCall))
  /\ overlapped Oracle.defaults config node
       {| running := bothPaid; waiting := [] |}
  /\ map sourceTxHash (intents (db bothPaid)) = [hashA; hashA]
  /\ map status (intents (db bothPaid)) = [FULFILLED; FULFILLED]
  /\ ~ uniqueSource (db bothPaid).
Proof.
  assert (HcB : octChecks config node worldB start hashA
                = inr (txA, payloadA, 995 / 1001)).
  { apply checks_A; [reflexivity | cbn [now_check worldB]; lra]. }
  assert (HcC : octChecks config node worldC start hashA
                = inr (txA, payloadA, 995 / 1001)).
  { apply checks_A; [reflexivity | cbn [now_check worldC]; lra]. }
  assert (Hl : octLookup start hashA = None) by reflexivity.
  assert (Hrun : overlapped Oracle.defaults config node
                   {| running := engine secondCall;
                      waiting := [Sending (payoutA (uuidv4 worldB));
                                  Sending (payoutA (uuidv4 worldC))] |}).
  { pose proof (over_start Oracle.defaults config node 0) as S0.
    fold start in S0.
    pose proof (over_move _ _ _ _ _ S0
                  (move_octLookup Oracle.defaults config node start [] hashA Hl)) as S1.
    pose proof (over_move _ _ _ _ _ S1
                  (move_octLookup Oracle.defaults config node start _ hashA Hl)) as S2.
    cbn [app] in S2.
    pose proof (over_move _ _ _ _ _ S2
                  (move_octChecks Oracle.defaults config node worldB start []
                     [OctFetching hashA] hashA txA payloadA (995 / 1001) HcB)) as S3.
    cbn [app] in S3.
    pose proof (over_move _ _ _ _ _ S3
                  (move_octChecks Oracle.defaults config node worldC start
                     [OctProbing hashA txA payloadA (995 / 1001)] []
                     hashA txA payloadA (995 / 1001) HcC)) as S4.
    cbn [app] in S4.
    pose proof (over_move _ _ _ _ _ S4
                  (move_octCreate Oracle.defaults config node worldB start []
                     [OctProbing hashA txA payloadA (995 / 1001)]
                     hashA txA payloadA (995 / 1001))) as S5.
    fold firstCall in S5. cbn [app] in S5.
    replace (map Sending (inflight firstCall))
      with [Sending (payoutA (uuidv4 worldB))] in S5
      by (rewrite firstCall_eq; reflexivity).
    cbn [app] in S5.
    pose proof (over_move _ _ _ _ _ S5
                  (move_octCreate Oracle.defaults config node worldC
                     (engine firstCall) []
                     [Sending (payoutA (uuidv4 worldB))]
                     hashA txA payloadA (995 / 1001))) as S6.
    fold secondCall in S6. cbn [app] in S6.
    replace (map Sending (inflight secondCall))
      with [Sending (payoutA (uuidv4 worldC))] in S6
      by (rewrite secondCall_eq; reflexivity).
    exact S6. }
  assert (Hpaid : overlapped Oracle.defaults config node
                    {| running := bothPaid; waiting := [] |}).
  { pose proof (over_move _ _ _ _ _ Hrun
                  (move_sent Oracle.defaults config node 3000 paid
                     (engine secondCall) []
                     [Sending (payoutA (uuidv4 worldC))]
                     (payoutA (uuidv4 worldB)))) as S7.
    cbn [app] in S7.
    pose proof (over_move _ _ _ _ _ S7
                  (move_sent Oracle.defaults config node 4000 paid _ [] []
                     (payoutA (uuidv4 worldC)))) as S8.
    exact S8. }
  split; [exact Hl|]. split; [exact HcB|]. split; [exact HcC|].
  split; [rewrite firstCall_eq; reflexivity|].
  split; [rewrite secondCall_eq; reflexivity|].
  split; [exact Hrun|].
  split; [rewrite secondCall_eq; reflexivity|].
  split; [rewrite secondCall_eq; reflexivity|].
  split.
  { unfold uniqueSource. rewrite secondCall_eq.
    cbn [engine db intents map sourceTxHash rowA_of].
    intros H. inversion H as [|x l Hnot _]. apply Hnot. left. reflexivity. }
  split; [exact Hpaid|].
  split; [rewrite bothPaid_rows; reflexivity|].
  split; [rewrite bothPaid_rows; reflexivity|].
  unfold uniqueSource. rewrite bothPaid_rows.
  cbn [map sourceTxHash rowA_of].
  intros H. inversion H as [|x l Hnot _]. apply Hnot. left. reflexivity.
Qed.

End OverlapRuns.

(** * The views of the oracle *)

Section OracleViewFacts.

Import Oracle.

Variable s : Settings.

(** X1.  On a pool in its steady state whose spot price is the ratio of its
    reserves, the impact [calculatePriceImpact] reports for a trade of
    [a > 0] is [a / (octReserve + a) * 100] when OCT is sold, which lies
    strictly between 0 and 100, and [a / ethReserve * 100] when ETH is
    sold, which is positive and has no upper bound; the price the trade
    gets, in ETH per OCT, is below the spot price in the first direction and
    above it in the second. *)
Theorem price_impact_closed_form (o : PriceOracle) (a : R) :
  steady o -> spotPrice o = calculateSpotPrice o -> 0 < a ->
  priceImpactPercent (calculatePriceImpact OCT_TO_ETH a o)
    = a / (octReserve (reserves o) + a) * 100
  /\ priceImpactPercent (calculatePriceImpact ETH_TO_OCT a o)
    = a / ethReserve (reserves o) * 100
  /\ 0 < priceImpactPercent (calculatePriceImpact OCT_TO_ETH a o) < 100
  /\ 0 < priceImpactPercent (calculatePriceImpact ETH_TO_OCT a o)
  /\ effectivePrice (calculatePriceImpact OCT_TO_ETH a o) < spotPrice o
  /\ spotPrice o < effectivePrice (calculatePriceImpact ETH_TO_OCT a o).
Proof.
  intros (Hx & Hy & Hk) Hspot Ha.
  set (x := octReserve (reserves o)) in *.
  set (y := ethReserve (reserves o)) in *.
  assert (Eeth : calculateEthOut o a 0 = y * a / (x + a)).
  { unfold calculateEthOut. fold x y. rewrite <- Hk.
    replace (y - x * y / (x + a) - (y - x * y / (x + a)) * (0 / 10000))
      with (y - x * y / (x + a)) by (field; lra).
    rewrite Rmax_0_of_nonneg by (apply gross_nonneg; lra).
    apply gross_closed_form. lra. }
  assert (Eoct : calculateOctOut o a 0 = x * a / (y + a)).
  { unfold calculateOctOut. fold x y. rewrite <- Hk.
    replace (x - x * y / (y + a) - (x - x * y / (y + a)) * (0 / 10000))
      with (x - y * x / (y + a)) by (field; lra).
    rewrite Rmax_0_of_nonneg by (apply gross_nonneg; lra).
    apply gross_closed_form. lra. }
  assert (Es : spotPrice o = y / x) by (rewrite Hspot; reflexivity).
  unfold calculatePriceImpact.
  cbn [priceImpactPercent effectivePrice].
  rewrite Eeth, Eoct, Es.
  assert (H1 : (y / x - y * a / (x + a) / a) / (y / x) * 100 = a / (x + a) * 100)
    by (field; lra).
  assert (H2 : (a / (x * a / (y + a)) - y / x) / (y / x) * 100 = a / y * 100)
    by (field; lra).
  assert (H3 : 0 < a / (x + a) < 1).
  { split.
    - apply Rdiv_lt_0_compat; lra.
    - apply (Rmult_lt_reg_r (x + a)); [lra|].
      unfold Rdiv. rewrite Rmult_assoc, Rinv_l by lra. lra. }
  assert (H4 : 0 < a / y) by (apply Rdiv_lt_0_compat; lra).
  rewrite H1, H2.
  split; [reflexivity|]. split; [reflexivity|].
  split; [lra|]. split; [lra|].
  split.
  - replace (y * a / (x + a) / a) with (y / (x + a)) by (field; lra).
    unfold Rdiv. apply Rmult_lt_compat_l; [lra|].
    apply Rinv_lt_contravar; nra.
  - replace (a / (x * a / (y + a))) with ((y + a) / x) by (field; lra).
    unfold Rdiv. apply Rmult_lt_compat_r; [apply Rinv_0_lt_compat; lra | lra].
Qed.

(** X2.  Whatever the swap and the oracle it is recorded on, after
    [recordSwap] the spot price and the EMA lie in the rate band
    [[minRate, maxRate]] (for a band that is not empty). *)
Theorem recordSwap_prices_in_band (now : R) (d : SwapDirection) (a : R)
    (o : PriceOracle) :
  minRate (CONFIG s) <= maxRate (CONFIG s) ->
  minRate (CONFIG s) <= spotPrice (recordSwap s now d a o) <= maxRate (CONFIG s)
  /\ minRate (CONFIG s) <= emaPrice (recordSwap s now d a o) <= maxRate (CONFIG s).
Proof.
  intros Hband.
  assert (Hs : spotPrice (recordSwap s now d a o)
               = clamp s (spotPrice (beforeBounds s now d a o))) by reflexivity.
  assert (He : emaPrice (recordSwap s now d a o)
               = Rmax (minRate (CONFIG s))
                   (Rmin (maxRate (CONFIG s)) (emaPrice (beforeBounds s now d a o))))
    by reflexivity.
  rewrite Hs, He. split.
  - unfold clamp, Rgtb.
    destruct (Rltb _ (minRate (CONFIG s))) eqn:E1; [lra|].
    apply Rltb_false in E1.
    destruct (Rltb (maxRate (CONFIG s)) _) eqn:E2; [lra|].
    apply Rltb_false in E2. lra.
  - split.
    + apply Rmax_l.
    + apply Rmax_lub; [exact Hband | apply Rmin_l].
Qed.

End OracleViewFacts.

(** * The price history *)

Section HistoryFacts.

Import Oracle.

Variable s : Settings.

Lemma skipn_app_last {A : Type} (n : nat) (l : list A) (x : A) :
  (n <= List.length l)%nat -> skipn n (l ++ [x]) = skipn n l ++ [x].
Proof.
  revert n. induction l as [|y l IH]; intros n Hn.
  - cbn [List.length] in Hn. assert (n = 0%nat) by lia. subst n. reflexivity.
  - destruct n as [|n]; [reflexivity|]. cbn [skipn app]. apply IH.
    cbn [List.length] in Hn. lia.
Qed.

Lemma skipn_length_minus {A : Type} (n : nat) (l : list A) :
  List.length (skipn n l) = (List.length l - n)%nat.
Proof.
  revert n. induction l as [|y l IH]; intros n; destruct n; cbn; auto.
Qed.

(** What [recordPrice] leaves in the history. *)
Lemma recordPrice_history (now r : R) (why : Reason) (vol : option R)
    (dir : option SwapDirection) (o : PriceOracle) :
  let rec := {| rate := r; pr_timestamp := now; reason := why; volume := vol;
                pr_direction := dir |} in
  (exists older, priceHistory (recordPrice now r why vol dir o) = older ++ [rec])
  /\ (List.length (priceHistory (recordPrice now r why vol dir o)) <= 1000)%nat
  /\ ((List.length (priceHistory o) < 1000)%nat ->
      priceHistory (recordPrice now r why vol dir o) = priceHistory o ++ [rec]).
Proof.
  intros rec. unfold recordPrice. cbn [priceHistory]. fold rec.
  destruct (Nat.ltb 1000 (List.length (priceHistory o ++ [rec]))) eqn:E.
  - apply Nat.ltb_lt in E. rewrite length_app in E. cbn [List.length] in E.
    unfold lastn. rewrite length_app. cbn [List.length].
    rewrite skipn_app_last by lia.
    split; [eexists; reflexivity|]. split.
    + rewrite length_app, skipn_length_minus. cbn [List.length]. lia.
    + intros H. lia.
  - apply Nat.ltb_ge in E. rewrite length_app in E. cbn [List.length] in E.
    split; [eexists; reflexivity|]. split.
    + rewrite length_app. cbn [List.length]. lia.
    + intros _. reflexivity.
Qed.

(** X3.  [recordSwap] ends the price history with one new record: the spot
    price it leaves, the clock reading, the reason [swap], the amount and
    the direction it was called with.  The history never holds more than
    1000 records, and below that bound no older record is dropped. *)
Theorem recordSwap_appends_one_record (now : R) (d : SwapDirection) (a : R)
    (o : PriceOracle) :
  let after := recordSwap s now d a o in
  let rec := {| rate := spotPrice after; pr_timestamp := now; reason := swap;
                volume := Some a; pr_direction := Some d |} in
  (exists older, priceHistory after = older ++ [rec])
  /\ (List.length (priceHistory after) <= 1000)%nat
  /\ ((List.length (priceHistory o) < 1000)%nat ->
      priceHistory after = priceHistory o ++ [rec]).
Proof.
  intros after rec.
  set (b := applyPriceBounds s (beforeBounds s now d a o)).
  assert (Hh : priceHistory after
               = priceHistory (recordPrice now (spotPrice b) swap (Some a) (Some d) b))
    by reflexivity.
  assert (Hs : spotPrice after = spotPrice b) by reflexivity.
  assert (Hb : priceHistory b = priceHistory o).
  { unfold b, applyPriceBounds, beforeBounds, updateTWAP, updateEMA,
      checkCircuitBreaker.
    cbn [priceHistory set_reserves set_emaPrice set_spotPrice set_twapDataPoints].
    destruct (Rgtb _ _); cbn [priceHistory triggerCircuitBreaker set_spotPrice];
      destruct d; reflexivity. }
  destruct (recordPrice_history now (spotPrice b) swap (Some a) (Some d) b)
    as (H1 & H2 & H3).
  unfold rec. rewrite Hh, Hs. rewrite Hb in H3.
  split; [exact H1|]. split; [exact H2 | exact H3].
Qed.

(** [getHistory] by the sign of its limit: the newest [limit] records for a
    positive one, every record for 0, and for a negative one the records
    but the oldest [- limit]. *)
Lemma getHistory_by_limit (limit : Z) (o : PriceOracle) :
  ((0 < limit)%Z ->
     getHistory limit o = lastn (Z.to_nat limit) (priceHistory o)
     /\ List.length (getHistory limit o)
        = Nat.min (Z.to_nat limit) (List.length (priceHistory o)))
  /\ (limit = 0%Z -> getHistory limit o = priceHistory o)
  /\ ((limit < 0)%Z ->
      getHistory limit o = skipn (Z.to_nat (- limit)) (priceHistory o)).
Proof.
  unfold getHistory, slice_from.
  set (l := priceHistory o).
  split; [|split].
  - intros Hpos.
    assert (E : (- limit <? 0)%Z = true) by (apply Z.ltb_lt; lia).
    rewrite E. unfold lastn.
    assert (Hk : Z.to_nat (Z.max (Z.of_nat (List.length l) + - limit) 0)
                 = (List.length l - Z.to_nat limit)%nat) by lia.
    rewrite Hk. split; [reflexivity|].
    rewrite skipn_length_minus. lia.
  - intros ->. cbn [Z.opp Z.ltb Z.compare]. rewrite Z.min_l by lia. reflexivity.
  - intros Hneg.
    assert (E : (- limit <? 0)%Z = false) by (apply Z.ltb_ge; lia).
    rewrite E.
    destruct (Z.leb_spec (- limit) (Z.of_nat (List.length l))) as [Hle | Hgt].
    + rewrite Z.min_l by lia. reflexivity.
    + rewrite Z.min_r by lia.
      replace (Z.to_nat (Z.of_nat (List.length l))) with (List.length l) by lia.
      rewrite skipn_all. symmetry. apply skipn_all2. lia.
Qed.

End HistoryFacts.

(** * The 24 hour volume *)

Section VolumeFacts.

Import Oracle.

Variable s : Settings.

(** The sums over a log cleaned at an earlier or equal cutoff are the sums
    over the log. *)
Lemma volume_sums_filter (cut cut' : R) (l : list VolumeEntry) (acc : R * R) :
  cut' <= cut ->
  fold_left
    (fun acc v =>
       if Rgeb (vol_timestamp v) cut
       then match vol_direction v with
            | OCT_TO_ETH => (fst acc + octAmount v, snd acc)
            | ETH_TO_OCT => (fst acc, snd acc + octAmount v)
            end
       else acc)
    (filter (fun v => Rgeb (vol_timestamp v) cut') l) acc
  = fold_left
    (fun acc v =>
       if Rgeb (vol_timestamp v) cut
       then match vol_direction v with
            | OCT_TO_ETH => (fst acc + octAmount v, snd acc)
            | ETH_TO_OCT => (fst acc, snd acc + octAmount v)
            end
       else acc) l acc.
Proof.
  intros Hcut. revert acc. induction l as [|v l IH]; intros acc; [reflexivity|].
  cbn [filter fold_left].
  destruct (Rgeb (vol_timestamp v) cut') eqn:E'.
  - cbn [fold_left]. apply IH.
  - unfold Rgeb in E'. apply Rleb_false in E'.
    assert (E : Rgeb (vol_timestamp v) cut = false).
    { unfold Rgeb. apply Rleb_false. lra. }
    rewrite E. apply IH.
Qed.

Lemma getVolume24h_cleanup (now now' : R) (o : PriceOracle) :
  now' <= now ->
  getVolume24h now (cleanupVolumeHistory now' o) = getVolume24h now o.
Proof.
  intros H. unfold getVolume24h, cleanupVolumeHistory, volume_sums.
  cbn [volumeHistory set_volumeHistory].
  rewrite volume_sums_filter by lra. reflexivity.
Qed.

Lemma volumeHistory_recordSwap (now : R) (d : SwapDirection) (a : R)
    (o : PriceOracle) :
  volumeHistory (recordSwap s now d a o)
  = filter (fun v => Rgeb (vol_timestamp v) (now - 24 * 60 * 60 * 1000))
      (volumeHistory o ++
       [{| vol_timestamp := now;
           octAmount := match d with
                        | OCT_TO_ETH => a
                        | ETH_TO_OCT => calculateOctOut o a 0
                        end;
           vol_direction := d |}]).
Proof.
  unfold recordSwap, cleanupVolumeHistory, recordPrice, applyPriceBounds,
    updateTWAP, updateEMA, checkCircuitBreaker.
  cbn [volumeHistory set_volumeHistory set_reserves set_emaPrice set_spotPrice
       set_twapDataPoints].
  destruct (Rgtb _ _); cbn [volumeHistory triggerCircuitBreaker set_spotPrice];
    destruct d; reflexivity.
Qed.

(** X4.  A recorded swap adds to the 24 hour volume of its own direction
    only, in OCT: the amount itself for OCT to ETH, the fee-free OCT output
    of the amount for ETH to OCT; [totalOct] is the sum of the two
    directions.  Dropping the entries older than 24 hours at one time does
    not change what [getVolume24h] reports at that time or later. *)
Theorem recordSwap_adds_to_volume (now : R) (d : SwapDirection) (a : R)
    (o : PriceOracle) :
  let before := getVolume24h now o in
  let after := getVolume24h now (recordSwap s now d a o) in
  octToEth after
    = octToEth before + match d with OCT_TO_ETH => a | ETH_TO_OCT => 0 end
  /\ ethToOct after
    = ethToOct before
      + match d with OCT_TO_ETH => 0 | ETH_TO_OCT => calculateOctOut o a 0 end
  /\ totalOct after = octToEth after + ethToOct after
  /\ (forall later, now <= later ->
      getVolume24h later (cleanupVolumeHistory now o) = getVolume24h later o).
Proof.
  intros before after.
  assert (Hsum : forall v, totalOct (getVolume24h now v)
                           = octToEth (getVolume24h now v) + ethToOct (getVolume24h now v)).
  { intros v. unfold getVolume24h. destruct (volume_sums _ _). reflexivity. }
  assert (Hafter : volume_sums (now - 24 * 60 * 60 * 1000)
                     (volumeHistory (recordSwap s now d a o))
                   = (fst (volume_sums (now - 24 * 60 * 60 * 1000) (volumeHistory o))
                      + match d with OCT_TO_ETH => a | ETH_TO_OCT => 0 end,
                      snd (volume_sums (now - 24 * 60 * 60 * 1000) (volumeHistory o))
                      + match d with
                        | OCT_TO_ETH => 0
                        | ETH_TO_OCT => calculateOctOut o a 0
                        end)).
  { rewrite volumeHistory_recordSwap. unfold volume_sums.
    rewrite volume_sums_filter by lra.
    rewrite fold_left_app. cbn [fold_left vol_timestamp vol_direction octAmount].
    assert (E : Rgeb now (now - 24 * 60 * 60 * 1000) = true).
    { unfold Rgeb. apply Rleb_true. lra. }
    rewrite E. destruct d; cbn [fst snd]; f_equal; lra. }
  split; [|split; [|split]].
  - unfold after, before, getVolume24h. rewrite Hafter.
    destruct (volume_sums _ (volumeHistory o)). reflexivity.
  - unfold after, before, getVolume24h. rewrite Hafter.
    destruct (volume_sums _ (volumeHistory o)). reflexivity.
  - apply Hsum.
  - intros later Hl. apply getVolume24h_cleanup. exact Hl.
Qed.

End VolumeFacts.

(** * The TWAP window and the cooldown *)

Section TwapFacts.

Import Oracle.

Variable s : Settings.

Lemma twap_sums_bounds (lo hi : R) (l : list TWAPDataPoint) (acc : R * R) :
  (forall dp, In dp l -> lo <= price dp <= hi) ->
  0 <= snd acc -> lo * snd acc <= fst acc <= hi * snd acc ->
  let r := fold_left
    (fun acc dp =>
       if Rgtb (weight dp) 0
       then (fst acc + price dp * weight dp, snd acc + weight dp)
       else acc) l acc in
  0 <= snd r /\ lo * snd r <= fst r <= hi * snd r.
Proof.
  revert acc. induction l as [|dp l IH]; intros acc Hin Hw Hb; [cbn; auto|].
  cbn [fold_left]. apply IH.
  - intros x Hx. apply Hin. right. exact Hx.
  - destruct (Rgtb (weight dp) 0) eqn:E; [|exact Hw].
    unfold Rgtb in E. apply Rltb_true in E. cbn [snd]. lra.
  - destruct (Rgtb (weight dp) 0) eqn:E; [|exact Hb].
    unfold Rgtb in E. apply Rltb_true in E. cbn [fst snd].
    destruct (Hin dp (or_introl eq_refl)) as (H1 & H2).
    split; nra.
Qed.

Lemma twap_of_within (lo hi spot' : R) (l : list TWAPDataPoint) :
  lo <= spot' <= hi -> (forall dp, In dp l -> lo <= price dp <= hi) ->
  lo <= twap_of spot' l <= hi.
Proof.
  intros Hs Hin. unfold twap_of. destruct l as [|dp l]; [exact Hs|].
  unfold twap_sums.
  pose proof (twap_sums_bounds lo hi (dp :: l) (0, 0) Hin) as H.
  cbn [fst snd] in H.
  specialize (H (Rle_refl 0)).
  assert (H0 : lo * 0 <= 0 <= hi * 0) by lra.
  specialize (H H0). cbv zeta in H.
  destruct (fold_left _ (dp :: l) (0, 0)) as [ws tw]. cbn [fst snd] in H.
  destruct H as (Htw & Hlo & Hhi).
  destruct (Reqb tw 0) eqn:E; [exact Hs|].
  apply Reqb_false in E.
  assert (Hpos : 0 < tw) by lra.
  split.
  - apply (Rmult_le_reg_r tw); [exact Hpos|].
    unfold Rdiv. rewrite Rmult_assoc, Rinv_l by lra. lra.
  - apply (Rmult_le_reg_r tw); [exact Hpos|].
    unfold Rdiv. rewrite Rmult_assoc, Rinv_l by lra. lra.
Qed.

(** X5.  The TWAP is a weighted mean: it lies within any bounds that hold of
    the spot price and of the prices of the data points.  So the effective
    price lies within bounds that hold of the EMA as well, and it always
    lies between the EMA and the TWAP. *)
Theorem twap_within_sampled_prices (o : PriceOracle) (lo hi : R) :
  lo <= spotPrice o <= hi ->
  (forall dp, In dp (twapDataPoints o) -> lo <= price dp <= hi) ->
  lo <= calculateTWAP o <= hi
  /\ (lo <= emaPrice o <= hi -> lo <= getEffectivePrice o <= hi)
  /\ Rmin (emaPrice o) (calculateTWAP o) <= getEffectivePrice o
     <= Rmax (emaPrice o) (calculateTWAP o).
Proof.
  intros Hs Hin.
  pose proof (twap_of_within lo hi (spotPrice o) (twapDataPoints o) Hs Hin) as Ht.
  fold (calculateTWAP o) in Ht.
  split; [exact Ht|]. split.
  - intros He. unfold getEffectivePrice.
    destruct (circuitBreakerActive o); [exact Ht | lra].
  - unfold getEffectivePrice.
    pose proof (Rmin_l (emaPrice o) (calculateTWAP o)).
    pose proof (Rmin_r (emaPrice o) (calculateTWAP o)).
    pose proof (Rmax_l (emaPrice o) (calculateTWAP o)).
    pose proof (Rmax_r (emaPrice o) (calculateTWAP o)).
    destruct (circuitBreakerActive o); lra.
Qed.

Lemma close_last_length (now : R) (l : list TWAPDataPoint) :
  List.length (close_last now l) = List.length l.
Proof.
  induction l as [|dp l IH]; [reflexivity|].
  destruct l as [|dp2 l]; [reflexivity|].
  change (close_last now (dp :: dp2 :: l)) with (dp :: close_last now (dp2 :: l)).
  cbn [List.length] in *. rewrite IH. reflexivity.
Qed.

Lemma close_last_keeps (now : R) (l : list TWAPDataPoint) (dp : TWAPDataPoint) :
  In dp (close_last now l) ->
  exists dp0, In dp0 l /\ price dp = price dp0 /\ timestamp dp = timestamp dp0.
Proof.
  induction l as [|x l IH]; [intros []|].
  destruct l as [|y l].
  - cbn [close_last]. intros [<- | []]. exists x. cbn. auto.
  - change (close_last now (x :: y :: l)) with (x :: close_last now (y :: l)).
    intros [<- | H].
    + exists x. cbn. auto.
    + destruct (IH H) as (dp0 & Hin & Hp & Ht). exists dp0.
      split; [right; exact Hin | auto].
Qed.

(** X6.  [updateTWAP] (for a window that is not negative) ends the list of
    data points with a new point for the current spot price, of weight 0;
    the points before it are points of the old list, with their price and
    timestamp.  Every point it leaves is inside the window, the list grows
    by one point at most, and prices and reserves are not touched. *)
Theorem updateTWAP_keeps_window (now : R) (o : PriceOracle) :
  0 <= twapWindowMs (CONFIG s) ->
  let after := updateTWAP s now o in
  (exists older,
     twapDataPoints after
     = older ++ [{| price := spotPrice o; timestamp := now; weight := 0 |}]
     /\ forall dp, In dp older ->
          exists dp0, In dp0 (twapDataPoints o)
                      /\ price dp = price dp0 /\ timestamp dp = timestamp dp0)
  /\ (forall dp, In dp (twapDataPoints after) ->
        now - twapWindowMs (CONFIG s) <= timestamp dp)
  /\ (List.length (twapDataPoints after) <= S (List.length (twapDataPoints o)))%nat
  /\ spotPrice after = spotPrice o
  /\ emaPrice after = emaPrice o
  /\ reserves after = reserves o.
Proof.
  intros Hw after.
  set (new := {| price := spotPrice o; timestamp := now; weight := 0 |}).
  set (keep := fun dp : TWAPDataPoint =>
                 Rgeb (timestamp dp) (now - twapWindowMs (CONFIG s))).
  assert (Hnew : keep new = true).
  { unfold keep, new, Rgeb. cbn [timestamp]. apply Rleb_true. lra. }
  assert (Hpts : twapDataPoints after
                 = filter keep (close_last now (twapDataPoints o)) ++ [new]).
  { unfold after, updateTWAP, updateTWAP_points.
    cbn [twapDataPoints set_twapDataPoints]. fold new. fold keep.
    rewrite filter_app. cbn [filter]. rewrite Hnew.
    destruct (filter keep (close_last now (twapDataPoints o))); reflexivity. }
  split; [|split; [|split]].
  - exists (filter keep (close_last now (twapDataPoints o))).
    split; [exact Hpts|].
    intros dp Hdp. apply filter_In in Hdp. destruct Hdp as (Hdp & _).
    exact (close_last_keeps now _ dp Hdp).
  - intros dp Hdp. rewrite Hpts in Hdp. apply in_app_or in Hdp.
    assert (Hk : keep dp = true).
    { destruct Hdp as [Hdp | [<- | []]]; [|exact Hnew].
      apply filter_In in Hdp. exact (proj2 Hdp). }
    unfold keep, Rgeb in Hk. apply Rleb_true in Hk. exact Hk.
  - rewrite Hpts, length_app. cbn [List.length].
    pose proof (filter_length_le keep (close_last now (twapDataPoints o))) as Hl.
    rewrite close_last_length in Hl. lia.
  - repeat split.
Qed.

(** X7.  When a swap at [t0] trips the circuit breaker and a swap at [t1],
    still in the cooldown of the first, trips it again, two resets are
    pending.  The first, due 5 minutes after [t0], lowers the flag: from
    then on the rate handed out is again 70% EMA and 30% TWAP, although the
    5 minutes since the second trip are not over and its reset is still
    pending. *)
Theorem second_trip_cooldown_is_cut_short (t0 t1 now a0 a1 : R)
    (d0 d1 : SwapDirection) (o : PriceOracle) :
  resetTimers o = [] ->
  trips s t0 d0 a0 o ->
  trips s t1 d1 a1 (recordSwap s t0 d0 a0 o) ->
  t1 < t0 + COOLDOWN_MS ->
  t0 + COOLDOWN_MS <= now < t1 + COOLDOWN_MS ->
  let o2 := recordSwap s t1 d1 a1 (recordSwap s t0 d0 a0 o) in
  circuitBreakerActive o2 = true
  /\ resetTimers o2 = [t0 + COOLDOWN_MS; t1 + COOLDOWN_MS]
  /\ circuitBreakerActive (fireDueTimers now o2) = false
  /\ resetTimers (fireDueTimers now o2) = [t1 + COOLDOWN_MS]
  /\ fst (getRate s now (fireDueTimers now o2))
     = emaPrice o2 * (7 / 10)
       + calculateTWAP (snd (getRate s now (fireDueTimers now o2))) * (3 / 10).
Proof.
  intros Htim H0 H1 _ (Hdue & Hnow) o2.
  destruct (beforeBounds_tripped s t0 d0 a0 o H0) as (_ & _ & _ & Htim0 & _).
  destruct (recordSwap_fields s t0 d0 a0 o) as (_ & _ & _ & Ftim0 & _).
  destruct (beforeBounds_tripped s t1 d1 a1 _ H1) as (_ & _ & Hcb1 & Htim1 & _).
  destruct (recordSwap_fields s t1 d1 a1 (recordSwap s t0 d0 a0 o))
    as (_ & _ & Fcb1 & Ftim1 & _).
  fold o2 in Fcb1, Ftim1.
  assert (Ht : resetTimers o2 = [t0 + COOLDOWN_MS; t1 + COOLDOWN_MS]).
  { rewrite Ftim1, Htim1, Ftim0, Htim0, Htim. reflexivity. }
  assert (Hin : In (t0 + COOLDOWN_MS) (resetTimers o2))
    by (rewrite Ht; left; reflexivity).
  destruct (fireDueTimers_some_due now _ o2 Hin Hdue) as (G & _ & Ge & _).
  split; [rewrite Fcb1; exact Hcb1|]. split; [exact Ht|].
  split; [exact G|]. split.
  - unfold fireDueTimers. cbn [resetTimers]. rewrite Ht. cbn [filter].
    rewrite (proj2 (Rleb_true (t0 + COOLDOWN_MS) now)) by lra.
    rewrite (proj2 (Rleb_false (t1 + COOLDOWN_MS) now)) by lra.
    reflexivity.
  - rewrite (getRate_breaker_inactive s now _ G). rewrite Ge. reflexivity.
Qed.

End TwapFacts.

(** * The ETH/USD cache *)

Section EthUsdFacts.

Import EthUsd.

(** The answer the chain of fetchers settles on, with its source. *)
Lemma fetchEthUsdPrice_chain (now : R) (c g b : option R) (cache : EthUsdPrice) :
  fetchEthUsdPrice now c g b cache
  = let (chosen, from) :=
      if not_price c
      then if not_price g then (b, coinbase) else (g, coingecko)
      else (c, chainlink) in
    match chosen with
    | Some x =>
        if Rgtb x 0 then {| price := x; updatedAt := now; source := from |}
        else cache
    | None => cache
    end.
Proof.
  unfold fetchEthUsdPrice.
  assert (Hsimpl : forall x, (negb (Reqb x 0) && Rgtb x 0)%bool = Rgtb x 0).
  { intros x. unfold Rgtb. destruct (Reqb x 0) eqn:E; [|reflexivity].
    apply Reqb_true in E. subst x. cbn [negb andb]. symmetry.
    apply Rltb_false. lra. }
  destruct (not_price c) eqn:Ec; cbv beta iota zeta.
  - destruct (not_price g) eqn:Eg; cbv beta iota zeta.
    + destruct b as [x|]; [rewrite Hsimpl|]; reflexivity.
    + destruct g as [x|]; [rewrite Hsimpl|]; reflexivity.
  - rewrite Ec. cbv beta iota zeta.
    destruct c as [x|]; [rewrite Hsimpl|]; reflexivity.
Qed.

(** X8.  [fetchEthUsdPrice] settles on the answer of the first of
    Chainlink, CoinGecko and Coinbase that is neither [null] nor 0.  If that
    answer is positive the cache becomes that price, with the clock reading
    and the name of the source; otherwise the cache stays as it was (a
    negative answer of Chainlink is not replaced by the next source).  A
    cached price that is not negative stays so. *)
Theorem eth_usd_cache_takes_first_positive_price (now : R) (c g b : option R)
    (cache : EthUsdPrice) :
  let after := fetchEthUsdPrice now c g b cache in
  (0 <= price cache -> 0 <= price after)
  /\ (after = cache
      \/ 0 < price after /\ updatedAt after = now
         /\ (source after = chainlink /\ c = Some (price after)
             \/ source after = coingecko /\ not_price c = true
                /\ g = Some (price after)
             \/ source after = coinbase /\ not_price c = true
                /\ not_price g = true /\ b = Some (price after)))
  /\ (forall x, c = Some x -> 0 < x ->
      after = {| price := x; updatedAt := now; source := chainlink |})
  /\ (forall x, c = Some x -> x < 0 -> after = cache)
  /\ (c = None \/ c = Some 0 ->
      after = fetchEthUsdPrice now None g b cache).
Proof.
  intros after. unfold after. rewrite !fetchEthUsdPrice_chain.
  split; [|split; [|split; [|split]]].
  - intros Hc.
    destruct (not_price c); [destruct (not_price g)|].
    + destruct b as [x|]; [|exact Hc].
      destruct (Rgtb x 0) eqn:E; [|exact Hc].
      unfold Rgtb in E. apply Rltb_true in E. cbn [price]. lra.
    + destruct g as [x|]; [|exact Hc].
      destruct (Rgtb x 0) eqn:E; [|exact Hc].
      unfold Rgtb in E. apply Rltb_true in E. cbn [price]. lra.
    + destruct c as [x|]; [|exact Hc].
      destruct (Rgtb x 0) eqn:E; [|exact Hc].
      unfold Rgtb in E. apply Rltb_true in E. cbn [price]. lra.
  - destruct (not_price c) eqn:Ec; [destruct (not_price g) eqn:Eg|].
    + destruct b as [x|]; [|left; reflexivity].
      destruct (Rgtb x 0) eqn:E; [|left; reflexivity].
      unfold Rgtb in E. apply Rltb_true in E.
      right. cbn [price updatedAt source]. split; [exact E|].
      split; [reflexivity|]. right. right. auto.
    + destruct g as [x|]; [|left; reflexivity].
      destruct (Rgtb x 0) eqn:E; [|left; reflexivity].
      unfold Rgtb in E. apply Rltb_true in E.
      right. cbn [price updatedAt source]. split; [exact E|].
      split; [reflexivity|]. right. left. auto.
    + destruct c as [x|]; [|left; reflexivity].
      destruct (Rgtb x 0) eqn:E; [|left; reflexivity].
      unfold Rgtb in E. apply Rltb_true in E.
      right. cbn [price updatedAt source]. split; [exact E|].
      split; [reflexivity|]. left. auto.
  - intros x -> Hx. cbn [not_price].
    rewrite (proj2 (Reqb_false x 0)) by lra.
    unfold Rgtb. rewrite (proj2 (Rltb_true 0 x)) by lra. reflexivity.
  - intros x -> Hx. cbn [not_price].
    rewrite (proj2 (Reqb_false x 0)) by lra.
    unfold Rgtb. rewrite (proj2 (Rltb_false 0 x)) by lra. reflexivity.
  - intros [-> | ->]; cbn [not_price]; [reflexivity|].
    rewrite (proj2 (Reqb_true 0 0)) by reflexivity. reflexivity.
Qed.

End EthUsdFacts.

(** * Round trips of the store *)

Section StoreRoundTrips.

Import Store.
Open Scope string_scope.

Lemma find_app_none {A : Type} (f : A -> bool) (l : list A) (x : A) :
  find f l = None -> find f (l ++ [x])%list = if f x then Some x else None.
Proof.
  induction l as [|y l IH]; cbn [find app]; [reflexivity|].
  destruct (f y); [discriminate|]. exact IH.
Qed.

Lemma find_app_some {A : Type} (f : A -> bool) (l : list A) (x y : A) :
  find f l = Some y -> find f (l ++ [x])%list = Some y.
Proof.
  induction l as [|z l IH]; cbn [find app]; [discriminate|].
  destruct (f z); [auto | exact IH].
Qed.

Lemma existsb_app_one (f : string -> bool) (l : list string) (x : string) :
  existsb f (l ++ [x])%list = (existsb f l || f x)%bool.
Proof. rewrite existsb_app. cbn [existsb]. rewrite orb_false_r. reflexivity. Qed.

Lemma isNonceUsed_addNonce (b : Db) (n m : string) :
  isNonceUsed (addNonce b n) m = (isNonceUsed b m || (n =? m))%bool.
Proof.
  unfold addNonce. destruct (isNonceUsed b n) eqn:E.
  - destruct (n =? m) eqn:Enm.
    + apply String.eqb_eq in Enm. subst m. rewrite E. reflexivity.
    + rewrite orb_false_r. reflexivity.
  - unfold isNonceUsed. cbn [nonces]. rewrite existsb_app_one. reflexivity.
Qed.

(** X9.  [IntentStore.add] of an intent whose id is free.  The intent is
    then read by its id as the row written, its nonce is used, and the rows
    of other ids, the other nonces and the rows found by a source
    reference are as before; a reference no row had finds the new row when
    it is the reference of the new intent, and no row otherwise.  When the
    id is taken the insertion fails. *)
Theorem add_then_lookup (b : Db) (i : Intent) :
  (get b (intentId i) = None ->
   exists b1,
     add b i = Some b1
     /\ get b1 (intentId i) = Some (row i)
     /\ isNonceUsed b1 (nonce (payload i)) = true
     /\ (forall id, id <> intentId i -> get b1 id = get b id)
     /\ (forall n, isNonceUsed b1 n
                   = (isNonceUsed b n || (nonce (payload i) =? n))%bool)
     /\ (forall h, getByTxHash b h = None ->
           getByTxHash b1 h
           = if sourceTxHash i =? h then Some (row i) else None)
     /\ (forall h j, getByTxHash b h = Some j -> getByTxHash b1 h = Some j))
  /\ (forall j, get b (intentId i) = Some j -> add b i = None).
Proof.
  split.
  - intros Hfree. unfold add, addIntent. rewrite Hfree.
    eexists. split; [reflexivity|].
    set (b0 := {| intents := (intents b ++ [row i])%list; nonces := nonces b |}).
    assert (Hint : intents (addNonce b0 (nonce (payload i)))
                   = (intents b ++ [row i])%list).
    { unfold addNonce. destruct (isNonceUsed b0 _); reflexivity. }
    assert (Hnon : forall n, isNonceUsed b0 n = isNonceUsed b n) by reflexivity.
    split; [|split; [|split; [|split; [|split]]]].
    + unfold get. rewrite Hint. unfold get in Hfree.
      rewrite (find_app_none _ _ (row i) Hfree). cbn [row intentId].
      rewrite String.eqb_refl. reflexivity.
    + rewrite isNonceUsed_addNonce, String.eqb_refl. apply orb_true_r.
    + intros id Hid. unfold get. rewrite Hint.
      destruct (find (fun j => intentId j =? id) (intents b)) as [j|] eqn:E.
      * exact (find_app_some _ _ (row i) j E).
      * rewrite (find_app_none _ _ (row i) E). cbn [row intentId].
        destruct (intentId i =? id) eqn:Eid; [|reflexivity].
        apply String.eqb_eq in Eid. congruence.
    + intros n. rewrite isNonceUsed_addNonce, Hnon. reflexivity.
    + intros h Hh. unfold getByTxHash. rewrite Hint. unfold getByTxHash in Hh.
      rewrite (find_app_none _ _ (row i) Hh). reflexivity.
    + intros h j Hh. unfold getByTxHash. rewrite Hint.
      exact (find_app_some _ _ (row i) j Hh).
  - intros j Hj. unfold add, addIntent. rewrite Hj. reflexivity.
Qed.

Lemma get_update (b : Db) (id id' : string) (u : Updates) :
  get (update b id u) id'
  = if id' =? id then option_map (fun i => merge i u) (get b id)
    else get b id'.
Proof.
  unfold get, update. cbn [intents].
  induction (intents b) as [|i l IH].
  - cbn. destruct (id' =? id); reflexivity.
  - cbn [map find].
    destruct (intentId i =? id) eqn:Ei.
    + apply String.eqb_eq in Ei. cbn [merge intentId]. rewrite Ei.
      destruct (id =? id') eqn:E.
      * apply String.eqb_eq in E. subst id'. rewrite String.eqb_refl.
        reflexivity.
      * rewrite String.eqb_sym, E. rewrite String.eqb_sym in E.
        rewrite E in IH. exact IH.
    + destruct (intentId i =? id') eqn:Ei'.
      * apply String.eqb_eq in Ei'. subst id'. rewrite Ei. reflexivity.
      * exact IH.
Qed.

Lemma update_unknown (b : Db) (id : string) (u : Updates) :
  get b id = None -> update b id u = b.
Proof.
  intros H. destruct b as [rows ns]. unfold update, get in *. cbn [intents nonces] in *.
  f_equal. induction rows as [|i l IH]; [reflexivity|].
  cbn [map find] in *. destruct (intentId i =? id); [discriminate|].
  f_equal. exact (IH H).
Qed.

(** X10.  [updateIntent] of a known id: reading the id back gives the merged
    row, whose id, source reference, amount, target address, expiry and
    payload are those of the old row.  Rows of other ids are not touched,
    an unknown id changes nothing, and the nonces and the ids of the table
    are as before. *)
Theorem update_then_lookup (b : Db) (id : string) (u : Updates) :
  (forall i, get b id = Some i ->
     get (update b id u) id = Some (merge i u)
     /\ intentId (merge i u) = intentId i
     /\ sourceTxHash (merge i u) = sourceTxHash i
     /\ i_amountIn (merge i u) = i_amountIn i
     /\ i_targetAddress (merge i u) = i_targetAddress i
     /\ i_expiry (merge i u) = i_expiry i
     /\ payload (merge i u) = payload i)
  /\ (forall id', id' <> id -> get (update b id u) id' = get b id')
  /\ (get b id = None -> update b id u = b)
  /\ nonces (update b id u) = nonces b
  /\ map intentId (intents (update b id u)) = map intentId (intents b).
Proof.
  split; [|split; [|split; [|split]]].
  - intros i Hi. rewrite get_update, String.eqb_refl, Hi. repeat split.
  - intros id' Hne. rewrite get_update.
    destruct (id' =? id) eqn:E; [|reflexivity].
    apply String.eqb_eq in E. contradiction.
  - apply update_unknown.
  - reflexivity.
  - unfold update. cbn [intents]. rewrite map_map. apply map_ext.
    intros i. destruct (intentId i =? id); reflexivity.
Qed.

(** Insertion keeps the elements and the order. *)
Lemma insert_by_createdAt_perm (i : Intent) (l : list Intent) :
  Permutation (insert_by_createdAt i l) (i :: l).
Proof.
  induction l as [|j l IH]; [apply Permutation_refl|].
  cbn [insert_by_createdAt]. destruct (Rltb (createdAt i) (createdAt j)).
  - apply Permutation_refl.
  - apply Permutation_trans with (j :: i :: l).
    + apply perm_skip. exact IH.
    + apply perm_swap.
Qed.

Lemma insert_by_createdAt_sorted (i : Intent) (l : list Intent) :
  StronglySorted (fun a b => createdAt a <= createdAt b) l ->
  StronglySorted (fun a b => createdAt a <= createdAt b) (insert_by_createdAt i l).
Proof.
  induction l as [|j l IH]; intros Hs.
  - cbn. constructor; [constructor | constructor].
  - cbn [insert_by_createdAt].
    inversion Hs as [|? ? Hl Hj]; subst.
    destruct (Rltb (createdAt i) (createdAt j)) eqn:E.
    + apply Rltb_true in E. constructor; [exact Hs|].
      constructor; [lra|].
      rewrite Forall_forall in *. intros x Hx. specialize (Hj x Hx). lra.
    + apply Rltb_false in E. constructor; [apply IH; exact Hl|].
      rewrite Forall_forall in *. intros x Hx.
      apply (Permutation_in _ (insert_by_createdAt_perm i l)) in Hx.
      destruct Hx as [<- | Hx]; [exact E | exact (Hj x Hx)].
Qed.

Lemma sort_by_createdAt_spec (l acc : list Intent) :
  StronglySorted (fun a b => createdAt a <= createdAt b) acc ->
  Permutation (fold_left (fun acc i => insert_by_createdAt i acc) l acc) (acc ++ l)
  /\ StronglySorted (fun a b => createdAt a <= createdAt b)
       (fold_left (fun acc i => insert_by_createdAt i acc) l acc).
Proof.
  revert acc. induction l as [|i l IH]; intros acc Hs.
  - cbn [fold_left]. rewrite app_nil_r. split; [apply Permutation_refl | exact Hs].
  - cbn [fold_left].
    destruct (IH (insert_by_createdAt i acc) (insert_by_createdAt_sorted i acc Hs))
      as (Hp & Hsorted).
    split; [|exact Hsorted].
    apply Permutation_trans with (insert_by_createdAt i acc ++ l)%list; [exact Hp|].
    apply Permutation_trans with ((i :: acc) ++ l)%list.
    + apply Permutation_app_tail. apply insert_by_createdAt_perm.
    + cbn [app]. apply Permutation_middle.
Qed.

Lemma with_status_In (st : IntentStatus) (b : Db) (i : Intent) :
  In i (with_status st b) <-> In i (intents b) /\ status i = st.
Proof.
  unfold with_status, sort_by_createdAt.
  destruct (sort_by_createdAt_spec
              (filter (fun i => IntentStatus_eqb (status i) st) (intents b)) [])
    as (Hp & _); [constructor|].
  cbn [app] in Hp. split.
  - intros Hi. apply (Permutation_in _ Hp) in Hi. apply filter_In in Hi.
    destruct Hi as (Hin & Hst). split; [exact Hin|].
    destruct (status i), st; try discriminate; reflexivity.
  - intros (Hin & Hst). apply (Permutation_in _ (Permutation_sym Hp)).
    apply filter_In. split; [exact Hin|]. rewrite Hst. destruct st; reflexivity.
Qed.

(** X11.  [getOpenIntents] and [getPendingIntents] return the rows of that
    status, each as often as the table has it, oldest first. *)
Theorem queued_intents_oldest_first (b : Db) (st : IntentStatus) :
  let l := with_status st b in
  Permutation l (filter (fun i => IntentStatus_eqb (status i) st) (intents b))
  /\ StronglySorted (fun i j => createdAt i <= createdAt j) l
  /\ (forall i, In i l <-> In i (intents b) /\ status i = st)
  /\ getOpenIntents b = with_status OPEN b
  /\ getPendingIntents b = with_status PENDING b.
Proof.
  intros l. unfold l, with_status, sort_by_createdAt.
  destruct (sort_by_createdAt_spec
              (filter (fun i => IntentStatus_eqb (status i) st) (intents b)) [])
    as (Hp & Hs); [constructor|].
  cbn [app] in Hp.
  split; [exact Hp|]. split; [exact Hs|]. split; [|split; reflexivity].
  intros i. apply with_status_In.
Qed.

End StoreRoundTrips.

(** * Invariants of the engine *)

Section EngineInvariants.

Import Store Solver.
Open Scope string_scope.

Variable s : Oracle.Settings.
Variable config : AppConfig.
Variable P : Platform.

(** A property of the database that the updates of the solver and the
    insertion of a new intent keep holds in every state of the engine. *)
Variable I : Db -> Prop.

Hypothesis I_empty : I Store.empty.
Hypothesis I_update : forall b id u, written u -> I b -> I (update b id u).
Hypothesis I_add :
  forall b i b1, I b -> status i = OPEN \/ status i = PENDING ->
                 add b i = Some b1 -> I b1.

Lemma written_expired : written (just_status EXPIRED).
Proof. left. reflexivity. Qed.

Lemma written_open : written (just_status OPEN).
Proof. right. left. reflexivity. Qed.

Lemma sent_nonempty (result : SendResult) (tx : string) :
  sent result = Some tx -> tx <> EmptyString.
Proof.
  unfold sent. destruct (success result); [|discriminate].
  unfold text_or_null. destruct (txHash result) as [t|]; [|discriminate].
  destruct (t =? EmptyString) eqn:E; [discriminate|].
  intros H. injection H as <-. apply String.eqb_neq. exact E.
Qed.

Lemma beginFulfill_keeps (d : SwapDirection) (now : R) (id : string) (out : R)
    (b : Db) :
  I b -> I (fst (beginFulfill d now id out b)).
Proof.
  intros Hb. destruct (beginFulfill_db d now id out b) as [-> | ->];
    [exact Hb | apply I_update; [apply written_expired | exact Hb]].
Qed.

Lemma resume_keeps (now : R) (result : SendResult) (p : Payout) (e : Engine) :
  I (db e) -> I (db (resume s now result p e)).
Proof.
  intros He. unfold resume, fulfillOctToEth_resume, fulfillEthToOct_resume.
  destruct (pay_direction p); destruct (sent result) as [tx|] eqn:E;
    cbn [db]; try exact He; apply I_update; try exact He;
    right; right; exists tx, (pay_amount p), now;
    (split; [exact (sent_nonempty result tx E) | reflexivity]).
Qed.

Lemma expireOpen_keeps (now : R) (b : Db) : I b -> I (expireOpen now b).
Proof.
  intros Hb. unfold expireOpen. apply fold_left_invariant; [|exact Hb].
  intros x y Hx. destruct (Rgtb now (i_expiry y)); [|exact Hx].
  apply I_update; [apply written_expired | exact Hx].
Qed.

Lemma retryPending_keeps (w : SweepWorld) (acc : Engine * list Payout)
    (i : Intent) :
  I (db (fst acc)) -> I (db (fst (retryPending config w acc i))).
Proof.
  destruct acc as [e started]. cbn [fst]. intros He. unfold retryPending.
  destruct (Rgtb (sweep_now w) (i_expiry i)).
  - cbn [fst db]. apply I_update; [apply written_expired | exact He].
  - destruct (direction i).
    + destruct (Rgeb _ _); [|exact He].
      destruct (beginFulfill OCT_TO_ETH _ _ _ _) as [b2 more] eqn:Hb.
      cbn [fst db].
      replace b2 with (fst (beginFulfill OCT_TO_ETH (sweep_now_fulfill w (intentId i))
        (intentId i)
        (Oracle.calculateEthOut (oracle e) (i_amountIn i) (cfg_feeBps config))
        (update (db e) (intentId i) (just_status OPEN)))) by (rewrite Hb; reflexivity).
      apply beginFulfill_keeps. apply I_update; [apply written_open | exact He].
    + destruct (Rgeb _ _); [|exact He].
      destruct (beginFulfill ETH_TO_OCT _ _ _ _) as [b2 more] eqn:Hb.
      cbn [fst db].
      replace b2 with (fst (beginFulfill ETH_TO_OCT (sweep_now_fulfill w (intentId i))
        (intentId i)
        (Oracle.calculateOctOut (oracle e) (i_amountIn i) (cfg_feeBps config))
        (update (db e) (intentId i) (just_status OPEN)))) by (rewrite Hb; reflexivity).
      apply beginFulfill_keeps. apply I_update; [apply written_open | exact He].
Qed.

Lemma expiryChecker_keeps (w : SweepWorld) (e : Engine) :
  I (db e) -> I (db (fst (expiryChecker config w e))).
Proof.
  intros He. unfold expiryChecker.
  apply (fold_left_invariant (fun acc => I (db (fst acc)))).
  - intros x y Hx. apply retryPending_keeps. exact Hx.
  - cbn [fst db]. apply expireOpen_keeps. exact He.
Qed.

Lemma submit_keeps (d : SwapDirection) (w : World) (e : Engine) (h : string) :
  I (db e) -> I (db (engine (submit config P d w e h))).
Proof.
  intros He.
  destruct (submit_effect config P d w e h)
    as [(-> & _) | (_ & i & b1 & _ & Hst & Hadd & Hdb & _)]; [exact He|].
  assert (Hb1 : I b1) by exact (I_add (db e) i b1 He Hst Hadd).
  destruct Hdb as [-> | ->]; [exact Hb1|].
  apply I_update; [apply written_expired | exact Hb1].
Qed.

Lemma reachable_keeps (e : Engine) : reachable s config P e -> I (db e).
Proof.
  intros Hr. induction Hr as [now | w e h _ IH | w e h _ IH | now result p e _ IH
                              | w e _ IH].
  - exact I_empty.
  - exact (submit_keeps OCT_TO_ETH w e h IH).
  - exact (submit_keeps ETH_TO_OCT w e h IH).
  - exact (resume_keeps now result p e IH).
  - exact (expiryChecker_keeps w e IH).
Qed.

(** The same when submissions overlap: every piece of a submission keeps
    the property. *)
Lemma createIntent_keeps (w : World) (e : Engine) (i : Intent) (liq : bool)
    (out : R) :
  status i = (if liq then OPEN else PENDING) ->
  I (db e) -> I (db (engine (createIntent w e i liq out))).
Proof.
  intros Hst He.
  destruct (createIntent_cases w e i liq out Hst)
    as [(_ & ->) | (b1 & Hadd & Hdb & _)]; [exact He|].
  assert (Hb1 : I b1).
  { apply (I_add (db e) i b1 He); [|exact Hadd].
    rewrite Hst. destruct liq; auto. }
  destruct Hdb as [-> | ->]; [exact Hb1|].
  apply I_update; [apply written_expired | exact Hb1].
Qed.

Lemma move_keeps (sys sys' : System) :
  move s config P sys sys' -> I (db (running sys)) -> I (db (running sys')).
Proof.
  intros Hm. destruct Hm; cbn [running]; intros He; try exact He.
  - unfold octCreate. apply createIntent_keeps; [reflexivity | exact He].
  - unfold ethCreate. apply createIntent_keeps; [reflexivity | exact He].
  - apply resume_keeps. exact He.
  - apply expiryChecker_keeps. exact He.
Qed.

Lemma overlapped_keeps (sys : System) :
  overlapped s config P sys -> I (db (running sys)).
Proof.
  intros Ho. induction Ho as [now | sys sys' _ IH Hm].
  - exact I_empty.
  - exact (move_keeps sys sys' Hm IH).
Qed.

End EngineInvariants.

(** * The rows, the nonces and the payouts of the engine *)

Section EngineFacts.

Import Store Solver.
Open Scope string_scope.

Variable s : Oracle.Settings.
Variable config : AppConfig.
Variable P : Platform.

Lemma ids_update (b : Db) (id : string) (u : Updates) :
  map intentId (intents (update b id u)) = map intentId (intents b).
Proof.
  unfold update. cbn [intents]. rewrite map_map. apply map_ext.
  intros i. destruct (intentId i =? id); reflexivity.
Qed.

Lemma get_none_not_in (id : string) (l : list Intent) :
  find (fun i => intentId i =? id) l = None -> ~ In id (map intentId l).
Proof.
  induction l as [|i l IH]; cbn [find map]; intros Hf Hin; [contradiction|].
  destruct (intentId i =? id) eqn:E; [discriminate|].
  destruct Hin as [Heq | Hin].
  - rewrite Heq, String.eqb_refl in E. discriminate.
  - exact (IH Hf Hin).
Qed.

Lemma add_fresh (b b1 : Db) (i : Intent) :
  add b i = Some b1 -> ~ In (intentId i) (map intentId (intents b)).
Proof.
  unfold add, addIntent. destruct (get b (intentId i)) eqn:E; [discriminate|].
  intros _. apply get_none_not_in. exact E.
Qed.

Lemma uniqueId_add (b b1 : Db) (i : Intent) :
  uniqueId b -> add b i = Some b1 -> uniqueId b1.
Proof.
  intros Hu Hadd. pose proof (add_fresh b b1 i Hadd) as Hfresh.
  destruct (add_some _ _ _ Hadd) as (Hi & _).
  unfold uniqueId. rewrite Hi, map_app. cbn [map row intentId].
  apply NoDup_app.
  - exact Hu.
  - constructor; [intros []|constructor].
  - intros x Hin [Hx | []]. subst x. exact (Hfresh Hin).
Qed.

Lemma reachable_uniqueId (e : Engine) :
  reachable s config P e -> uniqueId (db e).
Proof.
  apply (reachable_keeps s config P uniqueId).
  - constructor.
  - intros b id u _ Hb. unfold uniqueId. rewrite ids_update. exact Hb.
  - intros b i b1 Hb _ Hadd. exact (uniqueId_add b b1 i Hb Hadd).
Qed.

(** In a table without two rows of the same id, [getIntent] finds a row by
    its id. *)
Lemma get_of_row (b : Db) (i : Intent) :
  uniqueId b -> In i (intents b) -> get b (intentId i) = Some i.
Proof.
  unfold uniqueId, get. induction (intents b) as [|j l IH]; [intros _ []|].
  cbn [map find In]. intros Hu Hin. inversion Hu as [|? ? Hnot Hl]; subst.
  destruct (intentId j =? intentId i) eqn:E.
  - apply String.eqb_eq in E. destruct Hin as [-> | Hin]; [reflexivity|].
    exfalso. apply Hnot. rewrite E. apply in_map. exact Hin.
  - destruct Hin as [-> | Hin]; [rewrite String.eqb_refl in E; discriminate|].
    exact (IH Hl Hin).
Qed.

Lemma same_id_same_row (b : Db) (i j : Intent) :
  uniqueId b -> In i (intents b) -> In j (intents b) ->
  intentId i = intentId j -> i = j.
Proof.
  intros Hu Hi Hj Hid.
  pose proof (get_of_row b i Hu Hi) as H1.
  pose proof (get_of_row b j Hu Hj) as H2.
  rewrite Hid in H1. rewrite H1 in H2. injection H2 as ->. reflexivity.
Qed.

(** X12.  In every state the engine reaches no two rows have the same intent
    id: [getIntent] finds each row of the table by its id, and two rows with
    the same id are the same row. *)
Theorem intent_id_identifies_one_row (e : Engine) :
  reachable s config P e ->
  uniqueId (db e)
  /\ (forall i, In i (intents (db e)) -> Store.get (db e) (intentId i) = Some i)
  /\ (forall i j, In i (intents (db e)) -> In j (intents (db e)) ->
        intentId i = intentId j -> i = j).
Proof.
  intros Hr. pose proof (reachable_uniqueId e Hr) as Hu.
  split; [exact Hu|]. split.
  - intros i Hi. exact (get_of_row (db e) i Hu Hi).
  - intros i j Hi Hj. exact (same_id_same_row (db e) i j Hu Hi Hj).
Qed.

Lemma wellFormed_merge (i : Intent) (u : Updates) :
  written u -> wellFormed i -> wellFormed (merge i u).
Proof.
  intros Hu (Hst & Hful). unfold wellFormed.
  destruct Hu as [-> | [-> | (tx & out & now & Htx & ->)]];
    cbn [merge status targetTxHash just_status fulfilled u_status u_targetTxHash
         override].
  - split; [auto|]. intros H; discriminate H.
  - split; [auto|]. intros H; discriminate H.
  - split; [auto|]. intros _. exists tx. split; [|exact Htx].
    unfold text_or_null. destruct (tx =? EmptyString) eqn:E; [|reflexivity].
    apply String.eqb_eq in E. contradiction.
Qed.

Lemma wellFormed_rows :
  forall e, reachable s config P e -> Forall wellFormed (intents (db e)).
Proof.
  apply (reachable_keeps s config P (fun b => Forall wellFormed (intents b))).
  - constructor.
  - intros b id u Hu Hb. unfold update. cbn [intents].
    rewrite Forall_forall in *. intros x Hx. apply in_map_iff in Hx.
    destruct Hx as (i & <- & Hi). destruct (intentId i =? id).
    + apply wellFormed_merge; [exact Hu | exact (Hb i Hi)].
    + exact (Hb i Hi).
  - intros b i b1 Hb Hst Hadd. destruct (add_some _ _ _ Hadd) as (Hi & _).
    rewrite Hi. apply Forall_app. split; [exact Hb|].
    constructor; [|constructor]. unfold wellFormed. cbn [row status].
    split.
    + destruct Hst as [-> | ->]; auto.
    + intros H. destruct Hst as [Hst | Hst]; rewrite Hst in H; discriminate.
Qed.

Lemma count_zero {A : Type} (f : A -> bool) (l : list A) :
  (forall x, In x l -> f x = false) -> Routes.count f l = 0%nat.
Proof.
  intros H. unfold Routes.count. induction l as [|x l IH]; [reflexivity|].
  cbn [filter]. rewrite (H x (or_introl eq_refl)). apply IH.
  intros y Hy. apply H. right. exact Hy.
Qed.

Lemma insert_desc_perm (i : Intent) (l : list Intent) :
  Permutation (insert_by_createdAt_desc i l) (i :: l).
Proof.
  induction l as [|j l IH]; [apply Permutation_refl|].
  cbn [insert_by_createdAt_desc]. destruct (Rltb (createdAt j) (createdAt i)).
  - apply Permutation_refl.
  - apply Permutation_trans with (j :: i :: l).
    + apply perm_skip. exact IH.
    + apply perm_swap.
Qed.

Lemma sort_desc_perm_acc (l acc : list Intent) :
  Permutation (fold_left (fun acc i => insert_by_createdAt_desc i acc) l acc)
    (acc ++ l).
Proof.
  revert acc. induction l as [|i l IH]; intros acc.
  - cbn [fold_left]. rewrite app_nil_r. apply Permutation_refl.
  - cbn [fold_left].
    apply Permutation_trans with (insert_by_createdAt_desc i acc ++ l)%list;
      [apply IH|].
    apply Permutation_trans with ((i :: acc) ++ l)%list.
    + apply Permutation_app_tail. apply insert_desc_perm.
    + cbn [app]. apply Permutation_middle.
Qed.

Lemma sort_desc_perm (l : list Intent) :
  Permutation (sort_by_createdAt_desc l) l.
Proof. exact (sort_desc_perm_acc l []). Qed.

(** X13.  In every state the engine reaches the status of a stored row is
    [OPEN], [PENDING], [FULFILLED] or [EXPIRED]: [REJECTED] and [FAILED] are
    never written.  A [FULFILLED] row has a target transaction hash that is
    not empty.  So the count [failed] of [GET /explorer] is 0. *)
Theorem stored_rows_are_never_rejected (e : Engine) :
  reachable s config P e ->
  (forall i, In i (intents (db e)) ->
     (status i = OPEN \/ status i = PENDING \/ status i = FULFILLED
      \/ status i = EXPIRED)
     /\ (status i = FULFILLED ->
         exists tx, targetTxHash i = Some tx /\ tx <> EmptyString))
  /\ (forall page limit st d r,
        Routes.get_explorer e page limit st d
        = {| Routes.code := 200; Routes.body := Routes.ExplorerBody r |} ->
        Routes.stats_failed (Routes.ex_stats r) = 0%nat).
Proof.
  intros Hr. pose proof (wellFormed_rows e Hr) as Hw.
  rewrite Forall_forall in Hw.
  split; [exact Hw|].
  intros page limit st d r H. unfold Routes.get_explorer in H.
  destruct (Routes.explorer_intents e st d) as [listed|]; [|discriminate].
  injection H as <-. cbn [Routes.ex_stats Routes.stats_failed].
  apply count_zero. intros i Hi.
  apply (Permutation_in _ (sort_desc_perm (intents (db e)))) in Hi.
  destruct (Hw i Hi) as ([H | [H | [H | H]]] & _); rewrite H; reflexivity.
Qed.

Lemma isNonceUsed_nonces (b b' : Db) (n : string) :
  nonces b' = nonces b -> isNonceUsed b' n = isNonceUsed b n.
Proof. unfold isNonceUsed. intros ->. reflexivity. Qed.

Lemma isNonceUsed_add (b b1 : Db) (i : Intent) (n : string) :
  add b i = Some b1 ->
  isNonceUsed b1 n = (isNonceUsed b n || (nonce (payload i) =? n))%bool.
Proof.
  intros Hadd. destruct (add_some _ _ _ Hadd) as (_ & Hn).
  rewrite (isNonceUsed_nonces _ _ n Hn). apply isNonceUsed_addNonce.
Qed.

Lemma noncesRecorded_reachable (e : Engine) :
  reachable s config P e -> noncesRecorded (db e).
Proof.
  apply (reachable_keeps s config P noncesRecorded).
  - intros i [].
  - intros b id u _ Hb i Hi. unfold update in Hi. cbn [intents] in Hi.
    apply in_map_iff in Hi. destruct Hi as (j & <- & Hj).
    rewrite (isNonceUsed_nonces b (update b id u)) by reflexivity.
    destruct (intentId j =? id); [cbn [merge payload]|]; exact (Hb j Hj).
  - intros b i b1 Hb _ Hadd j Hj. rewrite (isNonceUsed_add b b1 i _ Hadd).
    destruct (add_some _ _ _ Hadd) as (Hi & _). rewrite Hi in Hj.
    apply in_app_or in Hj. destruct Hj as [Hj | [<- | []]].
    + rewrite (Hb j Hj). reflexivity.
    + cbn [row payload]. rewrite String.eqb_refl. apply orb_true_r.
Qed.

(** When submissions overlap the ids of the rows are still pairwise
    distinct (the id is the primary key), the rows are still as the solver
    leaves them, and the nonce of every row is still in the table of
    nonces. *)
Lemma overlapped_rows (sys : System) :
  overlapped s config P sys ->
  uniqueId (db (running sys))
  /\ Forall wellFormed (intents (db (running sys)))
  /\ noncesRecorded (db (running sys)).
Proof.
  intros Ho. split; [|split].
  - revert sys Ho. apply (overlapped_keeps s config P uniqueId).
    + constructor.
    + intros b id u _ Hb. unfold uniqueId. rewrite ids_update. exact Hb.
    + intros b i b1 Hb _ Hadd. exact (uniqueId_add b b1 i Hb Hadd).
  - revert sys Ho.
    apply (overlapped_keeps s config P (fun b => Forall wellFormed (intents b))).
    + constructor.
    + intros b id u Hu Hb. unfold update. cbn [intents].
      rewrite Forall_forall in *. intros x Hx. apply in_map_iff in Hx.
      destruct Hx as (i & <- & Hi). destruct (intentId i =? id).
      * apply wellFormed_merge; [exact Hu | exact (Hb i Hi)].
      * exact (Hb i Hi).
    + intros b i b1 Hb Hst Hadd. destruct (add_some _ _ _ Hadd) as (Hi & _).
      rewrite Hi. apply Forall_app. split; [exact Hb|].
      constructor; [|constructor]. unfold wellFormed. cbn [row status].
      split.
      * destruct Hst as [-> | ->]; auto.
      * intros H. destruct Hst as [Hst | Hst]; rewrite Hst in H; discriminate.
  - revert sys Ho. apply (overlapped_keeps s config P noncesRecorded).
    + intros i [].
    + intros b id u _ Hb i Hi. unfold update in Hi. cbn [intents] in Hi.
      apply in_map_iff in Hi. destruct Hi as (j & <- & Hj).
      rewrite (isNonceUsed_nonces b (update b id u)) by reflexivity.
      destruct (intentId j =? id); [cbn [merge payload]|]; exact (Hb j Hj).
    + intros b i b1 Hb _ Hadd j Hj. rewrite (isNonceUsed_add b b1 i _ Hadd).
      destruct (add_some _ _ _ Hadd) as (Hi & _). rewrite Hi in Hj.
      apply in_app_or in Hj. destruct Hj as [Hj | [<- | []]].
      * rewrite (Hb j Hj). reflexivity.
      * cbn [row payload]. rewrite String.eqb_refl. apply orb_true_r.
Qed.

(** A nonce that is in the table stays there. *)
Lemma nonce_stays (n : string) :
  (forall b id u, written u -> isNonceUsed b n = true ->
                  isNonceUsed (update b id u) n = true)
  /\ (forall b i b1, isNonceUsed b n = true ->
        status i = OPEN \/ status i = PENDING -> add b i = Some b1 ->
        isNonceUsed b1 n = true).
Proof.
  split.
  - intros b id u _ H. exact H.
  - intros b i b1 H _ Hadd. rewrite (isNonceUsed_add b b1 i n Hadd), H.
    reflexivity.
Qed.

(** X14.  In every state the engine reaches the nonce of every stored intent
    is in the table of nonces.  A nonce that is used stays used through
    submissions, results of payouts and runs of the checker.  A deposit new
    to the store whose payload carries a used nonce creates no intent: an
    Octra deposit is rejected, a Sepolia deposit is rejected or, when its
    target address is not a string, ends in an exception. *)
Theorem used_nonce_is_refused (e : Engine) :
  reachable s config P e ->
  (forall i, In i (intents (db e)) ->
     isNonceUsed (db e) (nonce (payload i)) = true)
  /\ (forall n d w h, isNonceUsed (db e) n = true ->
        isNonceUsed (db (engine (submit config P d w e h))) n = true)
  /\ (forall n now result p, isNonceUsed (db e) n = true ->
        isNonceUsed (db (resume s now result p e)) n = true)
  /\ (forall n w, isNonceUsed (db e) n = true ->
        isNonceUsed (db (fst (expiryChecker config w e))) n = true)
  /\ (forall w h tx p,
        getByTxHash (db e) h = None ->
        fetchOctraTransaction w h = Some tx ->
        Envelope.parseIntentPayload P (oct_message tx) = Some p ->
        isNonceUsed (db e) (nonce p) = true ->
        exists m, processOctToEthSubmission config P w e h = reject e m)
  /\ (forall w h tx d non,
        getByTxHash (db e) h = None ->
        fetchSepoliaTransaction w h = Some tx ->
        Envelope.parseAndVerifyEvmEnvelope P
          (match sep_input tx with Some i => i | None => EmptyString end)
        = Envelope.Valid d ->
        bindText P (Envelope.evm_nonce d) = Some non ->
        isNonceUsed (db e) non = true ->
        (exists m, processEthToOctSubmission config P w e h = reject e m)
        \/ processEthToOctSubmission config P w e h = threw e).
Proof.
  intros Hr. split; [exact (noncesRecorded_reachable e Hr)|].
  split; [|split; [|split; [|split]]].
  - intros n d w h H. destruct (nonce_stays n) as (Hu & Ha).
    exact (submit_keeps config P (fun b => isNonceUsed b n = true) Hu Ha d w e h H).
  - intros n now result p H. destruct (nonce_stays n) as (Hu & _).
    exact (resume_keeps s (fun b => isNonceUsed b n = true) Hu now result p e H).
  - intros n w H. destruct (nonce_stays n) as (Hu & _).
    exact (expiryChecker_keeps config (fun b => isNonceUsed b n = true) Hu w e H).
  - intros w h tx p Hnew Hf Hp Hn. unfold processOctToEthSubmission.
    rewrite Hnew, Hf. destruct (oct_status tx); try (eexists; reflexivity).
    rewrite Hp.
    destruct (validateIntentPayload _ _ _ _); [eexists; reflexivity|].
    rewrite Hn. eexists; reflexivity.
  - intros w h tx d non Hnew Hf Hp Hb Hn. unfold processEthToOctSubmission.
    rewrite Hnew, Hf. destruct (sep_status tx); try (left; eexists; reflexivity).
    destruct (negb _); [left; eexists; reflexivity|].
    rewrite Hp.
    destruct (Envelope.evm_targetAddress d); try (right; reflexivity).
    destruct (negb _); [left; eexists; reflexivity|].
    destruct (Rgtb _ _); [left; eexists; reflexivity|].
    rewrite Hb, Hn. left; eexists; reflexivity.
Qed.

Lemma expiryChecker_oracle (w : SweepWorld) (e : Engine) :
  oracle (fst (expiryChecker config w e)) = oracle e.
Proof.
  unfold expiryChecker.
  apply (fold_left_invariant (fun acc => oracle (fst acc) = oracle e)).
  - intros [e1 started] i H. cbn [fst] in H. unfold retryPending.
    destruct (Rgtb _ _); [exact H|].
    destruct (direction i).
    + destruct (Rgeb _ _); [|exact H].
      destruct (beginFulfill _ _ _ _ _). exact H.
    + destruct (Rgeb _ _); [|exact H].
      destruct (beginFulfill _ _ _ _ _). exact H.
  - reflexivity.
Qed.

Lemma submit_oracle (d : SwapDirection) (w : World) (e : Engine) (h : string) :
  oracle (engine (submit config P d w e h)) = oracle e.
Proof.
  destruct (submit_effect config P d w e h)
    as [(-> & _) | (_ & i & b1 & _ & _ & _ & _ & Hor & _)];
    [reflexivity | exact Hor].
Qed.

(** X15.  Submissions and runs of the checker leave the oracle as it is, and
    so does the result of a payout that failed, which leaves the whole
    engine.  The result of a payout that went through records one swap:
    with the [amountIn] of the intent for OCT to ETH, with the amount paid
    out for ETH to OCT. *)
Theorem only_a_confirmed_payout_moves_the_price (e : Engine) :
  (forall d w h, oracle (engine (submit config P d w e h)) = oracle e)
  /\ (forall w, oracle (fst (expiryChecker config w e)) = oracle e)
  /\ (forall now result p, sent result = None -> resume s now result p e = e)
  /\ (forall now result p tx, sent result = Some tx ->
        oracle (resume s now result p e)
        = Oracle.recordSwap s now (pay_direction p)
            (match pay_direction p with
             | OCT_TO_ETH => i_amountIn (pay_intent p)
             | ETH_TO_OCT => pay_amount p
             end) (oracle e)).
Proof.
  split; [intros d w h; apply submit_oracle|].
  split; [intros w; apply expiryChecker_oracle|].
  split.
  - intros now result p H. exact (proj1 (resume_records_swap s now result p e) H).
  - intros now result p tx H.
    exact (proj2 (resume_records_swap s now result p e) tx H).
Qed.

Lemma get_after_add (b b1 : Db) (i : Intent) :
  add b i = Some b1 -> Store.get b1 (intentId i) = Some (row i).
Proof.
  intros Hadd. destruct (add_some _ _ _ Hadd) as (Hi & _).
  unfold add, addIntent in Hadd.
  destruct (Store.get b (intentId i)) eqn:Hfree; [discriminate|].
  unfold Store.get in *. rewrite Hi, (find_app_none _ _ (row i) Hfree).
  cbn [row intentId]. rewrite String.eqb_refl. reflexivity.
Qed.

(** What [beginFulfill] starts: one payout at most, for the row it read,
    which is live and not past its expiry. *)
Lemma beginFulfill_started (d : SwapDirection) (now : R) (id : string) (out : R)
    (b : Db) (p : Payout) :
  In p (snd (beginFulfill d now id out b)) ->
  beginFulfill d now id out b = (b, [p])
  /\ Store.get b id = Some (pay_intent p)
  /\ live (pay_intent p) = true
  /\ now <= i_expiry (pay_intent p)
  /\ pay_direction p = d /\ pay_amount p = out.
Proof.
  unfold beginFulfill. destruct (Store.get b id) as [i|] eqn:Hget; [|intros []].
  destruct (negb _ && negb _)%bool eqn:El; [intros []|].
  destruct (Rgtb now (i_expiry i)) eqn:Ex; [intros []|].
  cbn [snd]. intros [<- | []]. cbn [pay_direction pay_amount pay_intent].
  unfold Rgtb in Ex. apply Rltb_false in Ex.
  repeat split; try assumption.
  unfold live. destruct (IntentStatus_eqb (status i) OPEN);
    destruct (IntentStatus_eqb (status i) PENDING); cbn in *; congruence.
Qed.

Lemma createIntent_started (w : World) (e : Engine) (i : Intent) (liq : bool)
    (out : R) (p : Payout) :
  In p (inflight (createIntent w e i liq out)) ->
  liq = true
  /\ inflight (createIntent w e i liq out) = [p]
  /\ pay_intent p = row i
  /\ pay_direction p = direction i
  /\ pay_amount p = out
  /\ now_fulfill w <= i_expiry i
  /\ Store.get (db (engine (createIntent w e i liq out))) (intentId i)
     = Some (row i)
  /\ outcome (createIntent w e i liq out)
     = Responded {| r_intentId := intentId i; r_status := OPEN;
                    r_message := FulfillmentInProgress |}.
Proof.
  unfold createIntent. destruct (Store.add (db e) i) as [b1|] eqn:Hadd;
    [|intros []].
  destruct liq; [|intros []].
  destruct (beginFulfill (direction i) (now_fulfill w) (intentId i) out b1)
    as [b2 more] eqn:Hb.
  cbn [inflight engine db outcome]. intros Hin.
  pose proof (beginFulfill_started (direction i) (now_fulfill w) (intentId i) out
                b1 p) as H.
  rewrite Hb in H. cbn [snd] in H.
  destruct (H Hin) as (Heq & Hget & _ & Hexp & Hd & Ha).
  injection Heq as -> ->.
  rewrite (get_after_add _ _ _ Hadd) in Hget. injection Hget as Hrow.
  rewrite <- Hrow in *. cbn [row i_expiry] in Hexp.
  repeat split; try assumption; try reflexivity.
  exact (get_after_add _ _ _ Hadd).
Qed.

(** X16.  A submission starts one payout at most.  The payout is for the row
    just written for the submitted reference, which is [OPEN]; its amount is
    the quote at the reserves of the oracle for the [amountIn] of the intent
    and the configured fee, it is not below the [minAmountOut] of the
    intent, it is covered, with the liquidity buffer, by the balance probed
    for that direction, and it is not started after the expiry of the
    intent.  The answer is [OPEN] with the id of that row. *)
Theorem submission_payout_is_covered (d : SwapDirection) (w : World)
    (e : Engine) (h : string) (p : Payout) :
  In p (inflight (submit config P d w e h)) ->
  inflight (submit config P d w e h) = [p]
  /\ pay_direction p = d
  /\ direction (pay_intent p) = d
  /\ sourceTxHash (pay_intent p) = h
  /\ status (pay_intent p) = OPEN
  /\ Store.get (db (engine (submit config P d w e h))) (intentId (pay_intent p))
     = Some (pay_intent p)
  /\ pay_amount p
     = Oracle.quote d (oracle e) (i_amountIn (pay_intent p)) (cfg_feeBps config)
  /\ i_minAmountOut (pay_intent p) <= pay_amount p
  /\ pay_amount p * LIQUIDITY_BUFFER <= probed d w
  /\ now_fulfill w <= i_expiry (pay_intent p)
  /\ outcome (submit config P d w e h)
     = Responded {| r_intentId := intentId (pay_intent p); r_status := OPEN;
                    r_message := FulfillmentInProgress |}.
Proof.
  intros Hin.
  destruct (getByTxHash (db e) h) as [existing|] eqn:Hk.
  { rewrite (submit_known config P d w e h existing Hk) in Hin. destruct Hin. }
  destruct d; unfold submit in *.
  - destruct (processOct_cases config P w e h Hk) as [(m & Hr) | (tx & pl & Hv)].
    { rewrite Hr in Hin. destruct Hin. }
    rewrite (processOct_valid config P w e h tx pl Hk Hv) in *.
    destruct (createIntent_started w e _ _ _ p Hin)
      as (Hliq & Hone & Hrow & Hd & Ha & Hexp & Hget & Hout).
    destruct Hv as (_ & _ & _ & _ & _ & Hmin).
    pose proof Hliq as Hle. unfold Rgeb in Hle. apply Rleb_true in Hle.
    split; [exact Hone|]. split; [exact Hd|]. rewrite Hrow.
    split; [reflexivity|]. split; [reflexivity|].
    split; [cbn [row octIntent status]; rewrite Hliq; reflexivity|].
    split; [exact Hget|].
    split; [rewrite Ha; reflexivity|].
    split; [rewrite Ha; exact Hmin|].
    split; [rewrite Ha; exact Hle|].
    split; [exact Hexp | exact Hout].
  - destruct (processEth_cases config P w e h Hk)
      as [(m & Hr) | [Ht | (tx & dd & target & non & Hv)]].
    { rewrite Hr in Hin. destruct Hin. }
    { rewrite Ht in Hin. destruct Hin. }
    rewrite (processEth_valid config P w e h tx dd target non Hk Hv) in *.
    destruct (createIntent_started w e _ _ _ p Hin)
      as (Hliq & Hone & Hrow & Hd & Ha & Hexp & Hget & Hout).
    destruct Hv as (_ & _ & _ & _ & _ & _ & _ & _ & _ & _ & Hmin).
    pose proof Hliq as Hle. unfold Rgeb in Hle. apply Rleb_true in Hle.
    split; [exact Hone|]. split; [exact Hd|]. rewrite Hrow.
    split; [reflexivity|]. split; [reflexivity|].
    split; [cbn [row ethIntent status]; rewrite Hliq; reflexivity|].
    split; [exact Hget|].
    split; [rewrite Ha; reflexivity|].
    split; [rewrite Ha; exact Hmin|].
    split; [rewrite Ha; exact Hle|].
    split; [exact Hexp | exact Hout].
Qed.

(** X17.  The intent a submission hands to [sendETH] or [sendOCT] is the row
    as read back from the table: its target address, to which the payout
    goes, and its source address are the lower-cased ones, in both
    directions, while its payload keeps the target address as the depositor
    wrote it. *)
Theorem payout_goes_to_the_lower_cased_address (w : World) (e : Engine)
    (h : string) (q : Payout) :
  getByTxHash (db e) h = None ->
  (forall tx p,
     octValid config P w e h tx p ->
     In q (inflight (processOctToEthSubmission config P w e h)) ->
     i_targetAddress (pay_intent q) = Str.toLowerCase (targetAddress p)
     /\ sourceAddress (pay_intent q) = Str.toLowerCase (oct_from tx)
     /\ targetAddress (payload (pay_intent q)) = targetAddress p)
  /\ (forall tx d target non,
        ethValid config P w e h tx d target non ->
        In q (inflight (processEthToOctSubmission config P w e h)) ->
        i_targetAddress (pay_intent q) = Str.toLowerCase target
        /\ sourceAddress (pay_intent q) = Str.toLowerCase (sep_from tx)
        /\ targetAddress (payload (pay_intent q)) = target).
Proof.
  intros Hk. split.
  - intros tx p Hv Hin.
    rewrite (processOct_valid config P w e h tx p Hk Hv) in Hin.
    destruct (createIntent_started w e _ _ _ q Hin) as (_ & _ & -> & _).
    repeat split.
  - intros tx d target non Hv Hin.
    rewrite (processEth_valid config P w e h tx d target non Hk Hv) in Hin.
    destruct (createIntent_started w e _ _ _ q Hin) as (_ & _ & -> & _).
    repeat split.
Qed.

Lemma keys_update (b : Db) (id : string) (u : Updates) :
  map key (intents (update b id u)) = map key (intents b).
Proof.
  unfold update. cbn [intents]. rewrite map_map. apply map_ext.
  intros i. destruct (intentId i =? id); reflexivity.
Qed.

Lemma keys_ids (b b0 : Db) :
  map key (intents b) = map key (intents b0) ->
  map intentId (intents b) = map intentId (intents b0).
Proof.
  intros H.
  replace (map intentId (intents b)) with (map fst (map key (intents b)))
    by (rewrite map_map; reflexivity).
  rewrite H, map_map. reflexivity.
Qed.

(** A row of a table that has the keys of [b0] has the expiry of the row of
    [b0] with its id. *)
Lemma key_lookup (b0 b : Db) (r j : Intent) :
  uniqueId b0 -> map key (intents b) = map key (intents b0) ->
  In r (intents b) -> In j (intents b0) -> intentId r = intentId j ->
  i_expiry r = i_expiry j.
Proof.
  intros Hu Hk Hr Hj Hid.
  assert (Hin : In (key r) (map key (intents b0))).
  { rewrite <- Hk. apply in_map. exact Hr. }
  apply in_map_iff in Hin. destruct Hin as (r0 & Hkey & Hr0).
  unfold key in Hkey. injection Hkey as Hid0 Hexp.
  assert (r0 = j).
  { apply (same_id_same_row b0 r0 j Hu Hr0 Hj). congruence. }
  subst r0. symmetry. exact Hexp.
Qed.

Lemma in_update (b : Db) (id : string) (u : Updates) (r : Intent) :
  In r (intents (update b id u)) ->
  exists r0, In r0 (intents b)
             /\ ((intentId r0 =? id) = false /\ r = r0
                 \/ (intentId r0 =? id) = true /\ r = merge r0 u).
Proof.
  unfold update. cbn [intents]. intros H. apply in_map_iff in H.
  destruct H as (r0 & <- & Hr0). exists r0. split; [exact Hr0|].
  destruct (intentId r0 =? id); [right | left]; split; reflexivity.
Qed.

Lemma update_keeps_other (b : Db) (id : string) (u : Updates) (r : Intent) :
  In r (intents b) -> intentId r <> id -> In r (intents (update b id u)).
Proof.
  intros Hr Hne. unfold update. cbn [intents]. apply in_map_iff.
  exists r. split; [|exact Hr].
  destruct (intentId r =? id) eqn:E; [|reflexivity].
  apply String.eqb_eq in E. contradiction.
Qed.

Lemma live_status (i : Intent) :
  live i = true <-> status i = OPEN \/ status i = PENDING.
Proof.
  unfold live. destruct (status i); cbn; split; intros H; try discriminate;
    auto; destruct H as [H | H]; discriminate.
Qed.

Lemma get_In (b : Db) (id : string) (i : Intent) :
  Store.get b id = Some i -> In i (intents b) /\ intentId i = id.
Proof.
  unfold Store.get. intros H. apply find_some in H. destruct H as (Hin & Heq).
  split; [exact Hin | apply String.eqb_eq; exact Heq].
Qed.

(** The rows after a retry of the intent [id]: the other rows as they were,
    the row [id] with its expiry. *)
Lemma in_retried (acc b2 : Db) (id : string) (r : Intent) :
  b2 = update acc id (just_status OPEN)
  \/ b2 = update (update acc id (just_status OPEN)) id (just_status EXPIRED) ->
  In r (intents b2) ->
  exists r0, In r0 (intents acc)
             /\ (intentId r0 <> id /\ r = r0
                 \/ intentId r0 = id /\ intentId r = id
                    /\ i_expiry r = i_expiry r0).
Proof.
  intros [-> | ->] Hr.
  - destruct (in_update _ _ _ _ Hr) as (r0 & Hr0 & [(Hne & ->) | (He & ->)]).
    + exists r0. split; [exact Hr0|]. left. split; [|reflexivity].
      apply String.eqb_neq. exact Hne.
    + exists r0. split; [exact Hr0|]. right. apply String.eqb_eq in He.
      repeat split; exact He.
  - destruct (in_update _ _ _ _ Hr) as (r1 & Hr1 & Hcase).
    destruct (in_update _ _ _ _ Hr1) as (r0 & Hr0 & [(Hne & ->) | (He & ->)]).
    + exists r0. split; [exact Hr0|].
      destruct Hcase as [(_ & ->) | (He1 & _)].
      * left. split; [|reflexivity]. apply String.eqb_neq. exact Hne.
      * rewrite Hne in He1. discriminate.
    + exists r0. split; [exact Hr0|]. right. apply String.eqb_eq in He.
      destruct Hcase as [(_ & ->) | (_ & ->)]; repeat split; exact He.
Qed.

Section CheckerLoops.

Variable w : SweepWorld.
Variable b0 : Db.
Hypothesis Hu : uniqueId b0.

(** The first loop: what holds of the table while the [OPEN] intents [rem]
    are still to be visited. *)
Lemma expireOpen_loop (rem : list Intent) (acc : Db) :
  (forall j, In j rem -> In j (intents b0) /\ status j = OPEN) ->
  map key (intents acc) = map key (intents b0) ->
  (forall r, In r (intents acc) -> status r = OPEN -> sweep_now w > i_expiry r ->
     exists j, In j rem /\ intentId j = intentId r) ->
  (forall r, In r (intents acc) -> status r = PENDING -> In r (intents b0)) ->
  (forall r, In r (intents b0) -> status r <> OPEN -> In r (intents acc)) ->
  let final :=
    fold_left
      (fun acc intent =>
         if Rgtb (sweep_now w) (i_expiry intent)
         then Store.update acc (intentId intent) (just_status EXPIRED)
         else acc) rem acc in
  map key (intents final) = map key (intents b0)
  /\ (forall r, In r (intents final) -> status r = OPEN ->
        sweep_now w <= i_expiry r)
  /\ (forall r, In r (intents final) -> status r = PENDING -> In r (intents b0))
  /\ (forall r, In r (intents b0) -> status r <> OPEN -> In r (intents final)).
Proof.
  revert acc. induction rem as [|j rem IH]; intros acc Hrem Hk Hopen Hpend Hkeep.
  - cbn [fold_left]. split; [exact Hk|]. split; [|split; assumption].
    intros r Hr Hst. destruct (Rle_dec (sweep_now w) (i_expiry r)) as [H | H];
      [exact H|].
    destruct (Hopen r Hr Hst) as (j & [] & _). lra.
  - cbn [fold_left]. destruct (Hrem j (or_introl eq_refl)) as (Hj & Hjst).
    apply IH.
    + intros x Hx. apply Hrem. right. exact Hx.
    + destruct (Rgtb _ _); [rewrite keys_update|]; exact Hk.
    + intros r Hr Hst Hexp.
      destruct (Rgtb (sweep_now w) (i_expiry j)) eqn:E.
      * destruct (in_update _ _ _ _ Hr) as (r0 & Hr0 & [(Hne & ->) | (_ & ->)]).
        -- destruct (Hopen r0 Hr0 Hst Hexp) as (j' & [<- | Hj'] & Hid).
           ++ rewrite Hid, String.eqb_refl in Hne. discriminate.
           ++ exists j'. split; assumption.
        -- cbn [merge status just_status u_status] in Hst. discriminate.
      * destruct (Hopen r Hr Hst Hexp) as (j' & [<- | Hj'] & Hid).
        -- unfold Rgtb in E. apply Rltb_false in E.
           rewrite (key_lookup b0 acc r j Hu Hk Hr Hj (eq_sym Hid)) in Hexp. lra.
        -- exists j'. split; assumption.
    + intros r Hr Hst. destruct (Rgtb (sweep_now w) (i_expiry j)) eqn:E;
        [|exact (Hpend r Hr Hst)].
      destruct (in_update _ _ _ _ Hr) as (r0 & Hr0 & [(_ & ->) | (_ & ->)]).
      * exact (Hpend r0 Hr0 Hst).
      * cbn [merge status just_status u_status] in Hst. discriminate.
    + intros r Hr Hst. destruct (Rgtb (sweep_now w) (i_expiry j)) eqn:E;
        [|exact (Hkeep r Hr Hst)].
      apply update_keeps_other; [exact (Hkeep r Hr Hst)|].
      intros Hid. apply Hst.
      rewrite (same_id_same_row b0 r j Hu Hr Hj Hid). exact Hjst.
Qed.

(** The second loop: what holds of the table and of the payouts started
    while the [PENDING] intents [rem] are still to be visited. *)
Lemma retryPending_loop (rem : list Intent) (acc : Engine * list Payout) :
  (forall j, In j rem -> In j (intents b0) /\ status j = PENDING) ->
  map key (intents (db (fst acc))) = map key (intents b0) ->
  (forall r, In r (intents (db (fst acc))) -> live r = true ->
     sweep_now w > i_expiry r ->
     exists j, In j rem /\ intentId j = intentId r) ->
  (forall r, In r (intents b0) -> live r = false ->
     In r (intents (db (fst acc)))) ->
  (forall p, In p (snd acc) ->
     status (pay_intent p) = OPEN
     /\ sweep_now w <= i_expiry (pay_intent p)
     /\ sweep_now_fulfill w (intentId (pay_intent p)) <= i_expiry (pay_intent p)) ->
  let final := fold_left (retryPending config w) rem acc in
  map key (intents (db (fst final))) = map key (intents b0)
  /\ (forall r, In r (intents (db (fst final))) -> live r = true ->
        sweep_now w <= i_expiry r)
  /\ (forall r, In r (intents b0) -> live r = false ->
        In r (intents (db (fst final))))
  /\ (forall p, In p (snd final) ->
        status (pay_intent p) = OPEN
        /\ sweep_now w <= i_expiry (pay_intent p)
        /\ sweep_now_fulfill w (intentId (pay_intent p))
           <= i_expiry (pay_intent p)).
Proof.
  revert acc. induction rem as [|j rem IH]; intros acc Hrem Hk Hlive Hkeep Hpay.
  - cbn [fold_left]. split; [exact Hk|]. split; [|split; assumption].
    intros r Hr Hst. destruct (Rle_dec (sweep_now w) (i_expiry r)) as [H | H];
      [exact H|].
    destruct (Hlive r Hr Hst) as (j & [] & _). lra.
  - cbn [fold_left]. destruct (Hrem j (or_introl eq_refl)) as (Hj & Hjst).
    assert (Hjlive : live j = true) by (apply live_status; right; exact Hjst).
    destruct acc as [e1 started]. cbn [fst snd] in Hk, Hlive, Hkeep, Hpay.
    assert (Hother : forall r, In r (intents b0) -> live r = false ->
                               intentId r <> intentId j).
    { intros r Hr Hnl Hid.
      rewrite (same_id_same_row b0 r j Hu Hr Hj Hid) in Hnl. congruence. }
    (* the three ways the body ends *)
    assert (Hexpired :
      Rgtb (sweep_now w) (i_expiry j) = true ->
      retryPending config w (e1, started) j
      = ({| db := update (db e1) (intentId j) (just_status EXPIRED);
            oracle := oracle e1 |}, started)).
    { intros E. unfold retryPending. rewrite E. reflexivity. }
    assert (Hcases :
      Rgtb (sweep_now w) (i_expiry j) = false ->
      retryPending config w (e1, started) j = (e1, started)
      \/ exists out b2 more,
           retryPending config w (e1, started) j
           = ({| db := b2; oracle := oracle e1 |}, (started ++ more)%list)
           /\ beginFulfill (direction j) (sweep_now_fulfill w (intentId j))
                (intentId j) out
                (update (db e1) (intentId j) (just_status OPEN)) = (b2, more)).
    { intros E. unfold retryPending. rewrite E.
      destruct (direction j).
      - destruct (Rgeb _ _); [|left; reflexivity]. right.
        destruct (beginFulfill OCT_TO_ETH _ _ _ _) as [b2 more] eqn:Hb.
        eexists _, b2, more. split; [reflexivity | exact Hb].
      - destruct (Rgeb _ _); [|left; reflexivity]. right.
        destruct (beginFulfill ETH_TO_OCT _ _ _ _) as [b2 more] eqn:Hb.
        eexists _, b2, more. split; [reflexivity | exact Hb]. }
    destruct (Rgtb (sweep_now w) (i_expiry j)) eqn:E.
    + rewrite (Hexpired eq_refl). apply IH; cbn [fst snd db].
      * intros x Hx. apply Hrem. right. exact Hx.
      * rewrite keys_update. exact Hk.
      * intros r Hr Hl Hexp.
        destruct (in_update _ _ _ _ Hr) as (r0 & Hr0 & [(Hne & ->) | (_ & ->)]).
        -- destruct (Hlive r0 Hr0 Hl Hexp) as (j' & [<- | Hj'] & Hid).
           ++ rewrite Hid, String.eqb_refl in Hne. discriminate.
           ++ exists j'. split; assumption.
        -- cbn in Hl. discriminate.
      * intros r Hr Hnl. apply update_keeps_other; [exact (Hkeep r Hr Hnl)|].
        exact (Hother r Hr Hnl).
      * exact Hpay.
    + unfold Rgtb in E. apply Rltb_false in E.
      assert (Hfresh : forall r, In r (intents (db e1)) -> live r = true ->
                sweep_now w > i_expiry r ->
                exists j', In j' rem /\ intentId j' = intentId r).
      { intros r Hr Hl Hexp.
        destruct (Hlive r Hr Hl Hexp) as (j' & [<- | Hj'] & Hid).
        - rewrite (key_lookup b0 (db e1) r j Hu Hk Hr Hj (eq_sym Hid)) in Hexp.
          lra.
        - exists j'. split; assumption. }
      destruct (Hcases eq_refl) as [-> | (out & b2 & more & -> & Hb)].
      * apply IH; cbn [fst snd]; try assumption.
        intros x Hx. apply Hrem. right. exact Hx.
      * assert (Hb2 : b2 = update (db e1) (intentId j) (just_status OPEN)
                      \/ b2 = update (update (db e1) (intentId j) (just_status OPEN))
                                (intentId j) (just_status EXPIRED)).
        { pose proof (beginFulfill_db (direction j)
                        (sweep_now_fulfill w (intentId j)) (intentId j) out
                        (update (db e1) (intentId j) (just_status OPEN))) as H.
          rewrite Hb in H. exact H. }
        apply IH; cbn [fst snd db].
        -- intros x Hx. apply Hrem. right. exact Hx.
        -- destruct Hb2 as [-> | ->]; repeat rewrite keys_update; exact Hk.
        -- intros r Hr Hl Hexp.
           destruct (in_retried _ _ _ _ Hb2 Hr)
             as (r0 & Hr0 & [(Hne & ->) | (Hid0 & Hid & Hexp0)]).
           ++ destruct (Hlive r0 Hr0 Hl Hexp) as (j' & [<- | Hj'] & Hid).
              ** contradiction Hne. symmetry. exact Hid.
              ** exists j'. split; assumption.
           ++ rewrite Hexp0 in Hexp.
              rewrite (key_lookup b0 (db e1) r0 j Hu Hk Hr0 Hj Hid0) in Hexp.
              lra.
        -- intros r Hr Hnl.
           assert (Hin : In r (intents (update (db e1) (intentId j)
                                          (just_status OPEN)))).
           { apply update_keeps_other; [exact (Hkeep r Hr Hnl)|].
             exact (Hother r Hr Hnl). }
           destruct Hb2 as [-> | ->]; [exact Hin|].
           apply update_keeps_other; [exact Hin | exact (Hother r Hr Hnl)].
        -- intros p Hp. apply in_app_or in Hp.
           destruct Hp as [Hp | Hp]; [exact (Hpay p Hp)|].
           pose proof (beginFulfill_started (direction j)
                         (sweep_now_fulfill w (intentId j)) (intentId j) out
                         (update (db e1) (intentId j) (just_status OPEN)) p) as H.
           rewrite Hb in H. cbn [snd] in H.
           destruct (H Hp) as (_ & Hget & _ & Hnf & _ & _).
           rewrite get_update, String.eqb_refl in Hget.
           destruct (Store.get (db e1) (intentId j)) as [r0|] eqn:Hg;
             [|discriminate].
           cbn [option_map] in Hget. injection Hget as Hrow.
           destruct (get_In _ _ _ Hg) as (Hr0 & Hid0).
           rewrite <- Hrow in *.
           cbn [merge status i_expiry intentId just_status u_status] in *.
           rewrite Hid0.
           rewrite (key_lookup b0 (db e1) r0 j Hu Hk Hr0 Hj Hid0) in *.
           split; [reflexivity|]. split; [exact E | exact Hnf].
Qed.

End CheckerLoops.

(** What one run of the checker leaves, from the two loops. *)
Lemma expiryChecker_loops (w : SweepWorld) (e : Engine) :
  uniqueId (db e) ->
  map key (intents (db (fst (expiryChecker config w e))))
  = map key (intents (db e))
  /\ (forall r, In r (intents (db (fst (expiryChecker config w e)))) ->
        live r = true -> sweep_now w <= i_expiry r)
  /\ (forall r, In r (intents (db e)) -> live r = false ->
        In r (intents (db (fst (expiryChecker config w e)))))
  /\ (forall p, In p (snd (expiryChecker config w e)) ->
        status (pay_intent p) = OPEN
        /\ sweep_now w <= i_expiry (pay_intent p)
        /\ sweep_now_fulfill w (intentId (pay_intent p))
           <= i_expiry (pay_intent p)).
Proof.
  intros Hu.
  destruct (expireOpen_loop w (db e) Hu (getOpenIntents (db e)) (db e))
    as (Hk1 & Hopen1 & _ & Hkeep1).
  { intros j Hj. apply with_status_In in Hj. exact Hj. }
  { reflexivity. }
  { intros r Hr Hst _. exists r. split; [|reflexivity].
    apply with_status_In. split; assumption. }
  { intros r Hr _. exact Hr. }
  { intros r Hr _. exact Hr. }
  fold (expireOpen (sweep_now w) (db e)) in Hk1, Hopen1, Hkeep1.
  set (b1 := expireOpen (sweep_now w) (db e)) in *.
  assert (Hu1 : uniqueId b1).
  { unfold uniqueId. rewrite (keys_ids b1 (db e) Hk1). exact Hu. }
  destruct (retryPending_loop w b1 Hu1 (getPendingIntents b1)
              ({| db := b1; oracle := oracle e |}, []))
    as (Hk2 & Hlive2 & Hkeep2 & Hpay2).
  { intros j Hj. apply with_status_In in Hj. exact Hj. }
  { reflexivity. }
  { cbn [fst db]. intros r Hr Hl Hexp. apply live_status in Hl.
    destruct Hl as [Hst | Hst].
    - pose proof (Hopen1 r Hr Hst). lra.
    - exists r. split; [|reflexivity]. apply with_status_In. split; assumption. }
  { intros r Hr _. exact Hr. }
  { intros p []. }
  change (expiryChecker config w e)
    with (fold_left (retryPending config w) (getPendingIntents b1)
            ({| db := b1; oracle := oracle e |}, [])).
  split; [rewrite Hk2; exact Hk1|]. split; [exact Hlive2|].
  split; [|exact Hpay2].
  intros r Hr Hnl. apply Hkeep2; [|exact Hnl]. apply Hkeep1; [exact Hr|].
  intros Hst. unfold live in Hnl. rewrite Hst in Hnl. discriminate.
Qed.

(** X18.  After a run of the periodic checker (on a table without two rows
    of the same id) no row that is still [OPEN] or [PENDING] is past its
    expiry at the time of the sweep.  Every payout the run starts is for a
    row of status [OPEN] that is past its expiry neither at the time of the
    sweep nor at the time its fulfilment began.  The run adds and removes no
    row and changes no expiry. *)
Theorem checker_expires_overdue_intents (w : SweepWorld) (e : Engine) :
  uniqueId (db e) ->
  (forall i, In i (intents (db (fst (expiryChecker config w e)))) ->
     live i = true -> sweep_now w <= i_expiry i)
  /\ (forall p, In p (snd (expiryChecker config w e)) ->
        status (pay_intent p) = OPEN
        /\ sweep_now w <= i_expiry (pay_intent p)
        /\ sweep_now_fulfill w (intentId (pay_intent p))
           <= i_expiry (pay_intent p))
  /\ map key (intents (db (fst (expiryChecker config w e))))
     = map key (intents (db e)).
Proof.
  intros Hu. destruct (expiryChecker_loops w e Hu) as (Hk & Hl & _ & Hp).
  split; [exact Hl|]. split; [exact Hp | exact Hk].
Qed.

(** X19.  A row that is neither [OPEN] nor [PENDING] (in a table without two
    rows of the same id) is left as it is by every submission and by every
    run of the checker; a [FULFILLED] row keeps its id and its status under
    the result of any payout. *)
Theorem closed_intents_are_left_alone (e : Engine) (i : Intent) :
  uniqueId (db e) -> In i (intents (db e)) -> live i = false ->
  (forall d w h, In i (intents (db (engine (submit config P d w e h)))))
  /\ (forall w, In i (intents (db (fst (expiryChecker config w e)))))
  /\ (forall now result p,
        status i = FULFILLED ->
        exists i', In i' (intents (db (resume s now result p e)))
                   /\ intentId i' = intentId i /\ status i' = FULFILLED).
Proof.
  intros Hu Hi Hnl. split; [|split].
  - intros d w h.
    destruct (submit_effect config P d w e h)
      as [(-> & _) | (_ & j & b1 & _ & _ & Hadd & Hdb & _)]; [exact Hi|].
    destruct (add_some _ _ _ Hadd) as (Hrows & _).
    assert (Hin : In i (intents b1)).
    { rewrite Hrows. apply in_or_app. left. exact Hi. }
    destruct Hdb as [-> | ->]; [exact Hin|].
    apply update_keeps_other; [exact Hin|].
    intros Hid. apply (add_fresh _ _ _ Hadd). rewrite <- Hid.
    apply in_map. exact Hi.
  - intros w. destruct (expiryChecker_loops w e Hu) as (_ & _ & Hkeep & _).
    exact (Hkeep i Hi Hnl).
  - intros now result p Hst.
    unfold resume, fulfillOctToEth_resume, fulfillEthToOct_resume.
    assert (Hup : forall tx out,
              exists i', In i' (intents (update (db e) (intentId (pay_intent p))
                                           (fulfilled tx out now)))
                         /\ intentId i' = intentId i /\ status i' = FULFILLED).
    { intros tx out.
      destruct (intentId i =? intentId (pay_intent p)) eqn:E.
      - exists (merge i (fulfilled tx out now)). split; [|split; reflexivity].
        unfold update. cbn [intents]. apply in_map_iff. exists i.
        rewrite E. split; [reflexivity | exact Hi].
      - exists i. split; [|split; [reflexivity | exact Hst]].
        apply update_keeps_other; [exact Hi|]. apply String.eqb_neq. exact E. }
    destruct (pay_direction p); destruct (sent result); cbn [db];
      try apply Hup; exists i; repeat split; assumption.
Qed.

End EngineFacts.

(** * The Octra envelope and the checks of a deposit *)

Section EnvelopeEdges.

Import Json Envelope Store Solver.
Open Scope string_scope.

Variable config : AppConfig.
Variable P : Platform.

(** X20.  [parseAndVerifyOctraEnvelope] on a message that decodes to an
    envelope, whose payload is [envelope.payload || envelope].  With a
    truthy [hash] the envelope is valid when the hash is the SHA-256 of
    [JSON.stringify] of that payload as it was parsed, and reported as
    tampered otherwise; with a falsy [hash] it is valid unchecked.  The
    payload returned is always the parsed one. *)
Theorem octra_envelope_hash_is_checked (message : string)
    (envelope payload : JSON) (p hash : JS) :
  decodeEnvelope P message = Some envelope ->
  Json.get envelope "payload" = Some p ->
  Json.get envelope "hash" = Some hash ->
  or_else p (Some envelope) = Some payload ->
  (truthy hash = true ->
   hash = Some (JString (sha256_hex P (JSON_stringify P payload))) ->
   parseAndVerifyOctraEnvelope P message = Valid payload)
  /\ (truthy hash = true ->
      hash <> Some (JString (sha256_hex P (JSON_stringify P payload))) ->
      parseAndVerifyOctraEnvelope P message = Invalid TAMPERED)
  /\ (truthy hash = false ->
      parseAndVerifyOctraEnvelope P message = Valid payload)
  /\ (forall other, parseAndVerifyOctraEnvelope P message = Valid other ->
      other = payload).
Proof.
  intros Hdec Hp Hh Ho.
  assert (E : parseAndVerifyOctraEnvelope P message
              = if truthy hash
                then if verifyPayloadHash P payload hash
                     then Valid payload else Invalid TAMPERED
                else Valid payload).
  { unfold parseAndVerifyOctraEnvelope. rewrite Hdec, Hp, Hh, Ho. reflexivity. }
  rewrite E. repeat split.
  - intros Ht Hc. rewrite Ht, (proj2 (verifyPayloadHash_true P payload hash) Hc).
    reflexivity.
  - intros Ht Hw. rewrite Ht.
    destruct (verifyPayloadHash P payload hash) eqn:V; [|reflexivity].
    apply verifyPayloadHash_true in V. contradiction.
  - intros Ht. rewrite Ht. reflexivity.
  - intros other. destruct (truthy hash);
      [destruct (verifyPayloadHash P payload hash)|]; intros H;
      try discriminate; injection H as <-; reflexivity.
Qed.

Lemma octFields_some (payload : JSON) (p : SwapIntentPayload) :
  octFields payload = Some p ->
  version p = 1 /\ intentType p = "swap" /\ fromAsset p = "OCT"
  /\ toAsset p = "ETH" /\ targetChain p = "ethereum_sepolia".
Proof.
  unfold octFields.
  destruct (Json.get payload "version") as [[[| |ver| | |]|]|]; try discriminate.
  destruct (Json.get payload "intentType") as [[[| | |ty| |]|]|]; try discriminate.
  destruct (Json.get payload "fromAsset") as [[[| | |fromA| |]|]|]; try discriminate.
  destruct (Json.get payload "toAsset") as [[[| | |toA| |]|]|]; try discriminate.
  destruct (Json.get payload "amountIn") as [[[| |amt| | |]|]|]; try discriminate.
  destruct (Json.get payload "minAmountOut") as [[[| |minOut| | |]|]|]; try discriminate.
  destruct (Json.get payload "targetChain") as [[[| | |chain| |]|]|]; try discriminate.
  destruct (Json.get payload "targetAddress") as [[[| | |addr| |]|]|]; try discriminate.
  destruct (Json.get payload "expiry") as [[[| |exp| | |]|]|]; try discriminate.
  destruct (Json.get payload "nonce") as [[[| | |non| |]|]|]; try discriminate.
  destruct (Reqb ver 1) eqn:E1; [|discriminate].
  destruct (ty =? "swap") eqn:E2; [|discriminate].
  destruct (fromA =? "OCT") eqn:E3; [|discriminate].
  destruct (toA =? "ETH") eqn:E4; [|discriminate].
  destruct (chain =? "ethereum_sepolia") eqn:E5; [|discriminate].
  cbn [andb]. intros H. injection H as <-.
  cbn [version intentType fromAsset toAsset targetChain].
  apply Reqb_true in E1. apply String.eqb_eq in E2, E3, E4, E5.
  repeat split; assumption.
Qed.

Lemma parseIntentPayload_some (m : option string) (p : SwapIntentPayload) :
  parseIntentPayload P m = Some p ->
  version p = 1 /\ intentType p = "swap" /\ fromAsset p = "OCT"
  /\ toAsset p = "ETH" /\ targetChain p = "ethereum_sepolia".
Proof.
  unfold parseIntentPayload. destruct m as [m|]; [|discriminate].
  destruct (m =? EmptyString); [discriminate|].
  destruct (JSON_parse P m) as [parsed|]; [|discriminate].
  destruct (Json.get parsed "payload") as [pl|]; [|discriminate].
  destruct (or_else pl (Some parsed)) as [payload|]; [|discriminate].
  apply octFields_some.
Qed.

(** X21.  What holds of an OCT to ETH deposit that passes every check of the
    solver: the payload is a version 1 swap from OCT to ETH on
    [ethereum_sepolia]; the transaction is confirmed and goes to the escrow;
    its amount is within 0.000001 of the [amountIn] of the payload; the
    intent is not expired at the time of the check; the target address is
    [0x] and 40 hex digits; the nonce is unused; the quote is not below
    [minAmountOut]. *)
Theorem accepted_oct_deposit (w : World) (e : Engine) (h : string)
    (tx : OctraTransaction) (p : SwapIntentPayload) :
  octValid config P w e h tx p ->
  (version p = 1 /\ intentType p = "swap" /\ fromAsset p = "OCT"
   /\ toAsset p = "ETH" /\ targetChain p = "ethereum_sepolia")
  /\ oct_status tx = tx_confirmed
  /\ oct_to tx = octraEscrowAddress config
  /\ Rabs (oct_amount tx - amountIn p) <= 1 / 1000000
  /\ now_check w <= expiry p
  /\ String.length (targetAddress p) = 42%nat
  /\ Str.startsWith (targetAddress p) "0x" = true
  /\ Str.all_chars Str.is_hex_char (substring 2 40 (targetAddress p)) = true
  /\ isNonceUsed (db e) (nonce p) = false
  /\ minAmountOut p
     <= Oracle.calculateEthOut (oracle e) (amountIn p) (cfg_feeBps config).
Proof.
  intros (Hf & Hc & Hp & Hv & Hn & Hm).
  split; [exact (parseIntentPayload_some _ p Hp)|].
  split; [exact Hc|].
  unfold validateIntentPayload in Hv.
  destruct (oct_to tx =? octraEscrowAddress config) eqn:E1; cbn [negb] in Hv;
    [|discriminate].
  destruct (Rgtb _ (1 / 1000000)) eqn:E2; [discriminate|].
  destruct (Rgtb (now_check w) (expiry p)) eqn:E3; [discriminate|].
  destruct (Str.matches_evm_address (targetAddress p)) eqn:E4; cbn [negb] in Hv;
    [|discriminate].
  apply String.eqb_eq in E1. unfold Rgtb in E2, E3.
  apply Rltb_false in E2. apply Rltb_false in E3.
  unfold Str.matches_evm_address in E4.
  apply andb_prop in E4. destruct E4 as (E4 & E6).
  apply andb_prop in E4. destruct E4 as (E4 & E5).
  apply Nat.eqb_eq in E5.
  repeat split; assumption.
Qed.

(** X22.  A confirmed transfer to the Sepolia escrow, new to the store, that
    carries no call data ([input] absent, [0x], or shorter than 4
    characters) is rejected with the error of the missing payload, and a
    confirmed Octra deposit without memo is rejected as an invalid intent
    payload; the engine stays as it is. *)
Theorem deposit_without_payload_is_rejected (w : World) (e : Engine) (h : string) :
  getByTxHash (db e) h = None ->
  (forall tx,
     fetchSepoliaTransaction w h = Some tx ->
     sep_status tx = tx_confirmed ->
     Str.toLowerCase (sep_to tx) = Str.toLowerCase (sepoliaEscrowAddress config) ->
     (sep_input tx = None \/ sep_input tx = Some "0x"
      \/ exists i, sep_input tx = Some i /\ (String.length i < 4)%nat) ->
     processEthToOctSubmission config P w e h
     = reject e (EnvelopeError "No payload in tx.input"))
  /\ (forall tx,
        fetchOctraTransaction w h = Some tx ->
        oct_status tx = tx_confirmed ->
        (oct_message tx = None \/ oct_message tx = Some EmptyString) ->
        processOctToEthSubmission config P w e h = reject e InvalidIntentPayload).
Proof.
  intros Hnew. split.
  - intros tx Hf Hc Hto Hin. unfold processEthToOctSubmission.
    rewrite Hnew, Hf, Hc, Hto, String.eqb_refl. cbn [negb].
    assert (Hv : parseAndVerifyEvmEnvelope P
                   (match sep_input tx with Some i => i | None => EmptyString end)
                 = Invalid "No payload in tx.input").
    { unfold parseAndVerifyEvmEnvelope.
      destruct Hin as [-> | [-> | (i & -> & Hlen)]]; [reflexivity | reflexivity |].
      apply Nat.ltb_lt in Hlen. rewrite Hlen, !orb_true_r. reflexivity. }
    rewrite Hv. reflexivity.
  - intros tx Hf Hc Hm. unfold processOctToEthSubmission.
    rewrite Hnew, Hf, Hc.
    destruct Hm as [-> | ->]; reflexivity.
Qed.

End EnvelopeEdges.

(** * The submission and status endpoints *)

Section RouteFacts.

Import Store Solver Routes.
Open Scope string_scope.

Variable s : Oracle.Settings.
Variable config : AppConfig.
Variable P : Platform.

(** A submission that answers with a status other than [REJECTED] leaves a
    row for the reference, with the id of the answer. *)
Lemma submit_row (d : SwapDirection) (w : World) (e : Engine) (h : string)
    (r : SubmitResponse) :
  outcome (submit config P d w e h) = Responded r ->
  r_status r <> REJECTED ->
  exists i, getByTxHash (db (engine (submit config P d w e h))) h = Some i
            /\ In i (intents (db (engine (submit config P d w e h))))
            /\ intentId i = r_intentId r
            /\ sourceTxHash i = h.
Proof.
  intros Hout Hst.
  assert (Hfound : forall b i, getByTxHash b h = Some i ->
            In i (intents b) /\ sourceTxHash i = h).
  { intros b i H. unfold getByTxHash in H. apply find_some in H.
    destruct H as (Hin & Heq). split; [exact Hin | apply String.eqb_eq; exact Heq]. }
  destruct (submit_effect config P d w e h)
    as [(He & [(ex & Hk & Hal) | (Hnew & [(m & Hr) | Ht])])
       | (Hnew & i & b1 & Hs & _ & Hadd & Hdb & _ & m & Hresp)].
  - rewrite Hal in Hout. cbn [outcome already] in Hout. injection Hout as <-.
    rewrite He. exists ex. destruct (Hfound _ _ Hk) as (Hin & Hsrc).
    repeat split; assumption.
  - rewrite Hr in Hout. cbn [outcome reject] in Hout. injection Hout as <-.
    contradiction Hst. reflexivity.
  - rewrite Ht in Hout. discriminate.
  - rewrite Hresp in Hout. injection Hout as <-. cbn [r_intentId].
    destruct (add_some _ _ _ Hadd) as (Hi & _).
    assert (Hfind : getByTxHash b1 h = Some (row i)).
    { unfold getByTxHash. rewrite Hi. apply find_app_new; [exact Hnew | exact Hs]. }
    destruct Hdb as [Hdb | Hdb]; rewrite Hdb.
    + exists (row i). destruct (Hfound _ _ Hfind) as (Hin & Hsrc).
      repeat split; assumption.
    + rewrite getByTxHash_update, Hfind. cbn [option_map].
      eexists. split; [reflexivity|].
      assert (Hg : getByTxHash (update b1 (intentId i) (just_status EXPIRED)) h
                   = Some (if intentId (row i) =? intentId i
                           then merge (row i) (just_status EXPIRED) else row i)).
      { rewrite getByTxHash_update, Hfind. reflexivity. }
      destruct (Hfound _ _ Hg) as (Hin & Hsrc).
      split; [exact Hin|]. split; [|exact Hsrc].
      destruct (intentId (row i) =? intentId i); reflexivity.
Qed.

Lemma post_swap_cases (d : SwapDirection) (w : World) (e : Engine) (hash : Json.JS) :
  (exists msg, post_swap config P d w e hash = refuse e 400 msg
               /\ forall h, hash = Some (Json.JString h) ->
                    h = EmptyString
                    \/ match d with
                       | OCT_TO_ETH => Str.matches_hex64 h
                       | ETH_TO_OCT => Str.matches_0x_hex64 h
                       end = false)
  \/ (exists h, hash = Some (Json.JString h)
                /\ match d with
                   | OCT_TO_ETH => Str.matches_hex64 h
                   | ETH_TO_OCT => Str.matches_0x_hex64 h
                   end = true
                /\ post_swap config P d w e hash = answer (submit config P d w e h)).
Proof.
  destruct d; unfold post_swap, post_swap_oct_to_eth, post_swap_eth_to_oct, submit.
  - destruct (Json.truthy hash) eqn:Et; cbn [negb].
    + destruct (isValidOctraTxHash hash) eqn:Ev; cbn [negb].
      * right. unfold isValidOctraTxHash in Ev.
        destruct hash as [[| | |h| |]|]; try discriminate.
        exists h. repeat split. exact Ev.
      * left. eexists. split; [reflexivity|]. intros h ->. right. exact Ev.
    + left. eexists. split; [reflexivity|]. intros h ->. left.
      cbn [Json.truthy] in Et. apply negb_false_iff in Et.
      apply String.eqb_eq. exact Et.
  - destruct (Json.truthy hash) eqn:Et; cbn [negb].
    + destruct (isValidEthTxHash hash) eqn:Ev; cbn [negb].
      * right. unfold isValidEthTxHash in Ev.
        destruct hash as [[| | |h| |]|]; try discriminate.
        exists h. repeat split. exact Ev.
      * left. eexists. split; [reflexivity|]. intros h ->. right. exact Ev.
    + left. eexists. split; [reflexivity|]. intros h ->. left.
      cbn [Json.truthy] in Et. apply negb_false_iff in Et.
      apply String.eqb_eq. exact Et.
Qed.


Lemma reachable_post_swap (d : SwapDirection) (w : World) (e : Engine)
    (hash : Json.JS) :
  reachable s config P e -> reachable s config P (after (post_swap config P d w e hash)).
Proof.
  intros Hr.
  destruct (post_swap_cases d w e hash) as [(msg & -> & _) | (h & _ & _ & ->)].
  - exact Hr.
  - unfold answer. cbn [after]. destruct d; unfold submit.
    + apply reach_submitOct. exact Hr.
    + apply reach_submitEth. exact Hr.
Qed.

(** X24.  In a state the engine reaches, once a submission is answered with
    200, [GET /swap/:intentId] with the id of the answer (of the shape of a
    UUID) answers 200 with the intent of that id, whose source transaction
    is the submitted one and whose status is [OPEN], [PENDING], [FULFILLED]
    or [EXPIRED]. *)
Theorem submitted_intent_can_be_queried (d : SwapDirection) (w : World)
    (e : Engine) (h : string) (r : SubmitResponse) :
  reachable s config P e ->
  response (post_swap config P d w e (Some (Json.JString h)))
  = {| code := 200; body := SubmitBody r |} ->
  isValidIntentId (r_intentId r) = true ->
  exists sr,
    get_swap (after (post_swap config P d w e (Some (Json.JString h))))
      (r_intentId r)
    = {| code := 200; body := StatusBody sr |}
    /\ sr_intentId sr = r_intentId r
    /\ sr_sourceTxHash sr = h
    /\ (sr_status sr = OPEN \/ sr_status sr = PENDING
        \/ sr_status sr = FULFILLED \/ sr_status sr = EXPIRED).
Proof.
  intros Hr Hresp Hvalid.
  pose proof (reachable_post_swap d w e (Some (Json.JString h)) Hr) as Hr'.
  pose proof (reachable_uniqueId s config P _ Hr') as Hu.
  pose proof (wellFormed_rows s config P _ Hr') as Hw.
  rewrite Forall_forall in Hw.
  destruct (post_swap_cases d w e (Some (Json.JString h)))
    as [(msg & Hp & _) | (h' & Hh & _ & Hp)].
  { rewrite Hp in Hresp. discriminate. }
  injection Hh as <-. rewrite Hp in *. unfold answer in Hresp.
  cbn [response after] in *.
  destruct (outcome (submit config P d w e h)) as [r'|] eqn:Hout;
    [|discriminate].
  destruct (IntentStatus_eqb (r_status r') REJECTED) eqn:Er; [discriminate|].
  injection Hresp as <-.
  assert (Hne : r_status r' <> REJECTED)
    by (intros H; rewrite H in Er; discriminate).
  destruct (submit_row d w e h r' Hout Hne) as (i & _ & Hin & Hid & Hsrc).
  unfold get_swap. rewrite Hvalid. cbn [negb].
  rewrite <- Hid. rewrite (get_of_row _ i Hu Hin).
  eexists. split; [reflexivity|].
  cbn [sr_intentId sr_sourceTxHash sr_status].
  split; [reflexivity|]. split; [exact Hsrc|].
  exact (proj1 (Hw i Hin)).
Qed.

End RouteFacts.

(** * The explorer *)

Section ListingFacts.

Import Store Solver Routes.
Open Scope string_scope.

Lemma firstn_plus {A : Type} (a b : nat) (l : list A) :
  firstn (a + b) l = (firstn a l ++ firstn b (skipn a l))%list.
Proof.
  revert l. induction a as [|a IH]; intros l; [reflexivity|].
  destruct l as [|x l]; [cbn; rewrite firstn_nil; reflexivity|].
  cbn [Nat.add firstn skipn app]. rewrite IH. reflexivity.
Qed.

(** Pages of [n] entries, one after the other, give back the list. *)
Lemma pages_concat {A : Type} (n m : nat) (l : list A) :
  List.concat (map (fun p => firstn n (skipn ((p - 1) * n) l)) (seq 1 m))
  = firstn (m * n) l.
Proof.
  induction m as [|m IH]; [reflexivity|].
  rewrite seq_S, map_app, concat_app, IH. cbn [map List.concat Nat.add].
  rewrite app_nil_r.
  replace (S m - 1)%nat with m by lia.
  replace (S m * n)%nat with (m * n + n)%nat by lia.
  symmetry. apply firstn_plus.
Qed.

Lemma or_default_page (p : nat) : (1 <= p)%nat ->
  Z.max 1 (or_default (Some (Z.of_nat p)) 1) = Z.of_nat p.
Proof.
  intros H. unfold or_default.
  destruct (Z.of_nat p =? 0)%Z eqn:E; [apply Z.eqb_eq in E; lia|]. lia.
Qed.

(** [GET /explorer] throws when, and only when, [status] or [direction] is
    an array or an object. *)
Lemma explorer_intents_throws (e : Engine) (st d : Query) :
  explorer_intents e st d = None <-> st = q_other \/ d = q_other.
Proof.
  unfold explorer_intents. split.
  - destruct st as [|s0|]; [| |intros _; left; reflexivity].
    + destruct d as [|d0|]; [discriminate| |intros _; right; reflexivity].
      destruct (negb _ && _)%bool; discriminate.
    + destruct (negb _ && _)%bool;
        (destruct d as [|d0|]; [discriminate| |intros _; right; reflexivity];
         destruct (negb _ && _)%bool; discriminate).
  - intros [-> | ->]; [reflexivity|].
    destruct st as [|s0|]; [reflexivity| |reflexivity].
    destruct (negb _ && _)%bool; reflexivity.
Qed.

(** X25.  [GET /explorer] answers 500, with the error page of Express, when
    the query parameter [status] or [direction] is an array or an object (a
    name given more than once): [toUpperCase] is called on it and throws.
    With each of the two absent or a string it answers 200, with a page
    number of 1 at least and a limit from 1 to 100.  [total] is then the
    number of intents listed and [totalPages] the least number of pages of
    [limit] entries that hold them; a page has [limit] entries at most, a
    page after the last is empty, and the pages 1 to [totalPages], one after
    the other, are the list of the intents that pass the filters: none is
    left out and none comes twice. *)
Theorem explorer_pages_cover_the_list (e : Engine) (page limit : option Z)
    (st d : Query) :
  (st = q_other \/ d = q_other ->
   get_explorer e page limit st d = {| code := 500; body := ErrorPage |})
  /\ ((st = q_absent \/ exists s0, st = q_string s0) ->
      (d = q_absent \/ exists d0, d = q_string d0) ->
      exists listed r,
        explorer_intents e st d = Some listed
        /\ get_explorer e page limit st d
           = {| code := 200; body := ExplorerBody r |}
        /\ (1 <= ex_page r)%Z
        /\ (1 <= ex_limit r <= 100)%Z
        /\ ex_total r = Z.of_nat (List.length listed)
        /\ (ex_total r <= ex_totalPages r * ex_limit r < ex_total r + ex_limit r)%Z
        /\ (List.length (ex_swaps r) <= Z.to_nat (ex_limit r))%nat
        /\ ((ex_totalPages r < ex_page r)%Z -> ex_swaps r = [])
        /\ List.concat
             (map (fun p => swaps_of (get_explorer e (Some (Z.of_nat p)) limit st d))
                (seq 1 (Z.to_nat (ex_totalPages r))))
           = map explorer_swap listed).
Proof.
  split.
  { intros H. apply (explorer_intents_throws e) in H.
    unfold get_explorer. rewrite H. reflexivity. }
  intros Hst Hd.
  destruct (explorer_intents e st d) as [listed|] eqn:Hl.
  2:{ apply explorer_intents_throws in Hl.
      destruct Hl as [-> | ->];
        [destruct Hst as [H | (s0 & H)] | destruct Hd as [H | (d0 & H)]];
        discriminate H. }
  exists listed. eexists. split; [reflexivity|].
  split; [unfold get_explorer; rewrite Hl; reflexivity|].
  cbn [ex_page ex_limit ex_total ex_totalPages ex_swaps].
  set (lim := Z.min 100 (Z.max 1 (or_default limit 20))).
  set (pg := Z.max 1 (or_default page 1)).
  set (total := Z.of_nat (List.length listed)).
  assert (Hlim : (1 <= lim <= 100)%Z) by (unfold lim; lia).
  assert (Hpg : (1 <= pg)%Z) by (unfold pg; lia).
  assert (Htot : (0 <= total)%Z) by (unfold total; lia).
  assert (Hceil : (total <= ceil_div total lim * lim < total + lim)%Z).
  { unfold ceil_div.
    pose proof (Z.div_mod (total + lim - 1) lim ltac:(lia)) as Hdm.
    pose proof (Z.mod_pos_bound (total + lim - 1) lim ltac:(lia)) as Hmb.
    nia. }
  split; [exact Hpg|]. split; [exact Hlim|]. split; [reflexivity|].
  split; [exact Hceil|].
  assert (Hslice : forall q : Z, (1 <= q)%Z ->
            slice ((q - 1) * lim) ((q - 1) * lim + lim) listed
            = firstn (Z.to_nat lim) (skipn ((Z.to_nat q - 1) * Z.to_nat lim) listed)).
  { intros q Hq. unfold slice. f_equal; [f_equal; lia|]. f_equal. nia. }
  split.
  { rewrite length_map, (Hslice pg Hpg). rewrite length_firstn. lia. }
  split.
  { intros Hbeyond. rewrite (Hslice pg Hpg).
    rewrite skipn_all2; [rewrite firstn_nil; reflexivity|].
    assert ((Z.of_nat (List.length listed) <= (pg - 1) * lim)%Z) by (fold total; nia).
    nia. }
  rewrite (map_ext_in
             (fun p => swaps_of (get_explorer e (Some (Z.of_nat p)) limit st d))
             (fun p => map explorer_swap
                         (firstn (Z.to_nat lim)
                            (skipn ((p - 1) * Z.to_nat lim) listed)))).
  2:{ intros p Hp. apply in_seq in Hp.
      unfold swaps_of, get_explorer. rewrite Hl. cbn [body ex_swaps]. fold lim.
      rewrite (or_default_page p) by lia.
      rewrite (Hslice (Z.of_nat p)) by lia.
      replace (Z.to_nat (Z.of_nat p)) with p by lia. reflexivity. }
  rewrite <- (map_map (fun p => firstn (Z.to_nat lim)
                                  (skipn ((p - 1) * Z.to_nat lim) listed))
                (map explorer_swap)).
  rewrite <- concat_map, pages_concat.
  rewrite firstn_all2; [reflexivity|].
  fold total in Hceil. nia.
Qed.

End ListingFacts.

(** * The history endpoints *)

Section LookupFacts.

Import Store Solver Routes.
Open Scope string_scope.

(** X26.  [GET /oracle/price/history] always answers 200 with [count] the
    length of the list.  Without a limit, or with limit 0, it lists the
    newest 100 records; with a positive limit the newest [limit] records;
    with a negative limit every record but the oldest [- limit]. *)
Theorem price_history_endpoint (e : Engine) (limit : option Z) :
  exists history,
    get_oracle_price_history e limit
    = {| code := 200; body := PriceHistoryBody (List.length history) history |}
    /\ history = Oracle.getHistory (or_default limit 100) (oracle e)
    /\ (limit = None \/ limit = Some 0%Z ->
        history = Oracle.lastn 100 (Oracle.priceHistory (oracle e)))
    /\ (forall n, limit = Some n -> (0 < n)%Z ->
        history = Oracle.lastn (Z.to_nat n) (Oracle.priceHistory (oracle e))
        /\ (List.length history <= Z.to_nat n)%nat)
    /\ (forall n, limit = Some n -> (n < 0)%Z ->
        history = skipn (Z.to_nat (- n)) (Oracle.priceHistory (oracle e))).
Proof.
  eexists. split; [reflexivity|]. split; [reflexivity|].
  split; [|split].
  - intros [-> | ->]; cbn [or_default Z.eqb];
      exact (proj1 (proj1 (getHistory_by_limit 100 (oracle e)) ltac:(lia))).
  - intros n -> Hn. unfold or_default.
    destruct (n =? 0)%Z eqn:E; [apply Z.eqb_eq in E; lia|].
    destruct (proj1 (getHistory_by_limit n (oracle e)) Hn) as (H1 & H2).
    split; [exact H1|]. rewrite H2. lia.
  - intros n -> Hn. unfold or_default.
    destruct (n =? 0)%Z eqn:E; [apply Z.eqb_eq in E; lia|].
    exact (proj2 (proj2 (getHistory_by_limit n (oracle e))) Hn).
Qed.

Lemma sql_limit_In {A : Type} (limit : Z) (l : list A) (x : A) :
  In x (sql_limit limit l) -> In x l.
Proof.
  unfold sql_limit. destruct (limit <? 0)%Z; [auto|].
  intros H. rewrite <- (firstn_skipn (Z.to_nat limit) l).
  apply in_or_app. left. exact H.
Qed.

Lemma sql_limit_all {A : Type} (limit : Z) (l : list A) :
  (Z.of_nat (List.length l) <= limit)%Z -> sql_limit limit l = l.
Proof.
  intros H. unfold sql_limit. destruct (limit <? 0)%Z; [reflexivity|].
  apply firstn_all2. lia.
Qed.

Lemma sql_limit_length {A : Type} (limit : Z) (l : list A) :
  (0 <= limit)%Z -> (List.length (sql_limit limit l) <= Z.to_nat limit)%nat.
Proof.
  intros H. unfold sql_limit.
  destruct (limit <? 0)%Z eqn:E; [apply Z.ltb_lt in E; lia|].
  rewrite length_firstn. lia.
Qed.

Lemma lower_ascii_idempotent (c : ascii) :
  Str.lower_ascii (Str.lower_ascii c) = Str.lower_ascii c.
Proof.
  destruct c as [[] [] [] [] [] [] [] []]; vm_compute; reflexivity.
Qed.

Lemma toLowerCase_idempotent (t : string) :
  Str.toLowerCase (Str.toLowerCase t) = Str.toLowerCase t.
Proof.
  induction t as [|c t IH]; [reflexivity|].
  cbn [Str.toLowerCase]. rewrite lower_ascii_idempotent, IH. reflexivity.
Qed.

Lemma getIntentsByUser_In (b : Db) (address : string) (limit : Z) (j : Intent) :
  In j (getIntentsByUser b address limit) ->
  In j (intents b)
  /\ (sourceAddress j = Str.toLowerCase address
      \/ i_targetAddress j = Str.toLowerCase address).
Proof.
  unfold getIntentsByUser. intros H. apply sql_limit_In in H.
  apply (Permutation_in _ (sort_desc_perm _)) in H.
  apply filter_In in H. destruct H as (Hin & Hm). split; [exact Hin|].
  apply orb_prop in Hm. destruct Hm as [Hm | Hm]; apply String.eqb_eq in Hm; auto.
Qed.

(** X27.  Once an intent is added, [getIntentsByUser] with its source or its
    target address, in any letter case, returns its row (for a limit that
    is not below the number of rows).  The lookup of an address is the
    lookup of its lower case; every row it returns has the lower-cased
    address as source or target, and it returns [limit] rows at most. *)
Theorem history_lookup_ignores_case (b b1 : Db) (i : Intent) (address : string)
    (limit : Z) :
  add b i = Some b1 ->
  Str.toLowerCase address = Str.toLowerCase (sourceAddress i)
  \/ Str.toLowerCase address = Str.toLowerCase (i_targetAddress i) ->
  (Z.of_nat (List.length (intents b1)) <= limit)%Z ->
  In (row i) (getIntentsByUser b1 address limit)
  /\ getIntentsByUser b1 (Str.toLowerCase address) limit
     = getIntentsByUser b1 address limit
  /\ (forall j, In j (getIntentsByUser b1 address limit) ->
        In j (intents b1)
        /\ (sourceAddress j = Str.toLowerCase address
            \/ i_targetAddress j = Str.toLowerCase address))
  /\ (List.length (getIntentsByUser b1 address limit) <= Z.to_nat limit)%nat.
Proof.
  intros Hadd Haddr Hlim.
  destruct (add_some _ _ _ Hadd) as (Hrows & _).
  split; [|split; [|split]].
  - unfold getIntentsByUser.
    set (matching := filter _ (intents b1)).
    assert (Hlen : (List.length (sort_by_createdAt_desc matching)
                    <= List.length (intents b1))%nat).
    { rewrite (Permutation_length (sort_desc_perm matching)).
      apply filter_length_le. }
    rewrite sql_limit_all by lia.
    apply (Permutation_in _ (Permutation_sym (sort_desc_perm matching))).
    apply filter_In. split.
    + rewrite Hrows. apply in_or_app. right. left. reflexivity.
    + cbn [row sourceAddress i_targetAddress].
      destruct Haddr as [-> | ->]; rewrite String.eqb_refl;
        [reflexivity | apply orb_true_r].
  - unfold getIntentsByUser. rewrite toLowerCase_idempotent. reflexivity.
  - intros j. apply getIntentsByUser_In.
  - apply sql_limit_length. lia.
Qed.

(** X28.  [GET /history/:address] answers 400 for an address that is neither
    an Octra nor an EVM address.  Otherwise it answers 200 with 100 entries
    at most, [count] being their number; every entry is made of a stored
    intent whose source or target address is the lower-cased address, with
    its id, its source transaction and its status in lower case. *)
Theorem history_endpoint (e : Engine) (address : string) (limit : option Z) :
  (isValidAddress address = false ->
   code (get_history e address limit) = 400%nat)
  /\ (isValidAddress address = true ->
      exists swaps,
        get_history e address limit
        = {| code := 200; body := HistoryBody address (List.length swaps) swaps |}
        /\ (List.length swaps <= 100)%nat
        /\ forall sw, In sw swaps ->
             exists i, In i (intents (db e))
                       /\ hs_id sw = intentId i
                       /\ hs_sourceTxHash sw = sourceTxHash i
                       /\ hs_status sw
                          = Str.toLowerCase (IntentStatus_name (status i))
                       /\ (sourceAddress i = Str.toLowerCase address
                           \/ i_targetAddress i = Str.toLowerCase address)).
Proof.
  unfold get_history, isValidAddress. split.
  - intros H. destruct (address =? EmptyString); [reflexivity|].
    rewrite H. reflexivity.
  - intros H. destruct (address =? EmptyString); [discriminate|].
    rewrite H. cbn [negb]. eexists. split; [reflexivity|]. split.
    + rewrite length_map.
      pose proof (sql_limit_length (Z.min 100 (Z.max 1 (or_default limit 50)))
                    (sort_by_createdAt_desc
                       (filter (fun i => ((sourceAddress i =? Str.toLowerCase address)
                                          || (i_targetAddress i =? Str.toLowerCase address))%bool)
                          (intents (db e)))) ltac:(lia)) as Hl.
      unfold getIntentsByUser. lia.
    + intros sw Hsw. apply in_map_iff in Hsw. destruct Hsw as (i & <- & Hi).
      destruct (getIntentsByUser_In _ _ _ _ Hi) as (Hin & Haddr).
      exists i. cbn [hs_id hs_sourceTxHash hs_status]. repeat split; assumption.
Qed.

End LookupFacts.

(** * Runs for the facts above *)

Section OracleWitnesses.

Import Oracle Runs.

(** The witness of X1: a trade of 1000 on the new oracle. *)
Lemma price_impact_closed_form_witness :
  steady oracle0
  /\ priceImpactPercent (calculatePriceImpact OCT_TO_ETH 1000 oracle0)
     = 1000 / (octReserve (reserves oracle0) + 1000) * 100
  /\ priceImpactPercent (calculatePriceImpact ETH_TO_OCT 1000 oracle0)
     = 1000 / ethReserve (reserves oracle0) * 100.
Proof.
  assert (Hs : spotPrice oracle0 = calculateSpotPrice oracle0).
  { unfold calculateSpotPrice. destruct oracle0_fields as (-> & -> & _).
    reflexivity. }
  assert (Ha : 0 < 1000) by lra.
  pose proof (price_impact_closed_form oracle0 1000 oracle0_steady Hs Ha)
    as (H1 & H2 & _).
  split; [exact oracle0_steady|]. split; [exact H1 | exact H2].
Defined.

(** The witness of X2: the first swap on the new oracle. *)
Lemma recordSwap_prices_in_band_witness :
  minRate (CONFIG defaults) <= spotPrice oracle1 <= maxRate (CONFIG defaults)
  /\ minRate (CONFIG defaults) <= emaPrice oracle1 <= maxRate (CONFIG defaults).
Proof.
  assert (Hb : minRate (CONFIG defaults) <= maxRate (CONFIG defaults)).
  { destruct band as (-> & -> & _). lra. }
  exact (recordSwap_prices_in_band defaults 60000 OCT_TO_ETH 25000 oracle0 Hb).
Defined.

(** The witness of X5: the oracle after the first swap, between 0 and 1. *)
Lemma twap_within_sampled_prices_witness :
  0 <= calculateTWAP oracle1 <= 1.
Proof.
  assert (Hs : 0 <= spotPrice oracle1 <= 1).
  { destruct oracle1_fields as (_ & -> & _). unfold spot1. lra. }
  assert (Hp : forall dp, In dp (twapDataPoints oracle1) -> 0 <= price dp <= 1).
  { destruct oracle1_fields as (_ & _ & _ & -> & _).
    intros dp [<- | [<- | []]]; cbn [price]; unfold spot1; lra. }
  exact (proj1 (twap_within_sampled_prices oracle1 0 1 Hs Hp)).
Defined.

(** The witness of X6: the new oracle after one minute. *)
Lemma updateTWAP_keeps_window_witness :
  0 <= twapWindowMs (CONFIG defaults)
  /\ (forall dp, In dp (twapDataPoints (updateTWAP defaults 60000 oracle0)) ->
        60000 - twapWindowMs (CONFIG defaults) <= timestamp dp)
  /\ (List.length (twapDataPoints (updateTWAP defaults 60000 oracle0))
      <= S (List.length (twapDataPoints oracle0)))%nat.
Proof.
  assert (Hw : 0 <= twapWindowMs (CONFIG defaults)).
  { destruct band as (_ & _ & _ & ->). lra. }
  pose proof (updateTWAP_keeps_window defaults 60000 oracle0 Hw)
    as (_ & Hin & Hlen & _).
  split; [exact Hw|]. split; [exact Hin | exact Hlen].
Defined.

(** The pool after the second swap, and a third swap of 1000 OCT one minute
    later, in the cooldown of the second. *)
Lemma reserves_oracle2 :
  reserves oracle2
  = {| octReserve := 2050000; ethReserve := 20000 / 41; k := 1000000 * 1000 |}.
Proof.
  unfold oracle2. rewrite reserves_recordSwap.
  destruct (beforeBounds_tripped defaults 120000 OCT_TO_ETH 1025000 oracle1 trips_2)
    as (Bsp & _).
  rewrite reserves_applyPriceBounds_inside.
  - rewrite reserves_beforeBounds. exact traded_2.
  - rewrite Bsp. destruct oracle1_fields as (_ & _ & -> & _).
    destruct band as (-> & -> & _). unfold ema1. lra.
Qed.

Lemma traded_3 :
  reserves (updateReserves 180000 OCT_TO_ETH 1000 oracle2)
  = {| octReserve := 2051000; ethReserve := 1000000 / 2051;
       k := 1000000 * 1000 |}.
Proof.
  unfold updateReserves, calculateEthOut.
  cbn [reserves set_volumeHistory set_reserves].
  rewrite reserves_oracle2.
  cbn [octReserve ethReserve k]. decide_numbers. f_equal; lra.
Qed.

Lemma trips_3 : trips defaults 180000 OCT_TO_ETH 1000 oracle2.
Proof.
  unfold trips, calculateSpotPrice. rewrite traded_3.
  destruct oracle2_fields as (-> & _).
  unfold priceChange, ema1.
  cbn [octReserve ethReserve maxPriceChangePercent CONFIG defaults
       MAX_PRICE_CHANGE_PERCENT].
  decide_numbers. lra.
Qed.

(** The witness of X7: the breaker trips at two minutes and at three, and
    is down again five seconds after the first reset, at 425000. *)
Lemma second_trip_cooldown_is_cut_short_witness :
  trips defaults 120000 OCT_TO_ETH 1025000 oracle1
  /\ trips defaults 180000 OCT_TO_ETH 1000 oracle2
  /\ resetTimers (recordSwap defaults 180000 OCT_TO_ETH 1000 oracle2)
     = [120000 + COOLDOWN_MS; 180000 + COOLDOWN_MS]
  /\ circuitBreakerActive
       (fireDueTimers 425000 (recordSwap defaults 180000 OCT_TO_ETH 1000 oracle2))
     = false.
Proof.
  assert (Htim : resetTimers oracle1 = [])
    by exact (proj2 (proj2 (proj2 (proj2 (proj2 oracle1_fields))))).
  assert (H1 : 180000 < 120000 + COOLDOWN_MS) by (unfold COOLDOWN_MS; lra).
  assert (H2 : 120000 + COOLDOWN_MS <= 425000 < 180000 + COOLDOWN_MS)
    by (unfold COOLDOWN_MS; lra).
  pose proof (second_trip_cooldown_is_cut_short defaults 120000 180000 425000
                1025000 1000 OCT_TO_ETH OCT_TO_ETH oracle1 Htim trips_2 trips_3
                H1 H2) as (_ & Ht & Hoff & _).
  split; [exact trips_2|]. split; [exact trips_3|].
  split; [exact Ht | exact Hoff].
Defined.

End OracleWitnesses.

Section EngineWitnesses.

Import Json Envelope Store Solver Routes Fixture Runs.
Open Scope string_scope.

(** The witness of X27: the row of A is found by the address of Alice in
    upper case. *)
Lemma history_lookup_ignores_case_witness :
  add Store.empty (rowA PENDING)
  = Some {| intents := [rowA PENDING]; nonces := ["nonce-A"] |}
  /\ In (rowA PENDING)
       (getIntentsByUser {| intents := [rowA PENDING]; nonces := ["nonce-A"] |}
          "OCT1ALICE" 10).
Proof.
  assert (Hadd : add Store.empty (rowA PENDING)
                 = Some {| intents := [rowA PENDING]; nonces := ["nonce-A"] |})
    by reflexivity.
  assert (Haddr : Str.toLowerCase "OCT1ALICE"
                  = Str.toLowerCase (sourceAddress (rowA PENDING))
                  \/ Str.toLowerCase "OCT1ALICE"
                     = Str.toLowerCase (i_targetAddress (rowA PENDING)))
    by (left; reflexivity).
  assert (Hlim : (Z.of_nat (List.length
                    (intents {| intents := [rowA PENDING];
                                nonces := ["nonce-A"] |})) <= 10)%Z)
    by (cbn; lia).
  split; [exact Hadd|].
  exact (proj1 (history_lookup_ignores_case Store.empty _ (rowA PENDING)
                  "OCT1ALICE" 10 Hadd Haddr Hlim)).
Defined.

Lemma rowA_stored : In (rowA PENDING) (intents (db (engine stepA))).
Proof. rewrite stepA_eq. left. reflexivity. Qed.

(** The witness of X12: the row of A, once A is submitted. *)
Lemma intent_id_identifies_one_row_witness :
  reachable Oracle.defaults config node (engine stepA)
  /\ Store.get (db (engine stepA)) (intentId (rowA PENDING)) = Some (rowA PENDING).
Proof.
  pose proof (intent_id_identifies_one_row Oracle.defaults config node
                (engine stepA) reachable_stepA) as (_ & Hget & _).
  split; [exact reachable_stepA | exact (Hget _ rowA_stored)].
Defined.

(** The witness of X13: the row of A, once A is submitted. *)
Lemma stored_rows_are_never_rejected_witness :
  reachable Oracle.defaults config node (engine stepA)
  /\ (status (rowA PENDING) = OPEN \/ status (rowA PENDING) = PENDING
      \/ status (rowA PENDING) = FULFILLED \/ status (rowA PENDING) = EXPIRED).
Proof.
  pose proof (stored_rows_are_never_rejected Oracle.defaults config node
                (engine stepA) reachable_stepA) as (Hrows & _).
  split; [exact reachable_stepA | exact (proj1 (Hrows _ rowA_stored))].
Defined.

(** The witness of X14: the nonce of A is used, and still is once B is
    submitted. *)
Lemma used_nonce_is_refused_witness :
  reachable Oracle.defaults config node (engine stepA)
  /\ isNonceUsed (db (engine stepA)) "nonce-A" = true
  /\ isNonceUsed (db (engine stepB)) "nonce-A" = true.
Proof.
  pose proof (used_nonce_is_refused Oracle.defaults config node (engine stepA)
                reachable_stepA) as (Hrec & Hsub & _).
  pose proof (Hrec _ rowA_stored) as Hn.
  split; [exact reachable_stepA|]. split; [exact Hn|].
  exact (Hsub "nonce-A" OCT_TO_ETH worldB hashB Hn).
Defined.

(** The witness of X16: the payout the submission of B starts. *)
Lemma submission_payout_is_covered_witness :
  In {| pay_direction := OCT_TO_ETH; pay_intent := rowB OPEN None None None;
        pay_amount := 995 / 11 |} (inflight stepB)
  /\ i_minAmountOut (rowB OPEN None None None) <= 995 / 11
  /\ 995 / 11 * LIQUIDITY_BUFFER <= probed OCT_TO_ETH worldB.
Proof.
  assert (Hin : In {| pay_direction := OCT_TO_ETH;
                      pay_intent := rowB OPEN None None None;
                      pay_amount := 995 / 11 |} (inflight stepB)).
  { rewrite stepB_eq. left. reflexivity. }
  pose proof (submission_payout_is_covered config node OCT_TO_ETH worldB
                (engine stepA) hashB _ Hin)
    as (_ & _ & _ & _ & _ & _ & _ & Hmin & Hliq & _).
  split; [exact Hin|]. split; [exact Hmin | exact Hliq].
Defined.

(** The witness of X17: the payout the Sepolia deposit starts. *)
Lemma payout_goes_to_the_lower_cased_address_witness :
  getByTxHash (db start) hashE = None
  /\ ethValid config node worldB start hashE txE verified "oct1recipient" "n-1"
  /\ i_targetAddress (rowE OPEN None None None) = Str.toLowerCase "oct1recipient".
Proof.
  assert (Hnew : getByTxHash (db start) hashE = None) by reflexivity.
  assert (Hin : In {| pay_direction := ETH_TO_OCT;
                      pay_intent := rowE OPEN None None None;
                      pay_amount := 995000 / 1001 |}
                  (inflight (processEthToOctSubmission config node worldB start hashE))).
  { change (processEthToOctSubmission config node worldB start hashE) with stepE.
    rewrite stepE_eq. left. reflexivity. }
  pose proof (payout_goes_to_the_lower_cased_address config node worldB start
                hashE
                {| pay_direction := ETH_TO_OCT;
                   pay_intent := rowE OPEN None None None;
                   pay_amount := 995000 / 1001 |} Hnew) as (_ & Heth).
  split; [exact Hnew|]. split; [exact valid_E|].
  exact (proj1 (Heth txE verified "oct1recipient" "n-1" valid_E Hin)).
Defined.

Lemma afterB_uniqueId : uniqueId (db afterB).
Proof.
  unfold uniqueId. rewrite afterB_eq. cbn [db intents map intentId rowA rowB].
  constructor.
  - intros [H | []]. discriminate H.
  - constructor; [intros [] | constructor].
Qed.

(** The witness of X18: the run of the checker after B is paid out. *)
Lemma checker_expires_overdue_intents_witness :
  uniqueId (db afterB)
  /\ map key (intents (db (fst (expiryChecker config checkerWorld afterB))))
     = map key (intents (db afterB)).
Proof.
  pose proof (checker_expires_overdue_intents config checkerWorld afterB
                afterB_uniqueId) as (_ & _ & Hk).
  split; [exact afterB_uniqueId | exact Hk].
Defined.

(** The witness of X19: the row of B, fulfilled, through that run. *)
Lemma closed_intents_are_left_alone_witness :
  live (rowB FULFILLED (Some "0xpayout") (Some (995 / 11)) (Some 3000)) = false
  /\ In (rowB FULFILLED (Some "0xpayout") (Some (995 / 11)) (Some 3000))
       (intents (db (fst (expiryChecker config checkerWorld afterB)))).
Proof.
  assert (Hin : In (rowB FULFILLED (Some "0xpayout") (Some (995 / 11)) (Some 3000))
                  (intents (db afterB))).
  { rewrite afterB_eq. right. left. reflexivity. }
  assert (Hl : live (rowB FULFILLED (Some "0xpayout") (Some (995 / 11))
                       (Some 3000)) = false) by reflexivity.
  pose proof (closed_intents_are_left_alone Oracle.defaults config node afterB _
                afterB_uniqueId Hin Hl) as (_ & Hchk & _).
  split; [exact Hl | exact (Hchk checkerWorld)].
Defined.

(** The witness of X20: the envelope of the fixture, read as a memo. *)
Lemma octra_envelope_hash_is_checked_witness :
  decodeEnvelope node (evmEnvelopeText "1") = Some (evmEnvelope 1)
  /\ parseAndVerifyOctraEnvelope node (evmEnvelopeText "1") = Valid (evmPayload 1).
Proof.
  assert (Hp : Json.get (evmEnvelope 1) "payload" = Some (Some (evmPayload 1)))
    by reflexivity.
  assert (Hh : Json.get (evmEnvelope 1) "hash" = Some (Some (JString digest)))
    by reflexivity.
  assert (Ho : or_else (Some (evmPayload 1)) (Some (evmEnvelope 1))
               = Some (evmPayload 1)) by reflexivity.
  pose proof (octra_envelope_hash_is_checked node (evmEnvelopeText "1")
                (evmEnvelope 1) (evmPayload 1) _ _ decodeEnvelope_1 Hp Hh Ho)
    as (Hok & _).
  split; [exact decodeEnvelope_1|].
  apply Hok; [reflexivity|].
  change (evmPayload 1) with rebuilt. rewrite hash_of_rebuilt. reflexivity.
Defined.

(** The witness of X21: the deposit A. *)
Lemma accepted_oct_deposit_witness :
  octValid config node worldA start hashA txA payloadA
  /\ oct_to txA = octraEscrowAddress config
  /\ now_check worldA <= expiry payloadA.
Proof.
  pose proof (accepted_oct_deposit config node worldA start hashA txA payloadA
                valid_A) as (_ & _ & Hto & _ & Hexp & _).
  split; [exact valid_A|]. split; [exact Hto | exact Hexp].
Defined.

(** The witness of X22: the plain transfer of 1 ETH to the escrow. *)
Lemma deposit_without_payload_is_rejected_witness :
  getByTxHash (db start) hashG = None
  /\ processEthToOctSubmission config node worldG start hashG
     = reject start (EnvelopeError "No payload in tx.input").
Proof.
  assert (Hnew : getByTxHash (db start) hashG = None) by reflexivity.
  pose proof (deposit_without_payload_is_rejected config node worldG start hashG
                Hnew) as (Heth & _).
  split; [exact Hnew|].
  apply (Heth txG).
  - reflexivity.
  - reflexivity.
  - reflexivity.
  - right. left. reflexivity.
Defined.

Lemma start_reachable : reachable Oracle.defaults config node start.
Proof. exact (reach_start Oracle.defaults config node 0). Qed.

Lemma post_swap_A :
  response (post_swap config node OCT_TO_ETH worldA start (Some (JString hashA)))
  = {| code := 200;
       body := SubmitBody {| r_intentId := "11111111-1111-4111-8111-111111111111";
                             r_status := PENDING;
                             r_message := QueuedForLiquidity |} |}.
Proof.
  unfold post_swap, post_swap_oct_to_eth.
  assert (Ht : truthy (Some (JString hashA)) = true) by reflexivity.
  assert (Hv : isValidOctraTxHash (Some (JString hashA)) = true)
    by (vm_compute; reflexivity).
  rewrite Ht, Hv. cbn [negb].
  change (processOctToEthSubmission config node worldA start hashA) with stepA.
  rewrite stepA_eq. reflexivity.
Qed.

(** The witness of X24: A is submitted at start and then queried by its
    id. *)
Lemma submitted_intent_can_be_queried_witness :
  reachable Oracle.defaults config node start
  /\ exists sr,
       get_swap
         (after (post_swap config node OCT_TO_ETH worldA start
                   (Some (JString hashA))))
         "11111111-1111-4111-8111-111111111111"
       = {| code := 200; body := StatusBody sr |}
       /\ sr_sourceTxHash sr = hashA.
Proof.
  assert (Hid : isValidIntentId "11111111-1111-4111-8111-111111111111" = true)
    by (vm_compute; reflexivity).
  destruct (submitted_intent_can_be_queried Oracle.defaults config node
              OCT_TO_ETH worldA start hashA _ start_reachable post_swap_A Hid)
    as (sr & Hget & _ & Hsrc & _).
  split; [exact start_reachable|].
  exists sr. split; [exact Hget | exact Hsrc].
Defined.

End EngineWitnesses.
